(** * libretto vSphere backend: a shallow embedding of [virtualmachine/vsphere/util.go]

    The development follows the layout of the Go file: the inventory
    resolver's path splitting, disk reconciliation, the lifecycle
    controller (heartbeat predicate, [start], [waitForIP], recent tasks),
    the placement selector ([validateHost], [filterHosts]) and the question
    responder.  Go strings are byte strings, modelled as [string]; [int64]
    values are [Z] with the wrap-around written out; backend round trips
    are oracles that either answer or fail. *)

From Equations Require Import Equations.
From stdpp Require Import base option list strings gmap.
From Stdlib Require Import ZArith Ascii String Lia.

Local Open Scope string_scope.
Local Open Scope Z_scope.

(** ** Errors and fallible results *)

(** A Go [error] value as the code builds it: [errors.New], [fmt.Errorf]
    with its format string and arguments, the package's sentinel
    [ErrorVMPowerStateChanging], [NewErrorObjectNotFound], or a fault
    reported by the backend. *)
Inductive error : Type :=
| errorsNew (text : string)
| Errorf (format : string) (args : list fmtArg)
| ErrorVMPowerStateChanging
| NewErrorObjectNotFound (err : error) (name : string)
| Fault (msg : string)
with fmtArg : Type :=
| ArgString (s : string)
| ArgError (e : option error).

(** A Go result pair [(value, err)]: the value when [err == nil], the
    error otherwise. *)
Inductive result (A : Type) : Type :=
| Ok (a : A)
| Err (e : error).
Arguments Ok {A} a.
Arguments Err {A} e.

(** [types.ManagedObjectReference]: the type tag and the identifier of an
    inventory object. *)
Record ManagedObjectReference : Type := {
  Type_ : string;
  Value : string;
}.

(** ** Go's [strings] package, the part [util.go] calls *)

Module GoStrings.

(** The slice expression [s[n:]], for [n] within the string. *)
Fixpoint dropBytes (n : nat) (s : string) : string :=
  match n, s with
  | S n', String _ s' => dropBytes n' s'
  | _, _ => s
  end.

(** [strings.SplitN(s, sep, 2)] for a non-empty [sep]: the text before the
    first occurrence of [sep], and the text after it when there is one
    (the returned slice has length 2), or the whole string and nothing
    (length 1). *)
Fixpoint SplitN2 (s sep : string) : string * option string :=
  if String.prefix sep s then
    (EmptyString, Some (dropBytes (String.length sep) s))
  else
    match s with
    | EmptyString => (EmptyString, None)
    | String c s' =>
        let '(h, r) := SplitN2 s' sep in (String c h, r)
    end.

(** [strings.Split(s, sep)] for a separator of one byte: always at least
    one field; the fields hold no separator. *)
Fixpoint Split (s : string) (sep : ascii) : list string :=
  match s with
  | EmptyString => [EmptyString]
  | String c s' =>
      if Ascii.eqb c sep then EmptyString :: Split s' sep
      else
        match Split s' sep with
        | f :: fs => String c f :: fs
        | [] => [String c EmptyString]
        end
  end.

(** [strings.Join(elems, sep)]. *)
Fixpoint Join (elems : list string) (sep : string) : string :=
  match elems with
  | [] => EmptyString
  | [e] => e
  | e :: es => e +:+ sep +:+ Join es sep
  end.

(** [strings.Replace(s, string(old), new, -1)] for a one-byte [old]. *)
Fixpoint ReplaceAll (s : string) (old : ascii) (new : string) : string :=
  match s with
  | EmptyString => EmptyString
  | String c s' =>
      if Ascii.eqb c old then new +:+ ReplaceAll s' old new
      else String c (ReplaceAll s' old new)
  end.

End GoStrings.

(** ** Inventory resolver: splitting a path with escaped separators *)

Module Inventory.
Import GoStrings.

(** The escaped separator, the Go literal ["\\/"]: a backslash and a slash. *)
Definition escapedSlash : string := String "\" (String "/" EmptyString).

(** Keeps the equation of a scrutinee in scope of its branches. *)
Definition inspect {A : Type} (a : A) : {b : A | a = b} := exist _ a eq_refl.

Lemma append_cons (c : ascii) (a b : string) :
  String c a +:+ b = String c (a +:+ b).
Proof. reflexivity. Qed.

Lemma append_nil (b : string) : EmptyString +:+ b = b.
Proof. reflexivity. Qed.

Lemma prefix_dropBytes (p s : string) :
  String.prefix p s = true -> s = p +:+ dropBytes (String.length p) s.
Proof.
  revert s. induction p as [|c p IH]; intros s H.
  - destruct s; reflexivity.
  - destruct s as [|d s]; simpl in H; [discriminate|].
    destruct (ascii_dec c d) as [->|]; [|discriminate].
    rewrite append_cons. simpl. f_equal. apply IH, H.
Qed.

Lemma SplitN2_unfold (s sep : string) :
  SplitN2 s sep =
    if String.prefix sep s then
      (EmptyString, Some (dropBytes (String.length sep) s))
    else
      match s with
      | EmptyString => (EmptyString, None)
      | String c s' => let '(h, r) := SplitN2 s' sep in (String c h, r)
      end.
Proof. destruct s; reflexivity. Qed.

Lemma SplitN2_Some (s sep h r : string) :
  SplitN2 s sep = (h, Some r) -> s = h +:+ sep +:+ r.
Proof.
  revert h r. induction s as [|c s IH]; intros h r H;
    rewrite SplitN2_unfold in H;
    destruct (String.prefix sep _) eqn:P;
    try (simplify_eq; apply prefix_dropBytes in P; exact P).
  destruct (SplitN2 s sep) as [h' r'] eqn:E. simplify_eq.
  rewrite append_cons. f_equal. apply IH. reflexivity.
Qed.

Lemma length_append (a b : string) :
  String.length (a +:+ b) = (String.length a + String.length b)%nat.
Proof. induction a; rewrite ?append_cons, ?append_nil; simpl; congruence. Qed.

Lemma SplitN2_shorter (s h r : string) :
  SplitN2 s escapedSlash = (h, Some r) ->
  (String.length r < String.length s)%nat.
Proof.
  intros H. apply SplitN2_Some in H. subst s.
  rewrite !length_append. unfold escapedSlash. simpl. lia.
Qed.

(** [splitPathToList], util.go lines 506-529.  The result is [None] when an
    index expression of the body ([pathList[lPathList-1]],
    [morePathList[0]], [morePathList[1:]]) is out of range, where Go
    panics. *)
Equations? splitPathToList (path : string) : option (list string)
  by wf (String.length path) lt :=
splitPathToList path with inspect (SplitN2 path escapedSlash) := {
  | exist _ (slashInName0, None) _ => Some (Split slashInName0 "/")
  | exist _ (slashInName0, Some slashInName1) E =>
      let pathList := Split slashInName0 "/" in
      match splitPathToList slashInName1 with
      | None => None
      | Some morePathList =>
          let lPathList := List.length pathList in
          match pathList !! (lPathList - 1)%nat, morePathList !! 0%nat with
          | Some lastName, Some more0 =>
              Some (<[(lPathList - 1)%nat := lastName +:+ "/" +:+ more0]> pathList
                      ++ drop 1 morePathList)%list
          | _, _ => None
          end
      end }.
Proof. eapply SplitN2_shorter, E. Qed.

(** The inverse the specification describes: every "/" inside a segment
    goes back to the escaped form, and the segments are joined by "/". *)
Definition escapeSegment (seg : string) : string :=
  ReplaceAll seg "/" escapedSlash.

Definition rejoinPath (pathList : list string) : string :=
  Join (map escapeSegment pathList) "/".

(** [mo.VirtualMachine] as [searchTree] retrieves it; the search reads
    its [Name]. *)
Record VirtualMachine : Type := {
  Name : string;
}.

(** How a call of [searchTree] ends: with the VM, with an error, with the
    run-time panic of an index out of range, or, in this model, with the
    walk cut off after [fuel] folders. *)
Inductive searchResult : Type :=
| Found (vmMo : VirtualMachine)
| Failed (err : error)
| IndexOutOfRange
| OutOfFuel.

(** What the loop over a folder's children hands back: a return from
    [searchTree], or the values of [iPathList] and [mor] after the last
    child. *)
Inductive loopExit : Type :=
| Return (r : searchResult)
| Continue (iPathList : Z) (mor : option ManagedObjectReference).

(** The index expression [pathList[i]] for a Go [int]. *)
Definition index (pathList : list string) (i : Z) : option string :=
  if i <? 0 then None else pathList !! Z.to_nat i.

Section Collector.

(** The collector's [RetrieveOne] of a folder's ["childEntity"], of a
    folder's ["name"] and of a VM's properties; [isObjectDeleted], declared
    outside util.go; and [url.QueryUnescape] of Go's library. *)
Variable RetrieveChildEntity :
  ManagedObjectReference -> result (list ManagedObjectReference).
Variable RetrieveFolderName : ManagedObjectReference -> result string.
Variable RetrieveVirtualMachine : ManagedObjectReference -> result VirtualMachine.
Variable isObjectDeleted : error -> bool.
Variable QueryUnescape : string -> result string.

(** The loop over [folderMo.ChildEntity], lines 553-608.  The [break] at
    line 579 leaves the [switch], not the loop: the remaining children are
    still visited. *)
Fixpoint childLoop (pathList : list string) (lPathList : Z)
    (children : list ManagedObjectReference) (iPathList : Z)
    (mor : option ManagedObjectReference) : loopExit :=
  match children with
  | [] => Continue iPathList mor
  | child :: rest =>
      if String.eqb (Type_ child) "Folder" then
        if iPathList =? lPathList - 1 then
          childLoop pathList lPathList rest iPathList mor
        else
          match RetrieveFolderName child with
          | Err err =>
              if isObjectDeleted err then
                childLoop pathList lPathList rest iPathList mor
              else Return (Failed err)
          | Ok name =>
              match QueryUnescape name with
              | Err err => Return (Failed err)
              | Ok childName =>
                  match index pathList iPathList with
                  | None => Return IndexOutOfRange
                  | Some segment =>
                      if String.eqb childName segment then
                        childLoop pathList lPathList rest (iPathList + 1)
                          (Some child)
                      else childLoop pathList lPathList rest iPathList mor
                  end
              end
          end
      else if String.eqb (Type_ child) "VirtualMachine" then
        if negb (iPathList =? lPathList - 1) then
          childLoop pathList lPathList rest iPathList mor
        else
          match RetrieveVirtualMachine child with
          | Err err =>
              if isObjectDeleted err then
                childLoop pathList lPathList rest iPathList mor
              else Return (Failed err)
          | Ok vmMo =>
              match QueryUnescape (Name vmMo) with
              | Err err => Return (Failed err)
              | Ok vmName =>
                  match index pathList iPathList with
                  | None => Return IndexOutOfRange
                  | Some segment =>
                      if String.eqb vmName segment then Return (Found vmMo)
                      else childLoop pathList lPathList rest iPathList mor
                  end
              end
          end
      else childLoop pathList lPathList rest iPathList mor
  end.

Definition notFound (name : string) : searchResult :=
  Failed (NewErrorObjectNotFound (errorsNew "could not find the vm") name).

(** The loop [for mor != nil], lines 543-614, for at most [fuel] folders. *)
Fixpoint searchLoop (fuel : nat) (pathList : list string) (lPathList : Z)
    (name : string) (mor : option ManagedObjectReference) (iPathList : Z)
  : searchResult :=
  match mor with
  | None => notFound name
  | Some folder =>
      match fuel with
      | O => OutOfFuel
      | S fuel' =>
          match RetrieveChildEntity folder with
          | Err err => Failed err
          | Ok children =>
              match childLoop pathList lPathList children iPathList None with
              | Return r => r
              | Continue _ None => notFound name
              | Continue iPathList' (Some child) =>
                  searchLoop fuel' pathList lPathList name (Some child)
                    iPathList'
              end
          end
      end
  end.

(** [searchTree], lines 532-618. *)
Definition searchTree (fuel : nat) (mor : option ManagedObjectReference)
    (name : string) : searchResult :=
  match splitPathToList name with
  | None => IndexOutOfRange
  | Some pathList =>
      let lPathList := Z.of_nat (List.length pathList) in
      searchLoop fuel pathList lPathList name mor 0
  end.

(** The call did not end in an index out of range. *)
Definition inRange (r : searchResult) : bool :=
  match r with
  | IndexOutOfRange => false
  | _ => true
  end.

(** *** Facts about the [strings] functions *)

Lemma append_assoc (a b c : string) : (a +:+ b) +:+ c = a +:+ (b +:+ c).
Proof.
  induction a as [|x a IH]; rewrite ?append_nil; [reflexivity|].
  rewrite !append_cons, IH. reflexivity.
Qed.

Lemma SplitN2_None (s sep h : string) : SplitN2 s sep = (h, None) -> h = s.
Proof.
  revert h. induction s as [|c s IH]; intros h H;
    rewrite SplitN2_unfold in H;
    destruct (String.prefix sep _); simplify_eq; [reflexivity|].
  destruct (SplitN2 s sep) as [h' r'] eqn:E. simplify_eq.
  f_equal. apply IH. reflexivity.
Qed.

Lemma Split_cons (s : string) (c : ascii) : exists f fs, Split s c = f :: fs.
Proof.
  induction s as [|d s IH]; simpl; [eauto|].
  destruct (Ascii.eqb d c); [eauto|].
  destruct IH as (f & fs & ->). eauto.
Qed.

Lemma Split_snoc (s : string) (c : ascii) :
  exists init x, Split s c = (init ++ [x])%list.
Proof.
  destruct (Split_cons s c) as (f & fs & ->).
  destruct (exists_last (l := f :: fs)) as (init & x & ->); [discriminate|].
  eauto.
Qed.

(** No field of [Split s c] holds the separator, so replacing it changes
    nothing. *)
Lemma Split_ReplaceAll (s : string) (c : ascii) (new : string) :
  map (fun f => ReplaceAll f c new) (Split s c) = Split s c.
Proof.
  induction s as [|d s IH]; simpl; [reflexivity|].
  destruct (Ascii.eqb d c) eqn:Edc.
  - simpl. f_equal. exact IH.
  - destruct (Split_cons s c) as (f & fs & Efs). rewrite Efs in IH |- *.
    simpl in IH |- *. rewrite Edc. injection IH as -> ->. reflexivity.
Qed.

Lemma Join_cons (e f : string) (es : list string) (sep : string) :
  Join (e :: f :: es) sep = e +:+ sep +:+ Join (f :: es) sep.
Proof. reflexivity. Qed.

Lemma Join_Split (s : string) (c : ascii) :
  Join (Split s c) (String c EmptyString) = s.
Proof.
  induction s as [|d s IH]; simpl; [reflexivity|].
  destruct (Split_cons s c) as (f & fs & Efs). rewrite Efs in IH |- *.
  destruct (Ascii.eqb d c) eqn:Edc.
  - apply Ascii.eqb_eq in Edc. subst d. rewrite Join_cons, IH. reflexivity.
  - destruct fs as [|g fs].
    + simpl in IH |- *. congruence.
    + rewrite Join_cons in IH |- *. rewrite append_cons, IH. reflexivity.
Qed.

(** Joining around a field that is itself a concatenation. *)
Lemma Join_glue (A B : list string) (u v sep : string) :
  Join (A ++ (u +:+ v) :: B) sep = Join (A ++ [u]) sep +:+ Join (v :: B) sep.
Proof.
  induction A as [|a A IH].
  - destruct B as [|b B]; simpl; [reflexivity|]. apply append_assoc.
  - assert (Hc : forall t l, exists g gs, (A ++ t :: l)%list = g :: gs)
      by (intros t l; destruct A; simpl; eauto).
    simpl app.
    destruct (Hc (u +:+ v) B) as (g & gs & Eg). rewrite Eg in IH |- *.
    destruct (Hc u []) as (g' & gs' & Eg'). rewrite Eg' in IH |- *.
    rewrite !Join_cons, IH, !append_assoc. reflexivity.
Qed.

Lemma ReplaceAll_append (a b : string) (c : ascii) (new : string) :
  ReplaceAll (a +:+ b) c new = ReplaceAll a c new +:+ ReplaceAll b c new.
Proof.
  induction a as [|x a IH]; rewrite ?append_nil; [reflexivity|].
  rewrite append_cons. simpl. destruct (Ascii.eqb x c).
  - rewrite IH, append_assoc. reflexivity.
  - rewrite IH, append_cons. reflexivity.
Qed.

Lemma escapeSegment_glue (x m : string) :
  escapeSegment (x +:+ "/" +:+ m) =
  escapeSegment x +:+ escapedSlash +:+ escapeSegment m.
Proof.
  unfold escapeSegment. rewrite !ReplaceAll_append. reflexivity.
Qed.

(** The body of [splitPathToList] at a path with an escaped separator,
    once the indices are known to be in range. *)
Lemma glue_in_range (init : list string) (x m0 : string) (mt : list string) :
  let pathList := (init ++ [x])%list in
  pathList !! (List.length pathList - 1)%nat = Some x /\
  <[(List.length pathList - 1)%nat := x +:+ "/" +:+ m0]> pathList
    = (init ++ [x +:+ "/" +:+ m0])%list.
Proof.
  simpl. rewrite length_app. simpl.
  replace (List.length init + 1 - 1)%nat with (List.length init + 0)%nat by lia.
  split.
  - rewrite lookup_app_r by lia.
    replace (List.length init + 0 - List.length init)%nat with 0%nat by lia.
    reflexivity.
  - rewrite insert_app_r. reflexivity.
Qed.

(** What [splitPathToList] returns: a non-empty list whose rejoining is
    the path. *)
Lemma splitPathToList_spec (path : string) :
  exists x l, splitPathToList path = Some (x :: l) /\
              rejoinPath (x :: l) = path.
Proof.
  funelim (splitPathToList path).
  - match goal with IH : exists _ _, _ |- _ => destruct IH as (m0 & mt & -> & Hr) end.
    destruct (Split_snoc slashInName0 "/") as (init & x & Es).
    pose proof (Split_ReplaceAll slashInName0 "/" escapedSlash) as Hesc.
    pose proof (Join_Split slashInName0 "/") as Hjoin.
    rewrite Es in Hesc, Hjoin |- *.
    destruct (glue_in_range init x m0 mt) as [Hl Hi].
    rewrite Hl. cbn [lookup list_lookup]. rewrite Hi. cbn [drop]. rewrite drop_0.
    destruct ((init ++ [x +:+ "/" +:+ m0]) ++ mt)%list as [|y ys] eqn:Hy;
      [destruct init; discriminate|].
    exists y, ys. split; [reflexivity|]. rewrite <- Hy.
    rewrite (SplitN2_Some _ _ _ _ E), <- Hjoin, <- Hr.
    unfold rejoinPath.
    change (fun f => ReplaceAll f "/" escapedSlash) with escapeSegment in Hesc.
    rewrite map_app in Hesc. apply app_inj_tail in Hesc as [Hinit Hx].
    rewrite <- app_assoc, !map_app, Hinit. simpl map. simpl app.
    rewrite escapeSegment_glue, Hx, Join_glue.
    f_equal. apply (Join_glue [] (map escapeSegment mt) escapedSlash).
  - rewrite (SplitN2_None _ _ _ e).
    destruct (Split_cons path "/") as (f & fs & Ef).
    exists f, fs. rewrite Ef. split; [reflexivity|].
    unfold rejoinPath. rewrite <- Ef.
    change escapeSegment with (fun f => ReplaceAll f "/" escapedSlash).
    rewrite Split_ReplaceAll. apply Join_Split.
Qed.

(** C5. Splitting a path with [splitPathToList] and rejoining the segments
    with "/", after every "/" inside a segment is put back in its escaped
    form, gives the original path; this holds for every path string, so
    also for every path that contains escaped separators. *)
Theorem splitPathToList_rejoin (path : string) :
  rejoinPath <$> splitPathToList path = Some path.
Proof.
  destruct (splitPathToList_spec path) as (x & l & -> & Hr).
  simpl. f_equal. exact Hr.
Qed.

Lemma index_in_range (pathList : list string) (i : Z) :
  0 <= i < Z.of_nat (List.length pathList) -> is_Some (index pathList i).
Proof.
  intros Hi. unfold index.
  destruct (i <? 0) eqn:E; [apply Z.ltb_lt in E; lia|].
  apply lookup_lt_is_Some. lia.
Qed.

(** The loop over the children keeps [iPathList] between 0 and
    [lPathList-1], and every index expression it evaluates is in range. *)
Lemma childLoop_in_range (pathList : list string)
    (children : list ManagedObjectReference) (iPathList : Z)
    (mor : option ManagedObjectReference) :
  let lPathList := Z.of_nat (List.length pathList) in
  0 <= iPathList <= lPathList - 1 ->
  match childLoop pathList lPathList children iPathList mor with
  | Return r => inRange r = true
  | Continue iPathList' _ => 0 <= iPathList' <= lPathList - 1
  end.
Proof.
  cbv zeta. revert iPathList mor.
  induction children as [|child rest IH]; intros i mor Hi; cbn [childLoop];
    [exact Hi|].
  destruct (String.eqb (Type_ child) "Folder").
  - destruct (i =? Z.of_nat (List.length pathList) - 1) eqn:Elast;
      [apply IH, Hi|]. apply Z.eqb_neq in Elast.
    destruct (RetrieveFolderName child) as [name|err].
    + destruct (QueryUnescape name) as [childName|err]; [|reflexivity].
      destruct (index_in_range pathList i) as [segment ->]; [lia|].
      destruct (String.eqb childName segment); apply IH; lia.
    + destruct (isObjectDeleted err); [apply IH, Hi|reflexivity].
  - destruct (String.eqb (Type_ child) "VirtualMachine"); [|apply IH, Hi].
    destruct (i =? Z.of_nat (List.length pathList) - 1) eqn:Elast;
      cbn [negb]; [|apply IH, Hi].
    destruct (RetrieveVirtualMachine child) as [vmMo|err].
    + destruct (QueryUnescape (Name vmMo)) as [vmName|err]; [|reflexivity].
      destruct (index_in_range pathList i) as [segment ->]; [lia|].
      destruct (String.eqb vmName segment); [reflexivity|apply IH, Hi].
    + destruct (isObjectDeleted err); [apply IH, Hi|reflexivity].
Qed.

Lemma searchLoop_in_range (fuel : nat) (pathList : list string) (name : string)
    (mor : option ManagedObjectReference) (iPathList : Z) :
  let lPathList := Z.of_nat (List.length pathList) in
  0 <= iPathList <= lPathList - 1 ->
  inRange (searchLoop fuel pathList lPathList name mor iPathList) = true.
Proof.
  cbv zeta. revert mor iPathList.
  induction fuel as [|fuel IH]; intros [folder|] i Hi; cbn [searchLoop];
    try reflexivity.
  destruct (RetrieveChildEntity folder) as [children|err]; [|reflexivity].
  pose proof (childLoop_in_range pathList children i None Hi) as Hc.
  cbv zeta in Hc.
  destruct (childLoop pathList _ children i None) as [r|i' [child|]];
    [exact Hc|apply IH, Hc|reflexivity].
Qed.

(** C10. On every input string [splitPathToList] returns (the recursion is
    well founded and no index expression of its body is out of range), and
    the returned list has at least one element, so that [pathList[0]] and
    [pathList[lPathList-1]] are in range; and no call of [searchTree],
    whose index [iPathList] runs from 0 to [lPathList-1], ends in an index
    out of range. *)
Theorem splitPathToList_nonempty (path : string) :
  (exists pathList,
     splitPathToList path = Some pathList /\
     (1 <= List.length pathList)%nat /\
     is_Some (index pathList 0) /\
     is_Some (index pathList (Z.of_nat (List.length pathList) - 1))) /\
  (forall fuel mor, inRange (searchTree fuel mor path) = true).
Proof.
  destruct (splitPathToList_spec path) as (x & l & Hs & _).
  assert (Hlen : (1 <= List.length (x :: l))%nat) by (simpl; lia).
  split.
  - exists (x :: l). split; [exact Hs|]. split; [exact Hlen|].
    split; apply index_in_range; lia.
  - intros fuel mor. unfold searchTree. rewrite Hs.
    apply searchLoop_in_range. lia.
Qed.

End Collector.

End Inventory.

(** ** Clone orchestrator: reconciling the template's disks *)

Module Disks.

(** [Disk], the caller's disk descriptor, declared outside util.go: the
    fields util.go reads and writes.  [Size] is an integer, converted with
    [int64(...)] at lines 829 and 1179; it is taken as a 64-bit one. *)
Record Disk : Type := {
  Size : Z;
  Controller : string;
  Provisioning : string;
  Datastore : string;
  DiskFile : string;
}.

(** The backing of a device, an interface value: a file backing (one of
    the types behind [types.BaseVirtualDeviceFileBackingInfo]), which has
    a file name, or a backing of another kind, such as the raw-device
    backings of a disk. *)
Inductive BaseVirtualDeviceBackingInfo : Type :=
| FileBackingInfo (FileName : string)
| OtherBackingInfo.

(** [types.VirtualDisk] with the fields the code uses: the device key,
    the backing ([None] for a nil interface) and the capacity. *)
Record VirtualDisk : Type := {
  Key : Z;
  Backing : option BaseVirtualDeviceBackingInfo;
  CapacityInKB : Z;
}.

(** An element of [vmMo.Config.Hardware.Device]: a virtual disk, or a
    device of another kind, which the type test at line 816 skips. *)
Inductive BaseVirtualDevice : Type :=
| VirtualDiskDevice (editdisk : VirtualDisk)
| OtherDevice (key : Z).

Inductive VirtualDeviceConfigSpecOperation : Type :=
| VirtualDeviceConfigSpecOperationAdd
| VirtualDeviceConfigSpecOperationRemove
| VirtualDeviceConfigSpecOperationEdit.

Record VirtualDeviceConfigSpec : Type := {
  Operation : VirtualDeviceConfigSpecOperation;
  Device : VirtualDisk;
}.

(** A [types.BaseVirtualDeviceConfigSpec] interface value: [None] is the
    nil interface, the zero value of [var dvconfig]. *)
Definition BaseVirtualDeviceConfigSpec : Type := option VirtualDeviceConfigSpec.

(** Conversion to [int64]: the value modulo 2^64, as a signed number. *)
Definition int64 (z : Z) : Z := (z + 2 ^ 63) mod 2 ^ 64 - 2 ^ 63.

(** [findByVirtualDeviceFileName], lines 802-809: the first disk of the
    list with that file name. *)
Fixpoint findByVirtualDeviceFileName (disks : list Disk) (name : string)
  : option Disk :=
  match disks with
  | [] => None
  | disk :: rest =>
      if String.eqb (DiskFile disk) name then Some disk
      else findByVirtualDeviceFileName rest name
  end.

(** Line 818, [backing.(types.BaseVirtualDeviceFileBackingInfo)], a type
    assertion with one result: it yields the file backing, of which the
    code reads the file name, and panics ([None]) on a nil backing and on
    a backing that is no file backing. *)
Definition fileBackingInfo (editdisk : VirtualDisk) : option string :=
  match Backing editdisk with
  | Some (FileBackingInfo FileName) => Some FileName
  | Some OtherBackingInfo => None
  | None => None
  end.

Definition shrinkError : error :=
  Errorf "error : Shrinking Virtual Disks is not supported" [].

(** The loop of [resizeAndDeleteVols], lines 815-845, over the devices
    that remain, with the specs collected so far; [None] is the run-time
    panic of line 818. *)
Fixpoint resizeLoop (devices : list BaseVirtualDevice) (disks : list Disk)
    (deviceSpecs : list BaseVirtualDeviceConfigSpec)
  : option (result (list BaseVirtualDeviceConfigSpec)) :=
  match devices with
  | [] => Some (Ok deviceSpecs)
  | OtherDevice _ :: rest => resizeLoop rest disks deviceSpecs
  | VirtualDiskDevice editdisk :: rest =>
      match fileBackingInfo editdisk with
      | None => None
      | Some FileName =>
          match findByVirtualDeviceFileName disks FileName with
          | None =>
              let dvconfig := Some {|
                Operation := VirtualDeviceConfigSpecOperationRemove;
                Device := editdisk |} in
              resizeLoop rest disks (deviceSpecs ++ [dvconfig])
          | Some disk =>
              let capacityInKB := int64 (Size disk * 1024 * 1024) in
              if CapacityInKB editdisk >? capacityInKB then
                Some (Err shrinkError)
              else if CapacityInKB editdisk <? capacityInKB then
                let editdisk' := {|
                  Key := Key editdisk;
                  Backing := Backing editdisk;
                  CapacityInKB := capacityInKB |} in
                let dvconfig := Some {|
                  Device := editdisk';
                  Operation := VirtualDeviceConfigSpecOperationEdit |} in
                resizeLoop rest disks (deviceSpecs ++ [dvconfig])
              else
                resizeLoop rest disks (deviceSpecs ++ [None])
          end
      end
  end.

(** [resizeAndDeleteVols], lines 812-847, on the device list of the
    template. *)
Definition resizeAndDeleteVols (devices : list BaseVirtualDevice)
    (disks : list Disk) : option (result (list BaseVirtualDeviceConfigSpec)) :=
  resizeLoop devices disks [].

(** *** What each template disk asks for *)

(** The virtual disks of a device list, in order. *)
Definition virtualDisks (devices : list BaseVirtualDevice) : list VirtualDisk :=
  omap (fun device =>
          match device with
          | VirtualDiskDevice editdisk => Some editdisk
          | OtherDevice _ => None
          end) devices.

(** The disk has a file backing: the assertion of line 818 holds. *)
Definition fileBacked (editdisk : VirtualDisk) : Prop :=
  is_Some (fileBackingInfo editdisk).

(** The requested size of a disk in KB, as line 829 computes it. *)
Definition requestedKB (disk : Disk) : Z := int64 (Size disk * 1024 * 1024).

(** The entry found for a template disk by its backing file name. *)
Definition entryFor (disks : list Disk) (editdisk : VirtualDisk) : option Disk :=
  match fileBackingInfo editdisk with
  | Some FileName => findByVirtualDeviceFileName disks FileName
  | None => None
  end.

(** The template disk is larger than what its entry requests. *)
Definition shrinks (disks : list Disk) (editdisk : VirtualDisk) : bool :=
  match entryFor disks editdisk with
  | Some disk => CapacityInKB editdisk >? requestedKB disk
  | None => false
  end.

(** The device change of a file-backed template disk that does not
    shrink: removal when the list has no entry for it, a capacity edit
    when the entry is larger, none when it is not. *)
Definition changeFor (disks : list Disk) (editdisk : VirtualDisk)
  : option VirtualDeviceConfigSpec :=
  match entryFor disks editdisk with
  | None =>
      Some {| Operation := VirtualDeviceConfigSpecOperationRemove;
              Device := editdisk |}
  | Some disk =>
      if CapacityInKB editdisk <? requestedKB disk then
        Some {| Operation := VirtualDeviceConfigSpecOperationEdit;
                Device := {| Key := Key editdisk;
                             Backing := Backing editdisk;
                             CapacityInKB := requestedKB disk |} |}
      else None
  end.

Lemma elem_of_virtualDisks (devices : list BaseVirtualDevice)
    (editdisk : VirtualDisk) :
  editdisk ∈ virtualDisks devices <-> VirtualDiskDevice editdisk ∈ devices.
Proof.
  unfold virtualDisks. rewrite list_elem_of_omap. split.
  - intros ([d|k] & Hin & Heq); simplify_eq. exact Hin.
  - intros Hin. exists (VirtualDiskDevice editdisk). split; [exact Hin|reflexivity].
Qed.

Lemma virtualDisks_cons (d : VirtualDisk) (rest : list BaseVirtualDevice) :
  virtualDisks (VirtualDiskDevice d :: rest) = d :: virtualDisks rest.
Proof. reflexivity. Qed.

Lemma resizeLoop_returns (devices : list BaseVirtualDevice) (disks : list Disk)
    (deviceSpecs : list BaseVirtualDeviceConfigSpec) :
  Forall fileBacked (virtualDisks devices) ->
  exists r, resizeLoop devices disks deviceSpecs = Some r.
Proof.
  revert deviceSpecs.
  induction devices as [|[d|k] rest IH]; intros deviceSpecs Hall;
    cbn [resizeLoop]; [eauto| |apply IH, Hall].
  rewrite virtualDisks_cons in Hall. apply Forall_cons in Hall as [[name Hd] Hall].
  rewrite Hd. destruct (findByVirtualDeviceFileName disks name) as [disk|];
    [|apply IH, Hall].
  cbv zeta. destruct (CapacityInKB d >? _); [eauto|].
  destruct (CapacityInKB d <? _); apply IH, Hall.
Qed.

Lemma resizeLoop_shrink (devices : list BaseVirtualDevice) (disks : list Disk)
    (deviceSpecs : list BaseVirtualDeviceConfigSpec) (editdisk : VirtualDisk) :
  Forall fileBacked (virtualDisks devices) ->
  editdisk ∈ virtualDisks devices ->
  shrinks disks editdisk = true ->
  resizeLoop devices disks deviceSpecs = Some (Err shrinkError).
Proof.
  revert deviceSpecs.
  induction devices as [|[d|k] rest IH]; intros deviceSpecs Hall Hin Hs.
  - apply elem_of_nil in Hin. contradiction.
  - rewrite virtualDisks_cons in Hall, Hin.
    apply Forall_cons in Hall as [[name Hd] Hall].
    cbn [resizeLoop]. rewrite Hd.
    destruct (findByVirtualDeviceFileName disks name) as [disk|] eqn:Ef.
    + cbv zeta. fold (requestedKB disk).
      destruct (CapacityInKB d >? requestedKB disk) eqn:Egt; [reflexivity|].
      apply elem_of_cons in Hin as [->|Hin].
      { unfold shrinks, entryFor in Hs. rewrite Hd, Ef, Egt in Hs. discriminate. }
      destruct (CapacityInKB d <? requestedKB disk); apply IH; assumption.
    + apply elem_of_cons in Hin as [->|Hin].
      { unfold shrinks, entryFor in Hs. rewrite Hd, Ef in Hs. discriminate. }
      apply IH; assumption.
  - cbn [resizeLoop]. apply IH; assumption.
Qed.

Lemma resizeLoop_Ok (devices : list BaseVirtualDevice) (disks : list Disk)
    (deviceSpecs specs : list BaseVirtualDeviceConfigSpec) :
  resizeLoop devices disks deviceSpecs = Some (Ok specs) ->
  exists new,
    specs = (deviceSpecs ++ new)%list /\
    omap id new = omap (changeFor disks) (virtualDisks devices).
Proof.
  revert deviceSpecs.
  induction devices as [|[d|k] rest IH]; intros deviceSpecs H; cbn [resizeLoop] in H.
  - exists []. simplify_eq. rewrite app_nil_r. split; reflexivity.
  - rewrite virtualDisks_cons.
    cbn [omap list_omap]. unfold changeFor at 1. unfold entryFor.
    destruct (fileBackingInfo d) as [name|]; [|discriminate].
    destruct (findByVirtualDeviceFileName disks name) as [disk|] eqn:Ef.
    + cbv zeta in H. fold (requestedKB disk) in H |- *.
      destruct (CapacityInKB d >? requestedKB disk) eqn:Egt; [discriminate|].
      destruct (CapacityInKB d <? requestedKB disk) eqn:Elt;
        apply IH in H as (new & -> & Hnew);
        eexists (_ :: new); rewrite <- app_assoc;
        (split; [reflexivity|]); cbn [omap list_omap id]; rewrite Hnew;
        reflexivity.
    + apply IH in H as (new & -> & Hnew).
      eexists (_ :: new). rewrite <- app_assoc.
      split; [reflexivity|]. cbn [omap list_omap id]. rewrite Hnew.
      reflexivity.
  - apply IH in H. exact H.
Qed.

(** *** A template with three disks *)

Definition fileBacking (file : string) : option BaseVirtualDeviceBackingInfo :=
  Some (FileBackingInfo file).

Definition diskKept : VirtualDisk :=
  {| Key := 2000; Backing := fileBacking "[ds1] tmpl/tmpl.vmdk";
     CapacityInKB := 20971520 |}.
Definition diskGrown : VirtualDisk :=
  {| Key := 2001; Backing := fileBacking "[ds1] tmpl/tmpl_1.vmdk";
     CapacityInKB := 1048576 |}.
Definition diskDropped : VirtualDisk :=
  {| Key := 2002; Backing := fileBacking "[ds1] tmpl/tmpl_2.vmdk";
     CapacityInKB := 1048576 |}.

(** A disk mapped to a raw device: its backing is no file backing. *)
Definition diskRaw : VirtualDisk :=
  {| Key := 2003; Backing := Some OtherBackingInfo; CapacityInKB := 1048576 |}.

Definition fixedDisk (size : Z) (file : string) : Disk :=
  {| Size := size; Controller := "scsi"; Provisioning := "thin";
     Datastore := "ds1"; DiskFile := file |}.

Definition sampleDevices : list BaseVirtualDevice :=
  [OtherDevice 4000; VirtualDiskDevice diskKept; VirtualDiskDevice diskGrown;
   VirtualDiskDevice diskDropped].

(** 20 GB for the first disk (its capacity), 2 GB for the second (1 GB in
    the template), no entry for the third. *)
Definition sampleDisks : list Disk :=
  [fixedDisk 20 "[ds1] tmpl/tmpl.vmdk"; fixedDisk 2 "[ds1] tmpl/tmpl_1.vmdk"].

(** C1, as amended.  (1) For a template all of whose virtual disks have a
    file backing, [resizeAndDeleteVols] returns (the assertion of line 818
    does not panic), and it returns the shrink-not-supported error
    whenever the entry found for a template disk by its backing file name
    requests fewer KB than the disk's capacity.  (2) When it returns a
    list, every template disk with no entry in the requested list has a
    removal spec in it, and the non-nil entries of the list are, in device
    order, the changes [changeFor] of the template's disks: a removal for
    a disk without entry, an edit to the requested capacity for a disk
    whose entry is larger.  (3) A disk whose entry requests its current
    capacity has no change: no removal or edit spec is made for it. *)
Theorem resizeAndDeleteVols_reconcile (devices : list BaseVirtualDevice)
    (disks : list Disk) :
  (Forall fileBacked (virtualDisks devices) ->
   (exists r, resizeAndDeleteVols devices disks = Some r) /\
   forall editdisk FileName disk,
     VirtualDiskDevice editdisk ∈ devices ->
     fileBackingInfo editdisk = Some FileName ->
     findByVirtualDeviceFileName disks FileName = Some disk ->
     requestedKB disk < CapacityInKB editdisk ->
     resizeAndDeleteVols devices disks = Some (Err shrinkError)) /\
  (forall specs,
     resizeAndDeleteVols devices disks = Some (Ok specs) ->
     (forall editdisk FileName,
        VirtualDiskDevice editdisk ∈ devices ->
        fileBackingInfo editdisk = Some FileName ->
        findByVirtualDeviceFileName disks FileName = None ->
        Some {| Operation := VirtualDeviceConfigSpecOperationRemove;
                Device := editdisk |} ∈ specs) /\
     omap id specs = omap (changeFor disks) (virtualDisks devices)) /\
  (forall editdisk FileName disk,
     fileBackingInfo editdisk = Some FileName ->
     findByVirtualDeviceFileName disks FileName = Some disk ->
     requestedKB disk = CapacityInKB editdisk ->
     changeFor disks editdisk = None).
Proof.
  split; [|split].
  - intros Hall. split; [apply resizeLoop_returns, Hall|].
    intros editdisk name disk Hin Hb Hf Hlt.
    apply (resizeLoop_shrink devices disks [] editdisk Hall).
    + apply elem_of_virtualDisks, Hin.
    + unfold shrinks, entryFor. rewrite Hb, Hf. apply Z.gtb_lt, Hlt.
  - intros specs H. apply resizeLoop_Ok in H as (new & -> & Hnew).
    rewrite app_nil_l. split; [|exact Hnew].
    intros editdisk name Hin Hb Hf.
    assert (Hc : {| Operation := VirtualDeviceConfigSpecOperationRemove;
                    Device := editdisk |} ∈ omap id new).
    { rewrite Hnew. apply list_elem_of_omap. exists editdisk.
      split; [apply elem_of_virtualDisks, Hin|].
      unfold changeFor, entryFor. rewrite Hb, Hf. reflexivity. }
    apply list_elem_of_omap in Hc as ([c|] & Hc & Heq);
      unfold id in Heq; simplify_eq.
    exact Hc.
  - intros editdisk name disk Hb Hf Heq. unfold changeFor, entryFor.
    rewrite Hb, Hf, Heq. rewrite Z.ltb_irrefl. reflexivity.
Qed.

(** The sample template, whose disks all have a file backing: the call
    returns a list; the third disk is in it for removal; the non-nil
    entries are the edit of the second disk and the removal of the third.
    With 10 GB requested for the first disk, of 20 GB, it returns the
    shrink error. *)
Lemma resizeAndDeleteVols_reconcile_witness :
  (exists specs,
     resizeAndDeleteVols sampleDevices sampleDisks = Some (Ok specs) /\
     Some {| Operation := VirtualDeviceConfigSpecOperationRemove;
             Device := diskDropped |} ∈ specs /\
     omap id specs =
       [ {| Operation := VirtualDeviceConfigSpecOperationEdit;
            Device := {| Key := 2001;
                         Backing := fileBacking "[ds1] tmpl/tmpl_1.vmdk";
                         CapacityInKB := 2097152 |} |};
         {| Operation := VirtualDeviceConfigSpecOperationRemove;
            Device := diskDropped |} ] /\
     changeFor sampleDisks diskKept = None) /\
  resizeAndDeleteVols sampleDevices [fixedDisk 10 "[ds1] tmpl/tmpl.vmdk"]
    = Some (Err shrinkError).
Proof.
  assert (Hall : Forall fileBacked (virtualDisks sampleDevices))
    by (repeat constructor; eexists; reflexivity).
  split.
  - destruct (resizeAndDeleteVols_reconcile sampleDevices sampleDisks)
      as (_ & Hok & Heq).
    eexists. split; [reflexivity|].
    destruct (Hok _ eq_refl) as [Hrm Hnonnil].
    split; [|split].
    + apply (Hrm diskDropped "[ds1] tmpl/tmpl_2.vmdk"); [|reflexivity..].
      unfold sampleDevices. repeat constructor.
    + exact Hnonnil.
    + apply (Heq diskKept "[ds1] tmpl/tmpl.vmdk"
               (fixedDisk 20 "[ds1] tmpl/tmpl.vmdk")); reflexivity.
  - destruct (resizeAndDeleteVols_reconcile sampleDevices
                [fixedDisk 10 "[ds1] tmpl/tmpl.vmdk"]) as (Hshrink & _ & _).
    destruct (Hshrink Hall) as [_ Herr].
    apply (Herr diskKept "[ds1] tmpl/tmpl.vmdk"
             (fixedDisk 10 "[ds1] tmpl/tmpl.vmdk"));
      [unfold sampleDevices; repeat constructor|reflexivity|reflexivity|].
    vm_compute. reflexivity.
Defined.

(** C1 as stated, for every template device list, fails on the code: a
    virtual disk whose backing is no file backing makes the call panic at
    line 818.  With such a disk before a disk of 20 GB for which 10 GB are
    requested, the call does not return the shrink error; with such a disk
    after a disk that has no entry, that disk is not marked for removal:
    no list is returned. *)
Lemma resizeAndDeleteVols_counterexample :
  findByVirtualDeviceFileName [fixedDisk 10 "[ds1] tmpl/tmpl.vmdk"]
    "[ds1] tmpl/tmpl.vmdk" = Some (fixedDisk 10 "[ds1] tmpl/tmpl.vmdk") /\
  (requestedKB (fixedDisk 10 "[ds1] tmpl/tmpl.vmdk") <? CapacityInKB diskKept)
    = true /\
  resizeAndDeleteVols [VirtualDiskDevice diskRaw; VirtualDiskDevice diskKept]
    [fixedDisk 10 "[ds1] tmpl/tmpl.vmdk"] = None /\
  entryFor [] diskDropped = None /\
  resizeAndDeleteVols [VirtualDiskDevice diskDropped; VirtualDiskDevice diskRaw]
    [] = None.
Proof. repeat split; vm_compute; reflexivity. Qed.

(** A disk whose entry requests its current capacity does put an entry
    into the returned list: the nil spec that line 842 appends after the
    branches. *)
Lemma resizeAndDeleteVols_nil_entry :
  requestedKB (fixedDisk 20 "[ds1] tmpl/tmpl.vmdk") = CapacityInKB diskKept /\
  resizeAndDeleteVols [VirtualDiskDevice diskKept]
    [fixedDisk 20 "[ds1] tmpl/tmpl.vmdk"] = Some (Ok [None]).
Proof. split; vm_compute; reflexivity. Qed.

End Disks.

(** ** Lifecycle controller *)

Module Lifecycle.

(** *** Heartbeat status *)

Definition GUEST_HEART_BEAT_STATUS : string := "guestHeartbeatStatus".

(** The constants of lines 54-60.  The block starts with the string
    constant, so [iota] is 1 at [GREEN_HEART_BEAT]. *)
Definition GREEN_HEART_BEAT : Z := Z.shiftl 1 1.
Definition YELLOW_HEART_BEAT : Z := Z.shiftl 1 2.
Definition GRAY_HEART_BEAT : Z := Z.shiftl 1 3.
Definition RED_HEART_BEAT : Z := Z.shiftl 1 4.

Inductive ManagedEntityStatus : Type :=
| ManagedEntityStatusGray
| ManagedEntityStatusGreen
| ManagedEntityStatusRed
| ManagedEntityStatusYellow.

Definition ManagedEntityStatus_eqb (a b : ManagedEntityStatus) : bool :=
  match a, b with
  | ManagedEntityStatusGray, ManagedEntityStatusGray
  | ManagedEntityStatusGreen, ManagedEntityStatusGreen
  | ManagedEntityStatusRed, ManagedEntityStatusRed
  | ManagedEntityStatusYellow, ManagedEntityStatusYellow => true
  | _, _ => false
  end.

(** [types.PropertyChange] of the heartbeat subscription: the property
    name and its value, [None] for a nil [Val]. *)
Record PropertyChange : Type := {
  Name : string;
  Val : option ManagedEntityStatus;
}.

(** The predicate [waitForGuestStatus] hands to [property.Wait], lines
    1307-1335. *)
Fixpoint guestStatusReached (status : Z) (pc : list PropertyChange) : bool :=
  match pc with
  | [] => false
  | c :: rest =>
      if negb (String.eqb (Name c) GUEST_HEART_BEAT_STATUS) then
        guestStatusReached status rest
      else
        match Val c with
        | None => guestStatusReached status rest
        | Some ps =>
            if negb (Z.land status GREEN_HEART_BEAT =? 0)
               && ManagedEntityStatus_eqb ps ManagedEntityStatusGreen then true
            else if negb (Z.land status GRAY_HEART_BEAT =? 0)
               && ManagedEntityStatus_eqb ps ManagedEntityStatusGray then true
            else if negb (Z.land status YELLOW_HEART_BEAT =? 0)
               && ManagedEntityStatus_eqb ps ManagedEntityStatusYellow then true
            else if negb (Z.land status RED_HEART_BEAT =? 0)
               && ManagedEntityStatus_eqb ps ManagedEntityStatusRed then true
            else guestStatusReached status rest
        end
  end.

(** Modelled from the spec: [property.Wait], of the vendored govmomi
    library, which is not among the source files.  Sections 4.5 and 6
    describe it as a property-change subscription wait with a predicate
    callback: the predicate is called on each change set the backend
    reports, the first of which carries the current value, and the wait
    ends at the first change set it accepts.  [updates] are the change
    sets reported before the context is done; the result counts the change
    sets consumed. *)
Fixpoint propertyWait (f : list PropertyChange -> bool)
    (updates : list (list PropertyChange)) : nat * option error :=
  match updates with
  | [] => (0%nat, Some (Fault "context deadline exceeded"))
  | pc :: rest =>
      if f pc then (1%nat, None)
      else let '(n, err) := propertyWait f rest in (S n, err)
  end.

(** [waitForGuestStatus], lines 1292-1337; the optional timeout bounds the
    updates the context lets through. *)
Definition waitForGuestStatus (status : Z)
    (updates : list (list PropertyChange)) : nat * option error :=
  propertyWait (guestStatusReached status) updates.

(** The bit of the mask that stands for a status. *)
Definition heartBeatBit (ps : ManagedEntityStatus) : Z :=
  match ps with
  | ManagedEntityStatusGreen => GREEN_HEART_BEAT
  | ManagedEntityStatusYellow => YELLOW_HEART_BEAT
  | ManagedEntityStatusGray => GRAY_HEART_BEAT
  | ManagedEntityStatusRed => RED_HEART_BEAT
  end.

(** *** Properties of the heartbeat wait *)

(** One change of the loop body: the change is the heartbeat property,
    holds a status, and the bit of that status is set in the mask. *)
Definition accepts (status : Z) (c : PropertyChange) : bool :=
  String.eqb (Name c) GUEST_HEART_BEAT_STATUS &&
  match Val c with
  | Some ps => negb (Z.land status (heartBeatBit ps) =? 0)
  | None => false
  end.

Lemma guestStatusReached_existsb (status : Z) (pc : list PropertyChange) :
  guestStatusReached status pc = existsb (accepts status) pc.
Proof.
  induction pc as [|c rest IH]; [reflexivity|].
  cbn [guestStatusReached existsb]. unfold accepts at 1.
  destruct (String.eqb (Name c) GUEST_HEART_BEAT_STATUS); cbn [negb andb orb];
    [|exact IH].
  destruct (Val c) as [ps|]; [|exact IH].
  destruct ps; cbn [ManagedEntityStatus_eqb heartBeatBit];
    rewrite ?andb_false_r, ?andb_true_r; cbn [orb];
    repeat match goal with
           | |- context [negb (Z.land status ?b =? 0)] =>
               destruct (negb (Z.land status b =? 0))
           end; cbn [orb]; try reflexivity; exact IH.
Qed.

Lemma accepts_iff (status : Z) (c : PropertyChange) :
  accepts status c = true <->
  Name c = GUEST_HEART_BEAT_STATUS /\
  exists ps, Val c = Some ps /\ Z.land status (heartBeatBit ps) <> 0.
Proof.
  unfold accepts. rewrite andb_true_iff, String.eqb_eq.
  destruct (Val c) as [ps|].
  - rewrite negb_true_iff, Z.eqb_neq. split.
    + intros [Hn Hb]. split; [exact Hn|]. exists ps. split; [reflexivity|exact Hb].
    + intros [Hn (ps' & Hv & Hb)]. simplify_eq. split; assumption.
  - split; [intros [_ H]; discriminate|].
    intros [_ (ps & H & _)]. discriminate.
Qed.

Lemma propertyWait_first (f : list PropertyChange -> bool)
    (before : list (list PropertyChange)) (pc : list PropertyChange)
    (after : list (list PropertyChange)) :
  Forall (fun pc' => f pc' = false) before ->
  f pc = true ->
  propertyWait f (before ++ pc :: after) = (S (List.length before), None).
Proof.
  intros Hb Hpc. induction Hb as [|pc' before Hpc' Hb IH]; cbn [app propertyWait].
  - rewrite Hpc. reflexivity.
  - rewrite Hpc', IH. reflexivity.
Qed.

(** C6. The predicate of [waitForGuestStatus] returns true on a change set
    exactly when the set holds a heartbeat-status change whose status has
    its bit (green, yellow, gray, red) set in the mask: no status outside
    the mask is accepted.  When the first change set reported already
    satisfies the mask, the wait returns without error after that one
    change set; in general it returns at the first change set that
    satisfies the mask. *)
Theorem waitForGuestStatus_mask (status : Z) (pc : list PropertyChange)
    (updates : list (list PropertyChange)) :
  (guestStatusReached status pc = true <->
   exists c ps,
     c ∈ pc /\ Name c = GUEST_HEART_BEAT_STATUS /\ Val c = Some ps /\
     Z.land status (heartBeatBit ps) <> 0) /\
  (guestStatusReached status pc = true ->
   waitForGuestStatus status (pc :: updates) = (1%nat, None)) /\
  (forall before,
     Forall (fun pc' => guestStatusReached status pc' = false) before ->
     guestStatusReached status pc = true ->
     waitForGuestStatus status (before ++ pc :: updates)
       = (S (List.length before), None)).
Proof.
  split; [|split].
  - rewrite guestStatusReached_existsb, existsb_exists. split.
    + intros (c & Hin & Hacc). apply accepts_iff in Hacc as (Hn & ps & Hv & Hb).
      exists c, ps. rewrite list_elem_of_In. auto.
    + intros (c & ps & Hin & Hn & Hv & Hb). exists c.
      rewrite <- list_elem_of_In. split; [exact Hin|].
      apply accepts_iff. eauto.
  - intros H. unfold waitForGuestStatus. cbn [propertyWait]. rewrite H.
    reflexivity.
  - intros before Hb H. apply propertyWait_first; assumption.
Qed.

(** A guest whose heartbeat is green when the wait for green-or-yellow
    starts: green is in the mask, the wait takes one change set; and gray,
    outside the mask, is not accepted. *)
Lemma waitForGuestStatus_mask_witness :
  waitForGuestStatus (Z.lor GREEN_HEART_BEAT YELLOW_HEART_BEAT)
    [ [ {| Name := GUEST_HEART_BEAT_STATUS;
           Val := Some ManagedEntityStatusGreen |} ];
      [ {| Name := GUEST_HEART_BEAT_STATUS;
           Val := Some ManagedEntityStatusGray |} ] ] = (1%nat, None) /\
  Z.land (Z.lor GREEN_HEART_BEAT YELLOW_HEART_BEAT)
    (heartBeatBit ManagedEntityStatusGray) = 0.
Proof.
  split; [|reflexivity].
  destruct (waitForGuestStatus_mask (Z.lor GREEN_HEART_BEAT YELLOW_HEART_BEAT)
              [ {| Name := GUEST_HEART_BEAT_STATUS;
                   Val := Some ManagedEntityStatusGreen |} ]
              [ [ {| Name := GUEST_HEART_BEAT_STATUS;
                     Val := Some ManagedEntityStatusGray |} ] ])
    as (_ & Hfirst & _).
  apply Hfirst. reflexivity.
Defined.

(** *** Power operations and their backend calls *)

(** [mo.VirtualMachine] with the properties the lifecycle functions read:
    the object's reference, [Guest.GuestState] and [RecentTask]. *)
Record VirtualMachine : Type := {
  Self : ManagedObjectReference;
  GuestState : string;
  RecentTask : list ManagedObjectReference;
}.

(** The fields of the [VM] handle, declared outside util.go, that the
    lifecycle functions read. *)
Record VM : Type := {
  VMName : string;
  SkipIPWait : bool;
}.

(** [VMSearchFilter], lines 72-76. *)
Record VMSearchFilter : Type := {
  FilterName : string;
  InstanceUuid : string;
  SearchInDC : bool;
}.

(** [getVMSearchFilter], lines 80-86. *)
Definition getVMSearchFilter (vmName : string) : VMSearchFilter :=
  {| FilterName := vmName; InstanceUuid := ""; SearchInDC := true |}.

(** [types.TaskInfoState]. *)
Inductive TaskInfoState : Type :=
| TaskInfoStateQueued
| TaskInfoStateRunning
| TaskInfoStateSuccess
| TaskInfoStateError.

(** [types.TaskInfo], of which the code reads [Error]: the fault of the
    task, if it has one. *)
Record TaskInfo : Type := {
  TaskError : option string;
}.

(** A round trip to the backend that submits or waits. *)
Inductive Call : Type :=
| CallPowerOn (vmRef : ManagedObjectReference)
| CallWaitForResult (task : ManagedObjectReference)
| CallWaitForNetIP (vmRef : ManagedObjectReference) (timeout : Z).

(** A computation that logs its backend calls and ends in a value or in
    an error. *)
Definition Action (A : Type) : Type := list Call * result A.

Definition ret {A : Type} (a : A) : Action A := ([], Ok a).
Definition fail {A : Type} (e : error) : Action A := ([], Err e).
Definition bind {A B : Type} (m : Action A) (k : A -> Action B) : Action B :=
  match m with
  | (log, Ok a) => let '(log', r) := k a in ((log ++ log')%list, r)
  | (log, Err e) => (log, Err e)
  end.
(** A backend call and its answer. *)
Definition call {A : Type} (c : Call) (answer : result A) : Action A :=
  ([c], answer).
(** [if err != nil { return fmt.Errorf(format, err) }]. *)
Definition orErrorf {A : Type} (format : string) (m : Action A) : Action A :=
  match m with
  | (log, Err e) => (log, Err (Errorf format [ArgError (Some e)]))
  | _ => m
  end.

Notation "x <- m ;; k" := (bind m (fun x => k))
  (at level 100, m at next level, right associativity).

Definition IPWAIT_TIMEOUT : Z := 1 * (60 * 60 * 1000000000).

(** [os.Getenv]: the value of the variable, empty when it is not set. *)
Definition Getenv (env : gmap string string) (key : string) : string :=
  match env !! key with
  | Some value => value
  | None => ""
  end.

Section Backend.

(** [time.ParseDuration], of Go's library: a duration in nanoseconds, or
    an error.  It rejects the empty string. *)
Variable ParseDuration : string -> result Z.
Hypothesis ParseDuration_empty : exists e, ParseDuration "" = Err e.

(** [net.ParseIP(s) != nil]. *)
Variable ParseIP : string -> bool.

(** The function variable [findVM] and the backend operations
    [VirtualMachine.PowerOn], [Task.WaitForResult],
    [VirtualMachine.WaitForNetIP] (under a timeout) and the collector's
    [RetrieveOne] of a task's ["info"]. *)
Variable findVM : VM -> VMSearchFilter -> result VirtualMachine.
Variable PowerOn : ManagedObjectReference -> result ManagedObjectReference.
Variable WaitForResult : ManagedObjectReference -> result TaskInfo.
Variable WaitForNetIP :
  ManagedObjectReference -> Z -> result (list (string * list string)).
Variable RetrieveTaskInfoState : ManagedObjectReference -> result TaskInfoState.

(** The timeout [waitForIP] computes, lines 1202-1209. *)
Definition ipWaitTimeout (env : gmap string string) : Z :=
  let timeout := IPWAIT_TIMEOUT in
  let value := Getenv env "IPWAIT_TIMEOUT" in
  if negb (String.eqb value "") then
    match ParseDuration value with
    | Ok duration => duration
    | Err _ => timeout
    end
  else timeout.

(** [waitForIP], lines 1199-1228. *)
Definition waitForIP (env : gmap string string) (vm : VM)
    (vmMo : VirtualMachine) : Action unit :=
  let timeout := ipWaitTimeout env in
  ipMap <- orErrorf "failed to wait for VM to get ips: %v"
             (call (CallWaitForNetIP (Self vmMo) timeout)
                   (WaitForNetIP (Self vmMo) timeout)) ;;
  if existsb (fun '(_, ips) =>
                match ips with
                | [] => false
                | ip :: _ => ParseIP ip
                end) ipMap
  then ret tt
  else fail (Errorf "no valid ip assigned: %v" []).

(** [start], lines 1362-1389. *)
Definition start (env : gmap string string) (vm : VM) : Action unit :=
  vmMo <- ([], findVM vm (getVMSearchFilter (VMName vm))) ;;
  let state := GuestState vmMo in
  if String.eqb state "shuttingdown" || String.eqb state "resetting" then
    fail ErrorVMPowerStateChanging
  else
    poweronTask <- orErrorf "error creating a poweron task on the vm: %v"
                     (call (CallPowerOn (Self vmMo)) (PowerOn (Self vmMo))) ;;
    tInfo <- orErrorf "error waiting for poweron task: %v"
               (call (CallWaitForResult poweronTask)
                     (WaitForResult poweronTask)) ;;
    match TaskError tInfo with
    | Some _ =>
        fail (Errorf "poweron task returned an error: %v" [ArgError None])
    | None =>
        if negb (SkipIPWait vm) then waitForIP env vm vmMo else ret tt
    end.

(** The loop of [isTaskInProgress], lines 2201-2213, over the tasks that
    remain. *)
Fixpoint recentTaskLoop (recentTask : list ManagedObjectReference) : bool :=
  match recentTask with
  | [] => true
  | task :: rest =>
      match RetrieveTaskInfoState task with
      | Err _ => recentTaskLoop rest
      | Ok TaskInfoStateQueued | Ok TaskInfoStateRunning => false
      | Ok _ => recentTaskLoop rest
      end
  end.

(** [isTaskInProgress], lines 2196-2214. *)
Definition isTaskInProgress (vm : VM) (vmMo : VirtualMachine) : bool :=
  recentTaskLoop (RecentTask vmMo).


(** *** Properties of the power operations *)

Lemma recentTaskLoop_false (recentTask : list ManagedObjectReference) :
  recentTaskLoop recentTask = false <->
  exists task,
    task ∈ recentTask /\
    (RetrieveTaskInfoState task = Ok TaskInfoStateQueued \/
     RetrieveTaskInfoState task = Ok TaskInfoStateRunning).
Proof.
  induction recentTask as [|task rest IH]; cbn [recentTaskLoop].
  - split; [discriminate|]. intros (t & Hin & _). apply elem_of_nil in Hin.
    contradiction.
  - assert (Hrest :
      (exists t, t ∈ task :: rest /\
         (RetrieveTaskInfoState t = Ok TaskInfoStateQueued \/
          RetrieveTaskInfoState t = Ok TaskInfoStateRunning)) <->
      (RetrieveTaskInfoState task = Ok TaskInfoStateQueued \/
       RetrieveTaskInfoState task = Ok TaskInfoStateRunning) \/
      recentTaskLoop rest = false).
    { rewrite IH. split.
      - intros (t & Hin & Ht). apply elem_of_cons in Hin as [->|Hin]; eauto.
      - intros [Ht|(t & Hin & Ht)].
        + exists task. split; [apply elem_of_cons; auto|exact Ht].
        + exists t. split; [apply elem_of_cons; auto|exact Ht]. }
    rewrite Hrest.
    destruct (RetrieveTaskInfoState task) as [[]|e]; split; intros H; auto;
      destruct H as [[H|H]|H]; try discriminate; exact H.
Qed.

(** C7. [isTaskInProgress] returns true for an empty recent-task list; it
    returns false exactly when some task of the list is retrieved in the
    queued or the running state, and so true whenever no retrievable task
    is queued or running: true means that no task is in progress. *)
Theorem isTaskInProgress_polarity (vm : VM) (vmMo : VirtualMachine) :
  (RecentTask vmMo = [] -> isTaskInProgress vm vmMo = true) /\
  (isTaskInProgress vm vmMo = false <->
   exists task,
     task ∈ RecentTask vmMo /\
     (RetrieveTaskInfoState task = Ok TaskInfoStateQueued \/
      RetrieveTaskInfoState task = Ok TaskInfoStateRunning)) /\
  ((forall task,
      task ∈ RecentTask vmMo ->
      RetrieveTaskInfoState task <> Ok TaskInfoStateQueued /\
      RetrieveTaskInfoState task <> Ok TaskInfoStateRunning) ->
   isTaskInProgress vm vmMo = true).
Proof.
  unfold isTaskInProgress. split; [|split].
  - intros ->. reflexivity.
  - apply recentTaskLoop_false.
  - intros Hall. destruct (recentTaskLoop (RecentTask vmMo)) eqn:E; [reflexivity|].
    apply recentTaskLoop_false in E as (task & Hin & Ht).
    destruct (Hall task Hin) as [Hq Hr]. destruct Ht; contradiction.
Qed.

(** C8. For a VM that [findVM] reports in guest state "shuttingdown" or
    "resetting", [start] returns [ErrorVMPowerStateChanging] and makes no
    backend call, so no power-on task is submitted.  In every other state
    its first backend call submits the power-on task, and when the
    submission gives a task the next call waits for that task's result;
    when the submission itself fails, [start] returns that failure. *)
Theorem start_power_state (env : gmap string string) (vm : VM)
    (vmMo : VirtualMachine) :
  findVM vm (getVMSearchFilter (VMName vm)) = Ok vmMo ->
  (GuestState vmMo = "shuttingdown" \/ GuestState vmMo = "resetting" ->
   start env vm = ([], Err ErrorVMPowerStateChanging)) /\
  (GuestState vmMo <> "shuttingdown" -> GuestState vmMo <> "resetting" ->
   exists calls r,
     start env vm = (CallPowerOn (Self vmMo) :: calls, r) /\
     (forall poweronTask,
        PowerOn (Self vmMo) = Ok poweronTask ->
        exists calls', calls = CallWaitForResult poweronTask :: calls') /\
     (forall e,
        PowerOn (Self vmMo) = Err e ->
        calls = [] /\
        r = Err (Errorf "error creating a poweron task on the vm: %v"
                   [ArgError (Some e)]))).
Proof.
  intros Hfind. unfold start. rewrite Hfind. cbn [bind]. split.
  - intros [-> | ->]; reflexivity.
  - intros Hs Hr.
    apply String.eqb_neq in Hs, Hr. rewrite Hs, Hr. cbn [orb].
    unfold call, orErrorf. destruct (PowerOn (Self vmMo)) as [task|e].
    + cbn [bind].
      destruct (WaitForResult task) as [tInfo|e'].
      * cbn [bind]. destruct (TaskError tInfo) as [f|].
        -- eexists _, _. split; [reflexivity|]. split.
           ++ intros t Ht. simplify_eq. eexists. reflexivity.
           ++ intros e He. discriminate.
        -- destruct (negb (SkipIPWait vm)).
           ++ destruct (waitForIP env vm vmMo) as [log r].
              eexists _, _. split; [reflexivity|]. split.
              ** intros t Ht. simplify_eq. eexists. reflexivity.
              ** intros e He. discriminate.
           ++ eexists _, _. split; [reflexivity|]. split.
              ** intros t Ht. simplify_eq. eexists. reflexivity.
              ** intros e He. discriminate.
      * cbn [bind]. eexists _, _. split; [reflexivity|]. split.
        -- intros t Ht. simplify_eq. eexists. reflexivity.
        -- intros e He. discriminate.
    + cbn [bind]. eexists _, _. split; [reflexivity|]. split.
      * intros t Ht. discriminate.
      * intros e0 He. simplify_eq. split; reflexivity.
Qed.

(** C9. [waitForIP] calls the backend's wait with the timeout
    [ipWaitTimeout]: the parsed duration when the variable IPWAIT_TIMEOUT
    holds a string that [time.ParseDuration] accepts, and
    [IPWAIT_TIMEOUT], one hour, when the variable is absent or its value
    does not parse. *)
Theorem waitForIP_timeout (env : gmap string string) (vm : VM)
    (vmMo : VirtualMachine) :
  (forall value duration,
     env !! "IPWAIT_TIMEOUT" = Some value ->
     ParseDuration value = Ok duration ->
     ipWaitTimeout env = duration) /\
  (env !! "IPWAIT_TIMEOUT" = None -> ipWaitTimeout env = IPWAIT_TIMEOUT) /\
  (forall value e,
     env !! "IPWAIT_TIMEOUT" = Some value ->
     ParseDuration value = Err e ->
     ipWaitTimeout env = IPWAIT_TIMEOUT) /\
  IPWAIT_TIMEOUT = 3600 * 1000000000 /\
  exists r,
    waitForIP env vm vmMo =
      ([CallWaitForNetIP (Self vmMo) (ipWaitTimeout env)], r).
Proof.
  unfold ipWaitTimeout, Getenv. cbv zeta. split; [|split; [|split; [|split]]].
  - intros value duration -> Hp.
    destruct (String.eqb value "") eqn:Ev.
    + apply String.eqb_eq in Ev. subst value.
      destruct ParseDuration_empty as [e He]. congruence.
    + cbn [negb]. rewrite Hp. reflexivity.
  - intros ->. reflexivity.
  - intros value e -> Hp.
    destruct (negb (String.eqb value "")); [rewrite Hp|]; reflexivity.
  - vm_compute. reflexivity.
  - unfold waitForIP, call, orErrorf.
    destruct (WaitForNetIP _ _) as [ipMap|e]; cbn [bind].
    + destruct (existsb _ ipMap); eexists; reflexivity.
    + eexists; reflexivity.
Qed.

End Backend.

(** *** A sample backend *)

Definition digitValue (c : ascii) : option Z :=
  let n := Z.of_nat (nat_of_ascii c) in
  if (48 <=? n) && (n <=? 57) then Some (n - 48) else None.

(** The leading decimal digits of a string: their value, whether there is
    at least one, and the rest of the string. *)
Fixpoint leadingInt (s : string) (acc : Z) (seen : bool) : Z * bool * string :=
  match s with
  | EmptyString => (acc, seen, EmptyString)
  | String c s' =>
      match digitValue c with
      | Some d => leadingInt s' (acc * 10 + d) true
      | None => (acc, seen, s)
      end
  end.

Definition unitNanoseconds (u : string) : option Z :=
  if String.eqb u "ns" then Some 1
  else if String.eqb u "us" then Some 1000
  else if String.eqb u "ms" then Some 1000000
  else if String.eqb u "s" then Some 1000000000
  else if String.eqb u "m" then Some (60 * 1000000000)
  else if String.eqb u "h" then Some (3600 * 1000000000)
  else None.

(** A parser for the durations of the form digits-then-unit, such as
    "90s" or "2h", within the range of [int64]; on these and on the empty
    string it answers as [time.ParseDuration] does.  It rejects every
    other string, also those with a sign, a fraction or several
    components, which [time.ParseDuration] accepts. *)
Definition parseWholeDuration (s : string) : result Z :=
  let invalid := Err (Errorf "time: invalid duration %q" [ArgString s]) in
  let '(n, seen, u) := leadingInt s 0 false in
  if negb seen then invalid
  else
    match unitNanoseconds u with
    | Some ns => if n * ns <? 2 ^ 63 then Ok (n * ns) else invalid
    | None => invalid
    end.

Definition vmRef : ManagedObjectReference :=
  {| Type_ := "VirtualMachine"; Value := "vm-42" |}.
Definition taskRef (n : string) : ManagedObjectReference :=
  {| Type_ := "Task"; Value := n |}.

Definition sampleVM : VM := {| VMName := "web-1"; SkipIPWait := false |}.

(** The VM as the backend reports it, in a given guest state. *)
Definition reported (state : string) : VirtualMachine :=
  {| Self := vmRef; GuestState := state;
     RecentTask := [taskRef "task-1"; taskRef "task-2"; taskRef "task-3"] |}.

Definition sampleFindVM (state : string) (vm : VM) (f : VMSearchFilter)
  : result VirtualMachine :=
  if String.eqb (FilterName f) "web-1" then Ok (reported state)
  else Err (Fault "could not find the vm").

Definition samplePowerOn (ref : ManagedObjectReference)
  : result ManagedObjectReference := Ok (taskRef "task-9").

Definition sampleWaitForResult (task : ManagedObjectReference)
  : result TaskInfo := Ok {| TaskError := None |}.

Definition sampleWaitForNetIP (ref : ManagedObjectReference) (timeout : Z)
  : result (list (string * list string)) :=
  Ok [("00:50:56:aa:bb:cc", ["10.0.0.7"])].

(** The first task has finished, the second cannot be retrieved, the third
    is running. *)
Definition sampleTaskState (task : ManagedObjectReference)
  : result TaskInfoState :=
  if String.eqb (Value task) "task-1" then Ok TaskInfoStateSuccess
  else if String.eqb (Value task) "task-3" then Ok TaskInfoStateRunning
  else Err (Fault "ManagedObjectNotFound").

(** No recent task: true.  A finished task, one that cannot be retrieved
    and a running one: false. *)
Lemma isTaskInProgress_polarity_witness :
  isTaskInProgress sampleTaskState sampleVM
    {| Self := vmRef; GuestState := "running"; RecentTask := [] |} = true /\
  isTaskInProgress sampleTaskState sampleVM (reported "running") = false.
Proof.
  split.
  - destruct (isTaskInProgress_polarity sampleTaskState sampleVM
                {| Self := vmRef; GuestState := "running"; RecentTask := [] |})
      as (Hempty & _).
    apply Hempty. reflexivity.
  - destruct (isTaskInProgress_polarity sampleTaskState sampleVM
                (reported "running")) as (_ & Hfalse & _).
    apply Hfalse. exists (taskRef "task-3"). split; [|right; reflexivity].
    repeat constructor.
Defined.

(** A VM that is resetting is not powered on; one that is not running
    is, and the task is waited for. *)
Lemma start_power_state_witness :
  start parseWholeDuration (fun _ => true) (sampleFindVM "resetting")
    samplePowerOn sampleWaitForResult sampleWaitForNetIP ∅ sampleVM
    = ([], Err ErrorVMPowerStateChanging) /\
  exists calls r,
    start parseWholeDuration (fun _ => true) (sampleFindVM "notRunning")
      samplePowerOn sampleWaitForResult sampleWaitForNetIP ∅ sampleVM
      = (CallPowerOn vmRef :: CallWaitForResult (taskRef "task-9") :: calls, r).
Proof.
  split.
  - apply (start_power_state parseWholeDuration (fun _ => true)
             (sampleFindVM "resetting") samplePowerOn sampleWaitForResult
             sampleWaitForNetIP ∅ sampleVM (reported "resetting"));
      [reflexivity|]. right. reflexivity.
  - destruct (start_power_state parseWholeDuration (fun _ => true)
                (sampleFindVM "notRunning") samplePowerOn sampleWaitForResult
                sampleWaitForNetIP ∅ sampleVM (reported "notRunning") eq_refl)
      as [_ H].
    destruct H as (calls & r & Hs & Hw & _); [discriminate|discriminate|].
    destruct (Hw (taskRef "task-9") eq_refl) as [calls' Hc].
    exists calls', r. rewrite Hs, Hc. reflexivity.
Defined.

(** "90s" gives ninety seconds; no variable, or the value "soon", gives
    the hour. *)
Lemma waitForIP_timeout_witness :
  ipWaitTimeout parseWholeDuration {[ "IPWAIT_TIMEOUT" := "90s" ]}
    = 90 * 1000000000 /\
  ipWaitTimeout parseWholeDuration ∅ = IPWAIT_TIMEOUT /\
  ipWaitTimeout parseWholeDuration {[ "IPWAIT_TIMEOUT" := "soon" ]}
    = IPWAIT_TIMEOUT.
Proof.
  assert (He : exists e, parseWholeDuration "" = Err e)
    by (eexists; reflexivity).
  split; [|split].
  - destruct (waitForIP_timeout parseWholeDuration He (fun _ => true)
                sampleWaitForNetIP {[ "IPWAIT_TIMEOUT" := "90s" ]} sampleVM
                (reported "running")) as (Hvalid & _).
    apply (Hvalid "90s"); [apply lookup_singleton_eq|vm_compute; reflexivity].
  - destruct (waitForIP_timeout parseWholeDuration He (fun _ => true)
                sampleWaitForNetIP ∅ sampleVM (reported "running"))
      as (_ & Habsent & _).
    apply Habsent. apply lookup_empty.
  - destruct (waitForIP_timeout parseWholeDuration He (fun _ => true)
                sampleWaitForNetIP {[ "IPWAIT_TIMEOUT" := "soon" ]} sampleVM
                (reported "running")) as (_ & _ & Hinvalid & _).
    eapply (Hinvalid "soon"); [apply lookup_singleton_eq|reflexivity].
Defined.

End Lifecycle.

(** ** Placement selector: validating hosts *)

Module Placement.

(** An element of [vm.Networks]; the code reads its [Name]. *)
Record Network : Type := {
  NetworkName : string;
}.

(** The fields of the [VM] handle, declared outside util.go, that host
    validation reads. *)
Record VM : Type := {
  Networks : list Network;
  datastore : string;
}.

(** [mo.HostSystem] with the two properties retrieved at line 1685. *)
Record HostSystem : Type := {
  HostNetwork : list ManagedObjectReference;
  HostDatastore : list ManagedObjectReference;
}.

Section Collector.

(** The collector's [RetrieveOne]: of a host's ["network", "datastore"],
    and of an object's ["name"]. *)
Variable RetrieveHostSystem : ManagedObjectReference -> result HostSystem.
Variable RetrieveName : ManagedObjectReference -> result string.

(** [getNetworkName], lines 1659-1677. *)
Definition getNetworkName (vm : VM) (network : ManagedObjectReference)
  : result string :=
  if String.eqb (Type_ network) "Network" then RetrieveName network
  else if String.eqb (Type_ network) "DistributedVirtualPortgroup" then
    RetrieveName network
  else
    Err (Errorf "Could not retrieve the network name for: %s"
           [ArgString (Value network)]).

(** Lines 1689-1699: the set of the host's network names. *)
Fixpoint hostNetworksLoop (vm : VM) (networks : list ManagedObjectReference)
    (hostNetworks : gset string) : result (gset string) :=
  match networks with
  | [] => Ok hostNetworks
  | nw :: rest =>
      match getNetworkName vm nw with
      | Err e => Err e
      | Ok name =>
          if String.eqb name "" then
            Err (Errorf "Network name empty for: %s" [ArgString (Value nw)])
          else hostNetworksLoop vm rest ({[ name ]} ∪ hostNetworks)
      end
  end.

(** Lines 1700-1705: [nwValid] after the loop over the requested
    networks. *)
Fixpoint networksLoop (requested : list Network) (hostNetworks : gset string)
  : bool :=
  match requested with
  | [] => true
  | v :: rest =>
      if bool_decide (NetworkName v ∈ hostNetworks) then
        networksLoop rest hostNetworks
      else false
  end.

(** Lines 1710-1720: [dsValid] after the loop over the host's
    datastores. *)
Fixpoint datastoreLoop (vm : VM) (datastores : list ManagedObjectReference)
  : result bool :=
  match datastores with
  | [] => Ok false
  | ds :: rest =>
      match RetrieveName ds with
      | Err e => Err e
      | Ok name =>
          if String.eqb name (datastore vm) then Ok true
          else datastoreLoop vm rest
      end
  end.

(** [validateHost], lines 1680-1722. *)
Definition validateHost (vm : VM) (hsMor : ManagedObjectReference)
  : result bool :=
  match RetrieveHostSystem hsMor with
  | Err e => Err e
  | Ok hsMo =>
      match hostNetworksLoop vm (HostNetwork hsMo) ∅ with
      | Err e => Err e
      | Ok hostNetworks =>
          let nwValid := networksLoop (Networks vm) hostNetworks in
          if String.eqb (datastore vm) "" then Ok nwValid
          else
            match datastoreLoop vm (HostDatastore hsMo) with
            | Err e => Err e
            | Ok dsValid => Ok (nwValid && dsValid)
            end
      end
  end.

(** The loop of [filterHosts], lines 1434-1442. *)
Fixpoint filterHostsLoop (vm : VM) (hosts : list ManagedObjectReference)
    (filteredHosts : list ManagedObjectReference)
  : result (list ManagedObjectReference) :=
  match hosts with
  | [] => Ok filteredHosts
  | host :: rest =>
      match validateHost vm host with
      | Err e => Err e
      | Ok valid =>
          if valid then filterHostsLoop vm rest (filteredHosts ++ [host])
          else filterHostsLoop vm rest filteredHosts
      end
  end.

(** [filterHosts], lines 1432-1444. *)
Definition filterHosts (vm : VM) (hosts : list ManagedObjectReference)
  : result (list ManagedObjectReference) :=
  filterHostsLoop vm hosts [].

(** The host has what the VM asks for: each requested network name is the
    name of one of its networks, and the chosen datastore, when there is
    one, is the name of one of its datastores. *)
Definition hostOffers (vm : VM) (hsMor : ManagedObjectReference) : Prop :=
  exists hsMo,
    RetrieveHostSystem hsMor = Ok hsMo /\
    (forall v, v ∈ Networks vm ->
       exists nw, nw ∈ HostNetwork hsMo /\
                  getNetworkName vm nw = Ok (NetworkName v)) /\
    (datastore vm <> "" ->
       exists ds, ds ∈ HostDatastore hsMo /\ RetrieveName ds = Ok (datastore vm)).

(** *** Properties of host validation *)

Lemma hostNetworksLoop_Ok (vm : VM) (networks : list ManagedObjectReference)
    (acc hostNetworks : gset string) (name : string) :
  hostNetworksLoop vm networks acc = Ok hostNetworks ->
  name ∈ hostNetworks ->
  name ∈ acc \/ exists nw, nw ∈ networks /\ getNetworkName vm nw = Ok name.
Proof.
  revert acc. induction networks as [|nw rest IH]; intros acc H Hin;
    cbn [hostNetworksLoop] in H.
  - simplify_eq. left. exact Hin.
  - destruct (getNetworkName vm nw) as [n|e] eqn:En; [|discriminate].
    destruct (String.eqb n ""); [discriminate|].
    destruct (IH _ H Hin) as [Hacc|(nw' & Hnw' & Hname)].
    + apply elem_of_union in Hacc as [Hn|Hacc]; [|left; exact Hacc].
      apply elem_of_singleton in Hn. subst n. right. exists nw.
      split; [apply elem_of_cons; left; reflexivity|exact En].
    + right. exists nw'. split; [apply elem_of_cons; right; exact Hnw'|exact Hname].
Qed.

Lemma networksLoop_true (requested : list Network) (hostNetworks : gset string) :
  networksLoop requested hostNetworks = true <->
  forall v, v ∈ requested -> NetworkName v ∈ hostNetworks.
Proof.
  induction requested as [|v rest IH]; cbn [networksLoop].
  - split; [|reflexivity]. intros _ v Hv. apply elem_of_nil in Hv. contradiction.
  - destruct (bool_decide (NetworkName v ∈ hostNetworks)) eqn:Ed.
    + apply bool_decide_eq_true in Ed. rewrite IH. split.
      * intros Hall w Hw. apply elem_of_cons in Hw as [->|Hw]; auto.
      * intros Hall w Hw. apply Hall. apply elem_of_cons. right. exact Hw.
    + apply bool_decide_eq_false in Ed. split; [discriminate|].
      intros Hall. exfalso. apply Ed, Hall. apply elem_of_cons. left. reflexivity.
Qed.

Lemma datastoreLoop_true (vm : VM) (datastores : list ManagedObjectReference) :
  datastoreLoop vm datastores = Ok true ->
  exists ds, ds ∈ datastores /\ RetrieveName ds = Ok (datastore vm).
Proof.
  induction datastores as [|ds rest IH]; cbn [datastoreLoop]; [discriminate|].
  destruct (RetrieveName ds) as [name|e] eqn:En; [|discriminate].
  destruct (String.eqb name (datastore vm)) eqn:Eq.
  - intros _. apply String.eqb_eq in Eq. subst name. exists ds.
    split; [apply elem_of_cons; left; reflexivity|exact En].
  - intros H. destruct (IH H) as (ds' & Hin & Hn). exists ds'.
    split; [apply elem_of_cons; right; exact Hin|exact Hn].
Qed.

Lemma validateHost_true (vm : VM) (hsMor : ManagedObjectReference) :
  validateHost vm hsMor = Ok true -> hostOffers vm hsMor.
Proof.
  unfold validateHost, hostOffers. intros H.
  destruct (RetrieveHostSystem hsMor) as [hsMo|e]; [|discriminate].
  exists hsMo. split; [reflexivity|].
  destruct (hostNetworksLoop vm (HostNetwork hsMo) ∅) as [names|e] eqn:En;
    [|discriminate].
  cbv zeta in H.
  assert (Hnw : networksLoop (Networks vm) names = true ->
                forall v, v ∈ Networks vm ->
                  exists nw, nw ∈ HostNetwork hsMo /\
                             getNetworkName vm nw = Ok (NetworkName v)).
  { intros Hl v Hv. rewrite networksLoop_true in Hl.
    destruct (hostNetworksLoop_Ok _ _ _ _ _ En (Hl v Hv)) as [Hemp|Hex];
      [|exact Hex].
    apply elem_of_empty in Hemp. contradiction. }
  destruct (String.eqb (datastore vm) "") eqn:Ed.
  - apply String.eqb_eq in Ed. simplify_eq. split; [apply Hnw; assumption|].
    intros Hne. contradiction.
  - destruct (datastoreLoop vm (HostDatastore hsMo)) as [dsValid|e] eqn:Eds;
      [|discriminate].
    simplify_eq. apply andb_true_iff in H as [Hl ->].
    split; [apply Hnw, Hl|]. intros _. apply datastoreLoop_true, Eds.
Qed.

Lemma filterHostsLoop_Ok (vm : VM) (hosts acc filtered : list ManagedObjectReference) :
  filterHostsLoop vm hosts acc = Ok filtered ->
  forall host, host ∈ filtered ->
    host ∈ acc \/ (host ∈ hosts /\ validateHost vm host = Ok true).
Proof.
  revert acc. induction hosts as [|h rest IH]; intros acc H host Hin;
    cbn [filterHostsLoop] in H.
  - simplify_eq. left. exact Hin.
  - destruct (validateHost vm h) as [[|]|e] eqn:Ev; [| |discriminate].
    + destruct (IH _ H host Hin) as [Hacc|[Hr Hv]].
      * apply elem_of_app in Hacc as [Hacc|Hh]; [left; exact Hacc|].
        apply list_elem_of_singleton in Hh. subst host. right.
        split; [apply elem_of_cons; left; reflexivity|exact Ev].
      * right. split; [apply elem_of_cons; right; exact Hr|exact Hv].
    + destruct (IH _ H host Hin) as [Hacc|[Hr Hv]]; [left; exact Hacc|].
      right. split; [apply elem_of_cons; right; exact Hr|exact Hv].
Qed.

(** C3. [validateHost] returns true only for a host that offers every
    requested network name among the names of its networks and, when a
    datastore is chosen ([vm.datastore] non-empty), that name among the
    names of its datastores.  When no datastore is chosen the verdict is
    [nwValid] alone: the datastores are not looked at.  Hence every host
    [filterHosts] returns, at whatever index the random selection picks,
    is a host of the cluster that [validateHost] accepted and that offers
    the networks and the datastore. *)
Theorem validateHost_sound (vm : VM) (hosts : list ManagedObjectReference) :
  (forall hsMor, validateHost vm hsMor = Ok true -> hostOffers vm hsMor) /\
  (forall hsMor hsMo hostNetworks,
     datastore vm = "" ->
     RetrieveHostSystem hsMor = Ok hsMo ->
     hostNetworksLoop vm (HostNetwork hsMo) ∅ = Ok hostNetworks ->
     validateHost vm hsMor = Ok (networksLoop (Networks vm) hostNetworks)) /\
  (forall filteredHosts n host,
     filterHosts vm hosts = Ok filteredHosts ->
     filteredHosts !! n = Some host ->
     host ∈ hosts /\ validateHost vm host = Ok true /\ hostOffers vm host).
Proof.
  split; [|split].
  - apply validateHost_true.
  - intros hsMor hsMo names Hd Hh Hn. unfold validateHost.
    rewrite Hh, Hn, Hd. reflexivity.
  - intros filtered n host Hf Hn.
    apply list_elem_of_lookup_2 in Hn.
    destruct (filterHostsLoop_Ok vm hosts [] filtered Hf host Hn) as [Hnil|[Hin Hv]].
    + apply elem_of_nil in Hnil. contradiction.
    + split; [exact Hin|]. split; [exact Hv|]. apply validateHost_true, Hv.
Qed.

End Collector.

(** *** A cluster of three hosts *)

Definition hostRef (n : string) : ManagedObjectReference :=
  {| Type_ := "HostSystem"; Value := n |}.
Definition networkRef (n : string) : ManagedObjectReference :=
  {| Type_ := "Network"; Value := n |}.
Definition datastoreRef (n : string) : ManagedObjectReference :=
  {| Type_ := "Datastore"; Value := n |}.

(** host-1 has both networks and both datastores; host-2 lacks the
    second network; host-3 lacks the datastore ds1. *)
Definition sampleRetrieveHostSystem (hsMor : ManagedObjectReference)
  : result HostSystem :=
  if String.eqb (Value hsMor) "host-1" then
    Ok {| HostNetwork := [networkRef "network-1"; networkRef "network-2"];
          HostDatastore := [datastoreRef "datastore-2"; datastoreRef "datastore-1"] |}
  else if String.eqb (Value hsMor) "host-2" then
    Ok {| HostNetwork := [networkRef "network-1"];
          HostDatastore := [datastoreRef "datastore-1"] |}
  else if String.eqb (Value hsMor) "host-3" then
    Ok {| HostNetwork := [networkRef "network-1"; networkRef "network-2"];
          HostDatastore := [datastoreRef "datastore-2"] |}
  else Err (Fault "ManagedObjectNotFound").

Definition sampleRetrieveName (ref : ManagedObjectReference) : result string :=
  if String.eqb (Value ref) "network-1" then Ok "VM Network"
  else if String.eqb (Value ref) "network-2" then Ok "storage"
  else if String.eqb (Value ref) "datastore-1" then Ok "ds1"
  else if String.eqb (Value ref) "datastore-2" then Ok "ds2"
  else Err (Fault "ManagedObjectNotFound").

Definition sampleVM : VM :=
  {| Networks := [ {| NetworkName := "VM Network" |};
                   {| NetworkName := "storage" |} ];
     datastore := "ds1" |}.

(** Of the three hosts only host-1 is kept, and it offers both networks
    and the datastore ds1. *)
Lemma validateHost_sound_witness :
  filterHosts sampleRetrieveHostSystem sampleRetrieveName sampleVM
    [hostRef "host-2"; hostRef "host-1"; hostRef "host-3"]
    = Ok [hostRef "host-1"] /\
  validateHost sampleRetrieveHostSystem sampleRetrieveName sampleVM
    (hostRef "host-1") = Ok true /\
  hostOffers sampleRetrieveHostSystem sampleRetrieveName sampleVM
    (hostRef "host-1").
Proof.
  assert (Hf : filterHosts sampleRetrieveHostSystem sampleRetrieveName sampleVM
                 [hostRef "host-2"; hostRef "host-1"; hostRef "host-3"]
               = Ok [hostRef "host-1"]) by (vm_compute; reflexivity).
  split; [exact Hf|].
  destruct (validateHost_sound sampleRetrieveHostSystem sampleRetrieveName
              sampleVM [hostRef "host-2"; hostRef "host-1"; hostRef "host-3"])
    as (_ & _ & Hsel).
  destruct (Hsel [hostRef "host-1"] 0%nat (hostRef "host-1") Hf eq_refl)
    as (_ & Hv & Ho).
  split; assumption.
Defined.

End Placement.

(** ** Question responder *)

Module Question.

(** [types.ElementDescription]: the key of a choice and the summary of its
    description. *)
Record ElementDescription : Type := {
  Key : string;
  Summary : string;
}.

(** [types.VirtualMachineQuestionInfo]: the question's id and text, and
    [Choice.ChoiceInfo], whose elements the code asserts to be
    [*types.ElementDescription]. *)
Record VirtualMachineQuestionInfo : Type := {
  Id : string;
  Text : string;
  ChoiceInfo : list ElementDescription;
}.

(** [mo.VirtualMachine], of which [answerQuestion] reads
    [Runtime.Question]: [None] for nil. *)
Record VirtualMachine : Type := {
  Question : option VirtualMachineQuestionInfo;
}.

(** The response table of the [VM] handle, declared outside util.go: a
    Go map (the comment at line 1746 calls it so, and line 1755 ranges over
    it with a string key and a string value) from regular expressions to
    answers. *)
Record VM : Type := {
  QuestionResponses : gmap string string;
}.

(** An answer submitted to the backend. *)
Record Answer : Type := {
  QuestionID : string;
  AnswerText : string;
}.


Section Responder.

(** [strings.EqualFold], [strings.TrimSpace] and [regexp.MatchString] of
    Go's library; the last fails on a pattern that does not compile. *)
Variable EqualFold : string -> string -> bool.
Variable TrimSpace : string -> string.
Variable MatchString : string -> string -> result bool.

(** The function variable [answerVSphereQuestion]: the backend's verdict
    on an answer, [None] for a nil error; it may depend on the answers
    submitted before. *)
Variable answerVSphereQuestion : list Answer -> string -> string -> option error.

(** The loop of [resolveAnswerAndOptions], lines 1777-1783. *)
Fixpoint resolveLoop (choiceInfo : list ElementDescription)
    (answer resolvedAnswer validOptions : string) : string * string :=
  match choiceInfo with
  | [] => (resolvedAnswer, validOptions)
  | ed :: rest =>
      let validOptions :=
        validOptions +:+ "(" +:+ Key ed +:+ ") " +:+ Summary ed +:+ " " in
      let resolvedAnswer :=
        if EqualFold (Summary ed) answer then Key ed else resolvedAnswer in
      resolveLoop rest answer resolvedAnswer validOptions
  end.

(** [resolveAnswerAndOptions], lines 1775-1785. *)
Definition resolveAnswerAndOptions (choiceInfo : list ElementDescription)
    (answer : string) : string * string :=
  let '(resolvedAnswer, validOptions) :=
    resolveLoop choiceInfo answer answer "" in
  (resolvedAnswer, TrimSpace validOptions).

(** The loop of [answerQuestion], lines 1755-1765, over the entries the
    range has still to visit, with the answers submitted so far. *)
Fixpoint answerLoop (q : VirtualMachineQuestionInfo)
    (order : list (string * string)) (submitted : list Answer)
  : list Answer * option error :=
  match order with
  | [] => (submitted, None)
  | (qre, ans) :: rest =>
      match MatchString qre (Text q) with
      | Err err =>
          (submitted,
           Some (Errorf "error while parsing automated responses: %v"
                   [ArgError (Some err)]))
      | Ok false => answerLoop q rest submitted
      | Ok true =>
          let '(ans, validOptions) :=
            resolveAnswerAndOptions (ChoiceInfo q) ans in
          let sent := {| QuestionID := Id q; AnswerText := ans |} in
          match answerVSphereQuestion submitted (Id q) ans with
          | Some err =>
              ((submitted ++ [sent])%list,
               Some (Errorf
                 "error with answer %q to question %q: %v. Valid answers: %v"
                 [ArgString ans; ArgString (Text q); ArgError (Some err);
                  ArgString validOptions]))
          | None => answerLoop q rest (submitted ++ [sent])%list
          end
      end
  end.

(** [answerQuestion], lines 1749-1768: the answers submitted and the
    error returned, for the order in which the range visits the table. *)
Definition answerQuestion (vm : VM) (vmMo : VirtualMachine)
    (order : list (string * string)) : list Answer * option error :=
  match Question vmMo with
  | None => ([], None)
  | Some q => answerLoop q order []
  end.

(** The rule's regular expression matches the question text. *)
Definition ruleMatches (q : VirtualMachineQuestionInfo)
    (rule : string * string) : bool :=
  match MatchString (fst rule) (Text q) with
  | Ok true => true
  | _ => false
  end.

(** The answer submitted for a rule. *)
Definition answerFor (q : VirtualMachineQuestionInfo) (rule : string * string)
  : Answer :=
  {| QuestionID := Id q;
     AnswerText := fst (resolveAnswerAndOptions (ChoiceInfo q) (snd rule)) |}.

(** *** Properties of the responder *)












End Responder.

(** *** A question about a missing disk *)













(** Two rules, both of which match the text of [insertDisk]. *)
Definition sampleVM : VM :=
  {| QuestionResponses :=
       <[ "Insert disk" := "retry" ]> (<[ "disk" := "Cancel" ]> ∅) |}.













End Question.

(** ** More of the inventory resolver: plain paths, listing and lookup *)

Module Paths.
Import GoStrings Inventory.

(** The string holds no "/". *)
Fixpoint slashFree (s : string) : bool :=
  match s with
  | EmptyString => true
  | String c s' => negb (Ascii.eqb c "/") && slashFree s'
  end.

(** The last byte of the string is a backslash. *)
Fixpoint endsWithBackslash (s : string) : bool :=
  match s with
  | EmptyString => false
  | String c EmptyString => Ascii.eqb c "\"
  | String _ s' => endsWithBackslash s'
  end.

(** Lines 523-527 of [splitPathToList]: the last name of [pathList] takes
    the first name of [morePathList], the other names follow. *)
Definition glue (pathList morePathList : list string) : option (list string) :=
  let lPathList := List.length pathList in
  match pathList !! (lPathList - 1)%nat, morePathList !! 0%nat with
  | Some lastName, Some more0 =>
      Some (<[(lPathList - 1)%nat := lastName +:+ "/" +:+ more0]> pathList
              ++ drop 1 morePathList)%list
  | _, _ => None
  end.

Lemma splitPathToList_unfold (path : string) :
  splitPathToList path =
    match SplitN2 path escapedSlash with
    | (slashInName0, None) => Some (Split slashInName0 "/")
    | (slashInName0, Some slashInName1) =>
        match splitPathToList slashInName1 with
        | None => None
        | Some morePathList => glue (Split slashInName0 "/") morePathList
        end
    end.
Proof.
  funelim (splitPathToList path).
  - rewrite E. unfold glue. reflexivity.
  - rewrite e. reflexivity.
Qed.

Lemma slashFree_cons (c : ascii) (s : string) :
  slashFree (String c s) = true -> c <> "/"%char /\ slashFree s = true.
Proof.
  cbn [slashFree]. intros H. apply andb_true_iff in H as [Hc Hs].
  split; [|exact Hs]. intros ->. discriminate.
Qed.

Lemma prefix_escapedSlash (c : ascii) (s : string) :
  String.prefix escapedSlash (String c s) = true ->
  c = "\"%char /\ exists s', s = String "/" s'.
Proof.
  unfold escapedSlash. cbn [String.prefix].
  destruct (ascii_dec "\" c) as [<-|]; [|discriminate].
  destruct s as [|d s']; cbn [String.prefix]; [discriminate|].
  destruct (ascii_dec "/" d) as [<-|]; [|discriminate].
  intros _. split; [reflexivity|]. exists s'. reflexivity.
Qed.

Lemma prefix_escapedSlash_here (W : string) :
  String.prefix escapedSlash (escapedSlash +:+ W) = true.
Proof.
  unfold escapedSlash. rewrite !append_cons, append_nil. cbn [String.prefix].
  destruct (ascii_dec "\" "\"); [|congruence].
  destruct (ascii_dec "/" "/"); [|congruence].
  destruct W; reflexivity.
Qed.

(** A slash-free text before an escaped separator: the split is there. *)
Lemma SplitN2_slashFree_escaped (u W : string) :
  slashFree u = true ->
  SplitN2 (u +:+ escapedSlash +:+ W) escapedSlash = (u, Some W).
Proof.
  induction u as [|c u IH]; intros Hu.
  - rewrite append_nil, SplitN2_unfold, prefix_escapedSlash_here.
    reflexivity.
  - apply slashFree_cons in Hu as [Hc Hu].
    rewrite append_cons, SplitN2_unfold.
    destruct (String.prefix escapedSlash _) eqn:P.
    + apply prefix_escapedSlash in P as [-> (s' & Hs')].
      destruct u as [|d u]; [discriminate Hs'|].
      rewrite append_cons in Hs'. inversion Hs'; subst d.
      apply slashFree_cons in Hu as [Hd _]. contradiction.
    + rewrite IH by exact Hu. reflexivity.
Qed.

Lemma SplitN2_slashFree (u : string) :
  slashFree u = true -> SplitN2 u escapedSlash = (u, None).
Proof.
  induction u as [|c u IH]; intros Hu; [reflexivity|].
  apply slashFree_cons in Hu as [Hc Hu]. rewrite SplitN2_unfold.
  destruct (String.prefix escapedSlash _) eqn:P.
  - apply prefix_escapedSlash in P as [-> (s' & ->)].
    apply slashFree_cons in Hu as [Hd _]. contradiction.
  - rewrite IH by exact Hu. reflexivity.
Qed.

Lemma Split_slashFree (u : string) :
  slashFree u = true -> Split u "/" = [u].
Proof.
  induction u as [|c u IH]; intros Hu; [reflexivity|].
  apply slashFree_cons in Hu as [Hc Hu]. cbn [Split].
  destruct (Ascii.eqb c "/") eqn:E; [apply Ascii.eqb_eq in E; contradiction|].
  rewrite IH by exact Hu. reflexivity.
Qed.

Lemma Split_slashFree_slash (a R : string) :
  slashFree a = true ->
  Split (a +:+ "/" +:+ R) "/" = a :: Split R "/".
Proof.
  induction a as [|c a IH]; intros Ha; [reflexivity|].
  apply slashFree_cons in Ha as [Hc Ha]. rewrite append_cons. cbn [Split].
  destruct (Ascii.eqb c "/") eqn:E; [apply Ascii.eqb_eq in E; contradiction|].
  rewrite IH by exact Ha. reflexivity.
Qed.

(** A slash-free name that does not end in a backslash, then "/": the
    separator is not escaped, and the split of the rest is not moved. *)
Lemma SplitN2_plain_segment (a R : string) :
  slashFree a = true -> endsWithBackslash a = false ->
  SplitN2 (a +:+ "/" +:+ R) escapedSlash =
    let '(h, o) := SplitN2 R escapedSlash in (a +:+ "/" +:+ h, o).
Proof.
  induction a as [|c a IH]; intros Ha He.
  - rewrite !append_nil. change ("/" +:+ R) with (String "/" R).
    rewrite SplitN2_unfold.
    destruct (String.prefix escapedSlash (String "/" R)) eqn:P.
    + apply prefix_escapedSlash in P as [P _]. discriminate P.
    + destruct (SplitN2 R escapedSlash). reflexivity.
  - apply slashFree_cons in Ha as [Hc Ha].
    rewrite append_cons, SplitN2_unfold.
    destruct (String.prefix escapedSlash _) eqn:P.
    + apply prefix_escapedSlash in P as [-> (s' & Hs')].
      destruct a as [|d a].
      * cbn in He. discriminate He.
      * rewrite append_cons in Hs'. inversion Hs'; subst d.
        apply slashFree_cons in Ha as [Hd _]. contradiction.
    + rewrite IH; [|exact Ha|destruct a; [reflexivity|exact He]].
      destruct (SplitN2 R escapedSlash). reflexivity.
Qed.

Lemma glue_cons (a : string) (pathList morePathList : list string) :
  pathList <> [] ->
  glue (a :: pathList) morePathList = (a ::.) <$> glue pathList morePathList.
Proof.
  intros Hne. destruct pathList as [|x l]; [contradiction|].
  unfold glue. cbn [List.length].
  replace (S (S (List.length l)) - 1)%nat with (S (S (List.length l) - 1))
    by lia.
  cbn [lookup list_lookup].
  destruct ((x :: l) !! (S (List.length l) - 1)%nat) as [lastName|];
    [|reflexivity].
  destruct (morePathList !! 0%nat) as [more0|]; reflexivity.
Qed.

Lemma glue_singleton (u m0 : string) (mt : list string) :
  glue [u] (m0 :: mt) = Some ((u +:+ "/" +:+ m0) :: mt).
Proof. unfold glue. cbn. rewrite drop_0. reflexivity. Qed.

(** An unescaped separator after a plain name starts a new segment. *)
Lemma splitPathToList_plain_segment (a R : string) (m : list string) :
  slashFree a = true -> endsWithBackslash a = false ->
  splitPathToList R = Some m ->
  splitPathToList (a +:+ "/" +:+ R) = Some (a :: m).
Proof.
  intros Ha He HR.
  rewrite splitPathToList_unfold in HR |- *.
  rewrite SplitN2_plain_segment by assumption.
  destruct (SplitN2 R escapedSlash) as [h [r|]].
  - destruct (splitPathToList r) as [more|]; [|discriminate].
    rewrite Split_slashFree_slash by exact Ha.
    rewrite glue_cons, HR; [reflexivity|].
    destruct (Split_cons h "/") as (f & fs & ->). discriminate.
  - rewrite Split_slashFree_slash by exact Ha. simplify_eq. reflexivity.
Qed.

Lemma slashFree_snoc (u : string) (c : ascii) :
  slashFree u = true -> c <> "/"%char ->
  slashFree (u +:+ String c EmptyString) = true.
Proof.
  induction u as [|d u IH]; intros Hu Hc.
  - rewrite append_nil. cbn. destruct (Ascii.eqb c "/") eqn:E; [|reflexivity].
    apply Ascii.eqb_eq in E. contradiction.
  - apply slashFree_cons in Hu as [Hd Hu]. rewrite append_cons.
    cbn [slashFree]. rewrite IH by assumption.
    destruct (Ascii.eqb d "/") eqn:E; [|reflexivity].
    apply Ascii.eqb_eq in E. contradiction.
Qed.

Lemma append_empty_r (s : string) : s +:+ EmptyString = s.
Proof. induction s as [|c s IH]; [reflexivity|]. rewrite append_cons, IH. reflexivity. Qed.

(** What follows a segment in a rejoined path: nothing, or "/" and a
    path that splits into [m]. *)
Definition follows (T : string) (tail : list string) (segment : string) : Prop :=
  (T = EmptyString /\ tail = []) \/
  (exists R, T = "/" +:+ R /\ splitPathToList R = Some tail /\
             endsWithBackslash segment = false).

(** Splitting a segment in escaped form, of which the slash-free part [u]
    was already read. *)
Lemma splitPathToList_segment (x u T : string) (tail : list string) :
  slashFree u = true ->
  follows T tail (u +:+ x) ->
  splitPathToList (u +:+ escapeSegment x +:+ T) = Some ((u +:+ x) :: tail).
Proof.
  revert u. induction x as [|c x IH]; intros u Hu Hf.
  - unfold escapeSegment. cbn [ReplaceAll]. rewrite append_nil.
    rewrite append_empty_r in Hf |- *.
    destruct Hf as [[-> ->]|(R & -> & HR & He)].
    + rewrite append_empty_r, splitPathToList_unfold, SplitN2_slashFree by exact Hu.
      rewrite Split_slashFree by exact Hu. reflexivity.
    + apply splitPathToList_plain_segment; assumption.
  - unfold escapeSegment. cbn [ReplaceAll].
    destruct (Ascii.eqb c "/") eqn:Ec.
    + apply Ascii.eqb_eq in Ec. subst c. fold (escapeSegment x).
      rewrite append_assoc, splitPathToList_unfold.
      rewrite SplitN2_slashFree_escaped by exact Hu.
      rewrite <- (append_nil (escapeSegment x +:+ T)).
      rewrite (IH EmptyString); [|reflexivity|].
      * rewrite append_nil, Split_slashFree by exact Hu.
        rewrite glue_singleton. reflexivity.
      * rewrite append_nil.
        destruct Hf as [Hf|(R & HT & HR & He)]; [left; exact Hf|].
        right. exists R. split; [exact HT|]. split; [exact HR|].
        clear - He. induction u as [|d u IHu].
        -- rewrite append_nil in He. destruct x; [reflexivity|exact He].
        -- apply IHu. rewrite append_cons in He. cbn [endsWithBackslash] in He.
           destruct (u +:+ String "/" x) eqn:E; [|exact He].
           destruct u; discriminate E.
    + fold (escapeSegment x). rewrite append_cons.
      change (String c (escapeSegment x +:+ T))
        with (String c EmptyString +:+ escapeSegment x +:+ T).
      rewrite <- append_assoc.
      assert (Hux : (u +:+ String c EmptyString) +:+ x = u +:+ String c x)
        by (rewrite append_assoc; reflexivity).
      rewrite (IH (u +:+ String c EmptyString) ); rewrite ?Hux.
      * reflexivity.
      * apply slashFree_snoc; [exact Hu|]. intros ->. discriminate Ec.
      * exact Hf.
Qed.

(** [strings.Contains(s, substr)]. *)
Fixpoint Contains (s substr : string) : bool :=
  if String.prefix substr s then true
  else
    match s with
    | EmptyString => false
    | String _ s' => Contains s' substr
    end.

Lemma Contains_unfold (s substr : string) :
  Contains s substr =
    if String.prefix substr s then true
    else match s with
         | EmptyString => false
         | String _ s' => Contains s' substr
         end.
Proof. destruct s; reflexivity. Qed.

Lemma SplitN2_not_Contains (s sep : string) :
  Contains s sep = false -> SplitN2 s sep = (s, None).
Proof.
  induction s as [|c s IH]; intros H; rewrite Contains_unfold in H;
    rewrite SplitN2_unfold; destruct (String.prefix sep _); try discriminate;
    [reflexivity|].
  rewrite IH by exact H. reflexivity.
Qed.

(** X1. A path without escaped separator is split at every "/", as
    [strings.Split] does. *)
Theorem splitPathToList_plain (path : string) :
  Contains path escapedSlash = false ->
  splitPathToList path = Some (Split path "/").
Proof.
  intros H. rewrite splitPathToList_unfold, SplitN2_not_Contains by exact H.
  reflexivity.
Qed.

Lemma splitPathToList_plain_witness :
  splitPathToList "dc1/vms/web-1" = Some ["dc1"; "vms"; "web-1"].
Proof.
  rewrite (splitPathToList_plain "dc1/vms/web-1"); [reflexivity|].
  vm_compute. reflexivity.
Defined.

(** X2. Two paths that split into the same list are the same path. *)
Theorem splitPathToList_injective (path1 path2 : string) :
  splitPathToList path1 = splitPathToList path2 -> path1 = path2.
Proof.
  intros H.
  destruct (splitPathToList_spec path1) as (x1 & l1 & H1 & R1).
  destruct (splitPathToList_spec path2) as (x2 & l2 & H2 & R2).
  rewrite H1, H2 in H. simplify_eq. reflexivity.
Qed.

Lemma splitPathToList_injective_witness :
  "a\/b/c" = String "a" (String "\" (String "/" "b/c")).
Proof.
  apply (splitPathToList_injective "a\/b/c"
           (String "a" (String "\" (String "/" "b/c")))).
  vm_compute. reflexivity.
Defined.

Lemma rejoinPath_cons (f g : string) (rest : list string) :
  rejoinPath (f :: g :: rest) =
  escapeSegment f +:+ "/" +:+ rejoinPath (g :: rest).
Proof. reflexivity. Qed.

Lemma split_rejoin (folders : list string) (name : string) :
  Forall (fun f => endsWithBackslash f = false) folders ->
  splitPathToList (rejoinPath (folders ++ [name])) = Some (folders ++ [name])%list.
Proof.
  induction 1 as [|f rest Hf Hrest IH]; cbn [app].
  - change (rejoinPath [name]) with (escapeSegment name).
    rewrite <- (append_nil (escapeSegment name)),
            <- (append_empty_r (EmptyString +:+ escapeSegment name)),
            append_assoc.
    rewrite (splitPathToList_segment name EmptyString EmptyString []);
      [reflexivity|reflexivity|left; split; reflexivity].
  - destruct (rest ++ [name])%list as [|g l] eqn:E;
      [destruct rest; discriminate E|].
    rewrite rejoinPath_cons.
    rewrite <- (append_nil (escapeSegment f +:+ _)).
    rewrite (splitPathToList_segment f EmptyString _ (g :: l));
      [reflexivity|reflexivity|].
    right. exists (rejoinPath (g :: l)). split; [reflexivity|].
    split; [exact IH|exact Hf].
Qed.

(** X3. The names of folders and of a VM, each with its "/" escaped and
    joined by "/" as [getVmsInFolder] builds a path, are split by
    [splitPathToList] into these names again, provided no folder name
    ends in a backslash. *)
Theorem splitPathToList_rejoinPath (folders : list string) (name : string) :
  Forall (fun f => endsWithBackslash f = false) folders ->
  splitPathToList (rejoinPath (folders ++ [name])) = Some (folders ++ [name])%list.
Proof. apply split_rejoin. Qed.

(** A folder and a VM whose names hold "/" and a backslash. *)
Lemma splitPathToList_rejoinPath_witness :
  rejoinPath ["prod/eu"; "a\b"; "web/1"] = "prod\/eu/a\b/web\/1" /\
  splitPathToList "prod\/eu/a\b/web\/1" = Some ["prod/eu"; "a\b"; "web/1"].
Proof.
  split; [vm_compute; reflexivity|].
  change "prod\/eu/a\b/web\/1" with (rejoinPath (["prod/eu"; "a\b"] ++ ["web/1"])).
  rewrite (splitPathToList_rejoinPath ["prod/eu"; "a\b"] "web/1"); [reflexivity|].
  repeat constructor.
Defined.

End Paths.

(** ** Walking the inventory: listing the VMs, and the search by path *)

Module Walk.
Import GoStrings.

(** [VmProperties], lines 1935-1938: the full path of a VM and its
    managed object. *)
Record VmProperties : Type := {
  Name : string;
  Properties : Inventory.VirtualMachine;
}.

Section Collector.

(** [Folder.Children], the collector's [RetrieveOne] of a folder's
    ["childEntity"], of a folder's ["name"] and of a VM's properties,
    [isObjectDeleted] (declared outside util.go) and [url.QueryUnescape]. *)
Variable Children : ManagedObjectReference -> result (list ManagedObjectReference).
Variable RetrieveChildEntity :
  ManagedObjectReference -> result (list ManagedObjectReference).
Variable RetrieveFolderName : ManagedObjectReference -> result string.
Variable RetrieveVirtualMachine :
  ManagedObjectReference -> result Inventory.VirtualMachine.
Variable isObjectDeleted : error -> bool.
Variable QueryUnescape : string -> result string.

(** The loop of [getVmsInFolder], lines 2075-2134, over the children that
    remain; [getVmsInFolder'] is the recursive call.  [None] stands for a
    walk cut off by the fuel. *)
Fixpoint vmsLoop
    (getVmsInFolder' :
       ManagedObjectReference -> string -> option (result (list VmProperties)))
    (path : string) (children : list ManagedObjectReference)
    (allVms : list VmProperties) : option (result (list VmProperties)) :=
  match children with
  | [] => Some (Ok allVms)
  | mor :: rest =>
      if String.eqb (Type_ mor) "Folder" then
        match RetrieveFolderName mor with
        | Err err =>
            if isObjectDeleted err then vmsLoop getVmsInFolder' path rest allVms
            else Some (Err err)
        | Ok name =>
            match QueryUnescape name with
            | Err err => Some (Err err)
            | Ok folderName =>
                let folderName :=
                  ReplaceAll folderName "/" Inventory.escapedSlash in
                match getVmsInFolder' mor (path +:+ folderName +:+ "/") with
                | None => None
                | Some (Err err) => Some (Err err)
                | Some (Ok vmProps) =>
                    vmsLoop getVmsInFolder' path rest (allVms ++ vmProps)
                end
            end
        end
      else if String.eqb (Type_ mor) "VirtualMachine" then
        match RetrieveVirtualMachine mor with
        | Err err =>
            if isObjectDeleted err then vmsLoop getVmsInFolder' path rest allVms
            else Some (Err err)
        | Ok vmMo =>
            match QueryUnescape (Inventory.Name vmMo) with
            | Err err => Some (Err err)
            | Ok vmName =>
                let vmName :=
                  path +:+ ReplaceAll vmName "/" Inventory.escapedSlash in
                vmsLoop getVmsInFolder' path rest
                  (allVms ++ [ {| Name := vmName; Properties := vmMo |} ])
            end
        end
      else vmsLoop getVmsInFolder' path rest allVms
  end.

(** [getVmsInFolder], lines 2067-2136, for folders nested at most [fuel]
    deep. *)
Fixpoint getVmsInFolder (fuel : nat) (folder : ManagedObjectReference)
    (path : string) : option (result (list VmProperties)) :=
  match fuel with
  | O => None
  | S fuel' =>
      match Children folder with
      | Err err => Some (Err err)
      | Ok children => vmsLoop (getVmsInFolder fuel') path children []
      end
  end.

(** The inventory holds the VM under [folder], below the chain of child
    folders whose names, as retrieved and unescaped, are [folders]: the VM
    is a child of the last of them (of [folder] itself when the chain is
    empty). *)
Inductive locates
  : ManagedObjectReference -> list string -> Inventory.VirtualMachine -> Prop :=
| locates_here folder children mor vmMo :
    Children folder = Ok children ->
    mor ∈ children ->
    Type_ mor = "VirtualMachine" ->
    RetrieveVirtualMachine mor = Ok vmMo ->
    locates folder [] vmMo
| locates_below folder children mor name folderName folders vmMo :
    Children folder = Ok children ->
    mor ∈ children ->
    Type_ mor = "Folder" ->
    RetrieveFolderName mor = Ok name ->
    QueryUnescape name = Ok folderName ->
    locates mor folders vmMo ->
    locates folder (folderName :: folders) vmMo.

(** The entry is named by the prefix [path], the folder names [folders]
    and the unescaped name [vmName] of its VM, each with its "/" escaped,
    joined by "/". *)
Definition listedAs (path : string) (vp : VmProperties)
    (folders : list string) (vmName : string) : Prop :=
  QueryUnescape (Inventory.Name (Properties vp)) = Ok vmName /\
  Name vp = path +:+ Inventory.rejoinPath (folders ++ [vmName]).

(** The entry lists a VM of the inventory under [folder], with the names
    of the folders between [folder] and the VM. *)
Definition lists (folder : ManagedObjectReference) (path : string)
    (vp : VmProperties) : Prop :=
  exists folders vmName,
    locates folder folders (Properties vp) /\ listedAs path vp folders vmName.

(** *** Properties of the listing *)

Lemma listedAs_under (path f : string) (vp : VmProperties)
    (folders : list string) (vmName : string) :
  listedAs (path +:+ Inventory.escapeSegment f +:+ "/") vp folders vmName ->
  listedAs path vp (f :: folders) vmName.
Proof.
  intros [Hq Hn]. split; [exact Hq|]. rewrite Hn. cbn [app].
  destruct (folders ++ [vmName])%list as [|g l] eqn:E;
    [destruct folders; discriminate E|].
  rewrite Paths.rejoinPath_cons, !Inventory.append_assoc. reflexivity.
Qed.

Lemma vmsLoop_listed
    (getVmsInFolder' :
       ManagedObjectReference -> string -> option (result (list VmProperties)))
    (folder : ManagedObjectReference) (all : list ManagedObjectReference)
    (path : string) (children : list ManagedObjectReference)
    (allVms vms : list VmProperties) :
  Children folder = Ok all ->
  (forall mor, mor ∈ children -> mor ∈ all) ->
  (forall mor path' vms', getVmsInFolder' mor path' = Some (Ok vms') ->
     forall vp, vp ∈ vms' -> lists mor path' vp) ->
  (forall vp, vp ∈ allVms -> lists folder path vp) ->
  vmsLoop getVmsInFolder' path children allVms = Some (Ok vms) ->
  forall vp, vp ∈ vms -> lists folder path vp.
Proof.
  intros Hc Hsub Hrec. revert allVms Hsub.
  induction children as [|mor rest IH]; intros allVms Hsub Hall H;
    cbn [vmsLoop] in H.
  - simplify_eq. exact Hall.
  - assert (Hmor : mor ∈ all) by (apply Hsub, elem_of_cons; left; reflexivity).
    assert (Hrest : forall m, m ∈ rest -> m ∈ all)
      by (intros m Hm; apply Hsub, elem_of_cons; right; exact Hm).
    destruct (String.eqb_spec (Type_ mor) "Folder") as [Hfolder|_].
    + destruct (RetrieveFolderName mor) as [name|err] eqn:En.
      * destruct (QueryUnescape name) as [folderName|err] eqn:Eq; [|discriminate].
        cbv zeta in H.
        destruct (getVmsInFolder' mor _) as [[vmProps|err]|] eqn:Esub;
          try discriminate.
        eapply (IH _ Hrest); [|exact H]. intros vp Hvp.
        apply elem_of_app in Hvp as [Hvp|Hvp]; [apply Hall, Hvp|].
        destruct (Hrec _ _ _ Esub vp Hvp) as (folders & vmName & Hloc & Hl).
        exists (folderName :: folders), vmName. split.
        -- exact (locates_below folder all mor name folderName folders _
                    Hc Hmor Hfolder En Eq Hloc).
        -- apply listedAs_under, Hl.
      * destruct (isObjectDeleted err); [|discriminate].
        apply (IH _ Hrest Hall H).
    + destruct (String.eqb_spec (Type_ mor) "VirtualMachine") as [Hvm|_];
        [|apply (IH _ Hrest Hall H)].
      destruct (RetrieveVirtualMachine mor) as [vmMo|err] eqn:Ev.
      * destruct (QueryUnescape (Inventory.Name vmMo)) as [vmName|err] eqn:Eq;
          [|discriminate].
        cbv zeta in H. eapply (IH _ Hrest); [|exact H]. intros vp Hvp.
        apply elem_of_app in Hvp as [Hvp|Hvp]; [apply Hall, Hvp|].
        apply list_elem_of_singleton in Hvp. subst vp.
        exists [], vmName. split.
        -- exact (locates_here folder all mor vmMo Hc Hmor Hvm Ev).
        -- split; [exact Eq|reflexivity].
      * destruct (isObjectDeleted err); [|discriminate].
        apply (IH _ Hrest Hall H).
Qed.

Lemma getVmsInFolder_listed (fuel : nat) (folder : ManagedObjectReference)
    (path : string) (vms : list VmProperties) :
  getVmsInFolder fuel folder path = Some (Ok vms) ->
  forall vp, vp ∈ vms -> lists folder path vp.
Proof.
  revert folder path vms.
  induction fuel as [|fuel IH]; intros folder path vms H; [discriminate|].
  cbn [getVmsInFolder] in H.
  destruct (Children folder) as [children|err] eqn:Ec; [|discriminate].
  apply (vmsLoop_listed (getVmsInFolder fuel) folder children path children
           [] vms Ec); [auto| | |exact H].
  - intros mor path' vms' Hsub. exact (IH mor path' vms' Hsub).
  - intros vp Hvp. apply elem_of_nil in Hvp. contradiction.
Qed.

(** What a loop that ends with a list has done for each child. *)
Lemma vmsLoop_children
    (getVmsInFolder' :
       ManagedObjectReference -> string -> option (result (list VmProperties)))
    (path : string) (children : list ManagedObjectReference)
    (allVms vms : list VmProperties) :
  vmsLoop getVmsInFolder' path children allVms = Some (Ok vms) ->
  (forall vp, vp ∈ allVms -> vp ∈ vms) /\
  (forall mor vmMo,
     mor ∈ children -> Type_ mor = "VirtualMachine" ->
     RetrieveVirtualMachine mor = Ok vmMo ->
     exists vmName,
       QueryUnescape (Inventory.Name vmMo) = Ok vmName /\
       {| Name := path +:+ Inventory.escapeSegment vmName;
          Properties := vmMo |} ∈ vms) /\
  (forall mor name folderName,
     mor ∈ children -> Type_ mor = "Folder" ->
     RetrieveFolderName mor = Ok name ->
     QueryUnescape name = Ok folderName ->
     exists vmProps,
       getVmsInFolder' mor (path +:+ Inventory.escapeSegment folderName +:+ "/")
         = Some (Ok vmProps) /\
       forall vp, vp ∈ vmProps -> vp ∈ vms).
Proof.
  revert allVms.
  induction children as [|mor rest IH]; intros allVms H; cbn [vmsLoop] in H.
  - simplify_eq. split; [auto|]. split.
    + intros m vmMo Hm. apply elem_of_nil in Hm. contradiction.
    + intros m name folderName Hm. apply elem_of_nil in Hm. contradiction.
  - assert (Hskip :
      vmsLoop getVmsInFolder' path rest allVms = Some (Ok vms) ->
      (forall vmMo, Type_ mor = "VirtualMachine" ->
         RetrieveVirtualMachine mor = Ok vmMo -> False) ->
      (forall name, Type_ mor = "Folder" ->
         RetrieveFolderName mor = Ok name -> False) ->
      (forall vp, vp ∈ allVms -> vp ∈ vms) /\
      (forall m vmMo,
         m ∈ mor :: rest -> Type_ m = "VirtualMachine" ->
         RetrieveVirtualMachine m = Ok vmMo ->
         exists vmName,
           QueryUnescape (Inventory.Name vmMo) = Ok vmName /\
           {| Name := path +:+ Inventory.escapeSegment vmName;
              Properties := vmMo |} ∈ vms) /\
      (forall m name folderName,
         m ∈ mor :: rest -> Type_ m = "Folder" ->
         RetrieveFolderName m = Ok name ->
         QueryUnescape name = Ok folderName ->
         exists vmProps,
           getVmsInFolder' m (path +:+ Inventory.escapeSegment folderName +:+ "/")
             = Some (Ok vmProps) /\
           forall vp, vp ∈ vmProps -> vp ∈ vms)).
    { intros Hloop Hnovm Hnofolder.
      destruct (IH _ Hloop) as (Hacc & Hvms & Hfolders).
      split; [exact Hacc|]. split.
      - intros m vmMo Hm Ht Hr. apply elem_of_cons in Hm as [->|Hm];
          [destruct (Hnovm vmMo Ht Hr)|exact (Hvms m vmMo Hm Ht Hr)].
      - intros m name folderName Hm Ht Hr Hq.
        apply elem_of_cons in Hm as [->|Hm];
          [destruct (Hnofolder name Ht Hr)
          |exact (Hfolders m name folderName Hm Ht Hr Hq)]. }
    destruct (String.eqb_spec (Type_ mor) "Folder") as [Hfolder|Hnf].
    + destruct (RetrieveFolderName mor) as [name|err] eqn:En.
      * destruct (QueryUnescape name) as [folderName|err] eqn:Eq; [|discriminate].
        cbv zeta in H. fold (Inventory.escapeSegment folderName) in H.
        destruct (getVmsInFolder' mor _) as [[vmProps|err]|] eqn:Esub;
          try discriminate.
        destruct (IH _ H) as (Hacc & Hvms & Hfolders).
        split; [intros vp Hvp; apply Hacc, elem_of_app; left; exact Hvp|].
        split.
        -- intros m vmMo Hm Ht Hr. apply elem_of_cons in Hm as [->|Hm];
             [rewrite Hfolder in Ht; discriminate|exact (Hvms m vmMo Hm Ht Hr)].
        -- intros m name' folderName' Hm Ht Hr Hq.
           apply elem_of_cons in Hm as [->|Hm];
             [|exact (Hfolders m name' folderName' Hm Ht Hr Hq)].
           rewrite En in Hr. injection Hr as <-.
           rewrite Eq in Hq. injection Hq as <-.
           exists vmProps. split; [exact Esub|].
           intros vp Hvp. apply Hacc, elem_of_app. right. exact Hvp.
      * destruct (isObjectDeleted err); [|discriminate].
        apply (Hskip H).
        -- intros vmMo Ht. rewrite Hfolder in Ht. discriminate.
        -- intros name _ Hr. discriminate.
    + destruct (String.eqb_spec (Type_ mor) "VirtualMachine") as [Hvm|Hnv].
      * destruct (RetrieveVirtualMachine mor) as [vmMo|err] eqn:Ev.
        -- destruct (QueryUnescape (Inventory.Name vmMo)) as [vmName|err] eqn:Eq;
             [|discriminate].
           cbv zeta in H. fold (Inventory.escapeSegment vmName) in H.
           destruct (IH _ H) as (Hacc & Hvms & Hfolders).
           split; [intros vp Hvp; apply Hacc, elem_of_app; left; exact Hvp|].
           split.
           ++ intros m vmMo' Hm Ht Hr. apply elem_of_cons in Hm as [->|Hm];
                [|exact (Hvms m vmMo' Hm Ht Hr)].
              rewrite Ev in Hr. injection Hr as <-.
              exists vmName. split; [exact Eq|].
              apply Hacc, elem_of_app. right. apply list_elem_of_singleton.
              reflexivity.
           ++ intros m name folderName Hm Ht Hr Hq.
              apply elem_of_cons in Hm as [->|Hm];
                [contradiction|exact (Hfolders m name folderName Hm Ht Hr Hq)].
        -- destruct (isObjectDeleted err); [|discriminate].
           apply (Hskip H).
           ++ intros vmMo _ Hr. discriminate.
           ++ intros name Ht. contradiction.
      * apply (Hskip H).
        -- intros vmMo Ht. contradiction.
        -- intros name Ht. contradiction.
Qed.

Lemma getVmsInFolder_complete (fuel : nat) (folder : ManagedObjectReference)
    (path : string) (vms : list VmProperties)
    (folders : list string) (vmMo : Inventory.VirtualMachine) :
  getVmsInFolder fuel folder path = Some (Ok vms) ->
  locates folder folders vmMo ->
  exists vp vmName,
    vp ∈ vms /\ Properties vp = vmMo /\ listedAs path vp folders vmName.
Proof.
  intros H Hloc. revert fuel path vms H.
  induction Hloc as [folder children mor vmMo Hc Hin Ht Hr
                    |folder children mor name folderName folders vmMo
                       Hc Hin Ht Hr Hq Hloc IH];
    intros [|fuel] path vms H; try discriminate; cbn [getVmsInFolder] in H;
    rewrite Hc in H; apply vmsLoop_children in H as (_ & Hvms & Hfolders).
  - destruct (Hvms mor vmMo Hin Ht Hr) as (vmName & Hq & Hvp).
    eexists _, vmName. split; [exact Hvp|]. split; [reflexivity|].
    split; [exact Hq|reflexivity].
  - destruct (Hfolders mor name folderName Hin Ht Hr Hq) as (vmProps & Hsub & Hinc).
    destruct (IH _ _ _ Hsub) as (vp & vmName & Hvp & Hp & Hl).
    exists vp, vmName. split; [apply Hinc, Hvp|]. split; [exact Hp|].
    apply listedAs_under, Hl.
Qed.

(** X4. When [getVmsInFolder] returns a list, its entries are the VMs of
    the inventory under the given folder, each named by its place: an
    entry lists a VM that lies below a chain of child folders of the given
    folder, and its name is the given path prefix followed by the names of
    these folders and of the VM, each with its "/" escaped, joined by "/";
    and every VM that lies under the folder in this way has such an entry.
    Listed from the root (an empty prefix), the name of an entry is split
    by [splitPathToList] into those names again when no folder name ends
    in a backslash. *)
Theorem getVmsInFolder_names (fuel : nat) (folder : ManagedObjectReference)
    (path : string) (vms : list VmProperties) :
  getVmsInFolder fuel folder path = Some (Ok vms) ->
  (forall vp, vp ∈ vms ->
     exists folders vmName,
       locates folder folders (Properties vp) /\
       listedAs path vp folders vmName /\
       (path = EmptyString ->
        Forall (fun f => Paths.endsWithBackslash f = false) folders ->
        Inventory.splitPathToList (Name vp) = Some (folders ++ [vmName])%list)) /\
  (forall folders vmMo,
     locates folder folders vmMo ->
     exists vp vmName,
       vp ∈ vms /\ Properties vp = vmMo /\ listedAs path vp folders vmName).
Proof.
  intros H. split.
  - intros vp Hvp.
    destruct (getVmsInFolder_listed fuel folder path vms H vp Hvp)
      as (folders & vmName & Hloc & Hl).
    exists folders, vmName. split; [exact Hloc|]. split; [exact Hl|].
    intros -> Hf. destruct Hl as [_ ->]. rewrite Inventory.append_nil.
    apply Paths.split_rejoin, Hf.
  - intros folders vmMo Hloc.
    exact (getVmsInFolder_complete fuel folder path vms folders vmMo H Hloc).
Qed.

(** *** Properties of the search by path *)

Local Abbreviation childLoop :=
  (Inventory.childLoop RetrieveFolderName RetrieveVirtualMachine
     isObjectDeleted QueryUnescape).
Local Abbreviation searchLoop :=
  (Inventory.searchLoop RetrieveChildEntity RetrieveFolderName
     RetrieveVirtualMachine isObjectDeleted QueryUnescape).
Local Abbreviation searchTree :=
  (Inventory.searchTree RetrieveChildEntity RetrieveFolderName
     RetrieveVirtualMachine isObjectDeleted QueryUnescape).

(** The call did not stop for lack of fuel. *)
Definition finished (r : Inventory.searchResult) : bool :=
  match r with
  | Inventory.OutOfFuel => false
  | _ => true
  end.

(** The loop over the children never lowers [iPathList], and sets [mor]
    only together with an increment. *)
Lemma childLoop_progress (pathList : list string) (lPathList : Z)
    (children : list ManagedObjectReference) (iPathList : Z)
    (mor : option ManagedObjectReference) :
  match childLoop pathList lPathList children iPathList mor with
  | Inventory.Return r => finished r = true
  | Inventory.Continue iPathList' mor' =>
      iPathList <= iPathList' /\ (iPathList' = iPathList -> mor' = mor)
  end.
Proof.
  revert iPathList mor.
  induction children as [|child rest IH]; intros i mor; cbn [Inventory.childLoop];
    [split; [lia|reflexivity]|].
  assert (Hstep : match childLoop pathList lPathList rest (i + 1) (Some child) with
                  | Inventory.Return r => finished r = true
                  | Inventory.Continue i' mor' =>
                      i <= i' /\ (i' = i -> mor' = mor)
                  end).
  { specialize (IH (i + 1) (Some child)).
    destruct (childLoop pathList lPathList rest (i + 1) (Some child));
      [exact IH|]. destruct IH as [Hle _]. split; [lia|]. intros ->. lia. }
  destruct (String.eqb (Type_ child) "Folder").
  - destruct (i =? lPathList - 1); [apply IH|].
    destruct (RetrieveFolderName child) as [name|err].
    + destruct (QueryUnescape name) as [childName|err]; [|reflexivity].
      destruct (Inventory.index pathList i) as [segment|]; [|reflexivity].
      destruct (String.eqb childName segment); [exact Hstep|apply IH].
    + destruct (isObjectDeleted err); [apply IH|reflexivity].
  - destruct (String.eqb (Type_ child) "VirtualMachine"); [|apply IH].
    destruct (negb (i =? lPathList - 1)); [apply IH|].
    destruct (RetrieveVirtualMachine child) as [vmMo|err].
    + destruct (QueryUnescape (Inventory.Name vmMo)) as [vmName|err];
        [|reflexivity].
      destruct (Inventory.index pathList i) as [segment|]; [|reflexivity].
      destruct (String.eqb vmName segment); [reflexivity|apply IH].
    + destruct (isObjectDeleted err); [apply IH|reflexivity].
Qed.

Lemma searchLoop_finished (fuel : nat) (pathList : list string) (name : string)
    (mor : option ManagedObjectReference) (iPathList : Z) :
  let lPathList := Z.of_nat (List.length pathList) in
  0 <= iPathList <= lPathList - 1 ->
  lPathList - iPathList <= Z.of_nat fuel ->
  finished (searchLoop fuel pathList lPathList name mor iPathList) = true.
Proof.
  cbv zeta. revert mor iPathList.
  induction fuel as [|fuel IH]; intros [folder|] i Hi Hfuel;
    cbn [Inventory.searchLoop]; try reflexivity; [lia|].
  destruct (RetrieveChildEntity folder) as [children|err]; [|reflexivity].
  pose proof (childLoop_progress pathList (Z.of_nat (List.length pathList))
                children i None) as Hp.
  pose proof (Inventory.childLoop_in_range RetrieveFolderName
                RetrieveVirtualMachine isObjectDeleted QueryUnescape
                pathList children i None Hi) as Hr.
  cbv zeta in Hr.
  destruct (childLoop pathList _ children i None) as [r|i' [child|]];
    [exact Hp| |reflexivity].
  destruct Hp as [Hle Hsame].
  assert (i' <> i) by (intros ->; specialize (Hsame eq_refl); discriminate).
  apply IH; lia.
Qed.

(** X5. [searchTree] terminates: each folder it descends into consumes a
    segment of the path, so the walk reads at most as many folders as the
    path has segments. *)
Theorem searchTree_terminates (name : string) :
  exists pathList,
    Inventory.splitPathToList name = Some pathList /\
    forall fuel mor,
      (List.length pathList <= fuel)%nat ->
      finished (searchTree fuel mor name) = true.
Proof.
  destruct (Inventory.splitPathToList_spec name) as (x & l & Hs & _).
  exists (x :: l). split; [exact Hs|]. intros fuel mor Hfuel.
  unfold Inventory.searchTree. rewrite Hs.
  apply searchLoop_finished; cbn [List.length] in *; lia.
Qed.

Lemma childLoop_Found (pathList : list string) (lPathList : Z)
    (children : list ManagedObjectReference) (iPathList : Z)
    (mor : option ManagedObjectReference) (vmMo : Inventory.VirtualMachine) :
  childLoop pathList lPathList children iPathList mor
    = Inventory.Return (Inventory.Found vmMo) ->
  exists segment,
    Inventory.index pathList (lPathList - 1) = Some segment /\
    QueryUnescape (Inventory.Name vmMo) = Ok segment.
Proof.
  revert iPathList mor.
  induction children as [|child rest IH]; intros i mor H;
    cbn [Inventory.childLoop] in H; [discriminate|].
  destruct (String.eqb (Type_ child) "Folder").
  - destruct (i =? lPathList - 1); [eapply IH, H|].
    destruct (RetrieveFolderName child) as [name|err].
    + destruct (QueryUnescape name) as [childName|err]; [|discriminate].
      destruct (Inventory.index pathList i) as [segment|]; [|discriminate].
      destruct (String.eqb childName segment); eapply IH, H.
    + destruct (isObjectDeleted err); [eapply IH, H|discriminate].
  - destruct (String.eqb (Type_ child) "VirtualMachine"); [|eapply IH, H].
    destruct (i =? lPathList - 1) eqn:Ei; cbn [negb] in H; [|eapply IH, H].
    apply Z.eqb_eq in Ei. subst i.
    destruct (RetrieveVirtualMachine child) as [vm|err].
    + destruct (QueryUnescape (Inventory.Name vm)) as [vmName|err] eqn:Eq;
        [|discriminate].
      destruct (Inventory.index pathList (lPathList - 1)) as [segment|] eqn:Ex;
        [|discriminate].
      destruct (String.eqb vmName segment) eqn:Es; [|eapply IH, H].
      apply String.eqb_eq in Es. simplify_eq. exists segment.
      split; [reflexivity|exact Eq].
    + destruct (isObjectDeleted err); [eapply IH, H|discriminate].
Qed.

Lemma searchLoop_Found (fuel : nat) (pathList : list string) (lPathList : Z)
    (name : string) (mor : option ManagedObjectReference) (iPathList : Z)
    (vmMo : Inventory.VirtualMachine) :
  searchLoop fuel pathList lPathList name mor iPathList = Inventory.Found vmMo ->
  exists segment,
    Inventory.index pathList (lPathList - 1) = Some segment /\
    QueryUnescape (Inventory.Name vmMo) = Ok segment.
Proof.
  revert mor iPathList.
  induction fuel as [|fuel IH]; intros [folder|] i H;
    cbn [Inventory.searchLoop] in H; try discriminate.
  destruct (RetrieveChildEntity folder) as [children|err]; [|discriminate].
  destruct (childLoop pathList lPathList children i None) as [r|i' [child|]] eqn:Ec;
    [|eapply IH, H|discriminate].
  subst r. eapply childLoop_Found, Ec.
Qed.

(** X6. A VM that [searchTree] returns has, after unescaping, the name
    that the last segment of the path asks for. *)
Theorem searchTree_Found (fuel : nat) (mor : option ManagedObjectReference)
    (name : string) (vmMo : Inventory.VirtualMachine) :
  searchTree fuel mor name = Inventory.Found vmMo ->
  exists pathList segment,
    Inventory.splitPathToList name = Some pathList /\
    last pathList = Some segment /\
    QueryUnescape (Inventory.Name vmMo) = Ok segment.
Proof.
  unfold Inventory.searchTree.
  destruct (Inventory.splitPathToList name) as [pathList|]; [|discriminate].
  cbv zeta. intros H. apply searchLoop_Found in H as (segment & Hi & Hq).
  exists pathList, segment. split; [reflexivity|]. split; [|exact Hq].
  unfold Inventory.index in Hi.
  destruct (Z.of_nat (List.length pathList) - 1 <? 0); [discriminate|].
  rewrite last_lookup. rewrite <- Hi. f_equal. lia.
Qed.

End Collector.

(** *** A small inventory *)

Definition folderRef (n : string) : ManagedObjectReference :=
  {| Type_ := "Folder"; Value := n |}.
Definition vmRef (n : string) : ManagedObjectReference :=
  {| Type_ := "VirtualMachine"; Value := n |}.

(** The root folder holds the folder "prod/eu" and the VM "db"; the
    folder "prod/eu" holds the VM "web/1".  The backend reports names with
    "/" as "%2F". *)
Definition sampleChildren (folder : ManagedObjectReference)
  : result (list ManagedObjectReference) :=
  if String.eqb (Value folder) "group-v1" then
    Ok [folderRef "group-v2"; vmRef "vm-1"]
  else if String.eqb (Value folder) "group-v2" then Ok [vmRef "vm-2"]
  else Err (Fault "ManagedObjectNotFound").

Definition sampleFolderName (folder : ManagedObjectReference) : result string :=
  if String.eqb (Value folder) "group-v2" then Ok "prod%2Feu"
  else Err (Fault "ManagedObjectNotFound").

Definition sampleVirtualMachine (vm : ManagedObjectReference)
  : result Inventory.VirtualMachine :=
  if String.eqb (Value vm) "vm-1" then Ok {| Inventory.Name := "db" |}
  else if String.eqb (Value vm) "vm-2" then Ok {| Inventory.Name := "web%2F1" |}
  else Err (Fault "ManagedObjectNotFound").

(** [url.QueryUnescape] on the names of this inventory. *)
Definition sampleQueryUnescape (s : string) : result string :=
  if String.eqb s "prod%2Feu" then Ok "prod/eu"
  else if String.eqb s "web%2F1" then Ok "web/1"
  else Ok s.

(** The VM "web/1" is listed as "prod\/eu/web\/1": it lies below the
    folder "prod/eu" of the root, and its name splits into "prod/eu" and
    "web/1". *)
Lemma getVmsInFolder_names_witness :
  getVmsInFolder sampleChildren sampleFolderName sampleVirtualMachine
    (fun _ => false) sampleQueryUnescape 3 (folderRef "group-v1") ""
    = Some (Ok [ {| Name := "prod\/eu/web\/1";
                    Properties := {| Inventory.Name := "web%2F1" |} |};
                 {| Name := "db"; Properties := {| Inventory.Name := "db" |} |} ]) /\
  exists folders vmName,
    locates sampleChildren sampleFolderName sampleVirtualMachine
      sampleQueryUnescape (folderRef "group-v1") folders
      {| Inventory.Name := "web%2F1" |} /\
    listedAs sampleQueryUnescape ""
      {| Name := "prod\/eu/web\/1";
         Properties := {| Inventory.Name := "web%2F1" |} |} folders vmName /\
    ("" = EmptyString ->
     Forall (fun f => Paths.endsWithBackslash f = false) folders ->
     Inventory.splitPathToList "prod\/eu/web\/1" = Some (folders ++ [vmName])%list).
Proof.
  assert (H : getVmsInFolder sampleChildren sampleFolderName sampleVirtualMachine
                (fun _ => false) sampleQueryUnescape 3 (folderRef "group-v1") ""
              = Some (Ok [ {| Name := "prod\/eu/web\/1";
                              Properties := {| Inventory.Name := "web%2F1" |} |};
                           {| Name := "db";
                              Properties := {| Inventory.Name := "db" |} |} ]))
    by (vm_compute; reflexivity).
  split; [exact H|].
  destruct (getVmsInFolder_names sampleChildren sampleFolderName
              sampleVirtualMachine (fun _ => false) sampleQueryUnescape
              3 (folderRef "group-v1") "" _ H) as [Hlisted _].
  apply (Hlisted {| Name := "prod\/eu/web\/1";
                    Properties := {| Inventory.Name := "web%2F1" |} |}).
  repeat constructor.
Defined.

(** The search for "prod\/eu/web\/1" from the root finds the VM whose
    name unescapes to "web/1". *)
Lemma searchTree_Found_witness :
  exists pathList segment,
    Inventory.splitPathToList "prod\/eu/web\/1" = Some pathList /\
    last pathList = Some segment /\
    sampleQueryUnescape "web%2F1" = Ok segment.
Proof.
  apply (searchTree_Found sampleChildren sampleFolderName sampleVirtualMachine
           (fun _ => false) sampleQueryUnescape 2 (Some (folderRef "group-v1"))
           "prod\/eu/web\/1" {| Inventory.Name := "web%2F1" |}).
  vm_compute. reflexivity.
Defined.

(** *** The search for a compute resource by name *)

(** [mo.ComputeResource] and [mo.ClusterComputeResource], of which
    [findMob] reads the reference and the name. *)
Record ComputeResource : Type := {
  Self : ManagedObjectReference;
  CrName : string;
}.

(** What [findMob] returns: a reference, the sentinel [errorEmpty] of line
    1792, or another error. *)
Inductive mobResult : Type :=
| MobFound (ref : ManagedObjectReference)
| MobEmpty
| MobFailed (err : error).

Section Mob.

Variable RetrieveChildEntity :
  ManagedObjectReference -> result (list ManagedObjectReference).
Variable RetrieveComputeResource :
  ManagedObjectReference -> result ComputeResource.

(** The loop of [findMob], lines 1808-1840, over the children that
    remain; [findMob'] is the recursive call.  A result found in a child
    folder is not returned: after the first [if] the code goes on to the
    type tests, which a folder fails, and to the next child. *)
Fixpoint mobLoop
    (findMob' : ManagedObjectReference -> string -> option mobResult)
    (name : string) (children : list ManagedObjectReference)
  : option mobResult :=
  match children with
  | [] =>
      Some (MobFailed
              (NewErrorObjectNotFound (errorsNew "Could not find the mob") name))
  | child :: rest =>
      let next := mobLoop findMob' name rest in
      let cluster :=
        if String.eqb (Type_ child) "ClusterComputeResource" then
          match RetrieveComputeResource child with
          | Err err => Some (MobFailed err)
          | Ok cr =>
              if String.eqb (CrName cr) name then Some (MobFound (Self cr))
              else next
          end
        else next in
      let compute :=
        if String.eqb (Type_ child) "ComputeResource" then
          match RetrieveComputeResource child with
          | Err err => Some (MobFailed err)
          | Ok cr =>
              if String.eqb (CrName cr) name then Some (MobFound (Self cr))
              else cluster
          end
        else cluster in
      if String.eqb (Type_ child) "Folder" then
        match findMob' child name with
        | None => None
        | Some MobEmpty => next
        | Some (MobFailed err) => Some (MobFailed err)
        | Some (MobFound _) => compute
        end
      else compute
  end.

(** [findMob], lines 1795-1842, for folders nested at most [fuel] deep. *)
Fixpoint findMob (fuel : nat) (mor : ManagedObjectReference) (name : string)
  : option mobResult :=
  match fuel with
  | O => None
  | S fuel' =>
      match RetrieveChildEntity mor with
      | Err err => Some (MobFailed err)
      | Ok children =>
          if (List.length children =? 0)%nat then Some MobEmpty
          else mobLoop (findMob fuel') name children
      end
  end.

Lemma mobLoop_Found
    (findMob' : ManagedObjectReference -> string -> option mobResult)
    (name : string) (children : list ManagedObjectReference)
    (ref : ManagedObjectReference) :
  mobLoop findMob' name children = Some (MobFound ref) ->
  exists child cr,
    child ∈ children /\
    (Type_ child = "ComputeResource" \/ Type_ child = "ClusterComputeResource") /\
    RetrieveComputeResource child = Ok cr /\
    CrName cr = name /\ ref = Self cr.
Proof.
  induction children as [|child rest IH]; cbn [mobLoop]; [discriminate|].
  cbv zeta. intros H.
  assert (Hnext : mobLoop findMob' name rest = Some (MobFound ref) ->
            exists child' cr,
              child' ∈ child :: rest /\
              (Type_ child' = "ComputeResource" \/
               Type_ child' = "ClusterComputeResource") /\
              RetrieveComputeResource child' = Ok cr /\
              CrName cr = name /\ ref = Self cr).
  { intros Hn. destruct (IH Hn) as (c & cr & Hin & Hrest).
    exists c, cr. split; [apply elem_of_cons; right; exact Hin|exact Hrest]. }
  assert (Hhere : forall cr,
            (Type_ child = "ComputeResource" \/
             Type_ child = "ClusterComputeResource") ->
            RetrieveComputeResource child = Ok cr ->
            String.eqb (CrName cr) name = true ->
            Some (MobFound (Self cr)) = Some (MobFound ref) ->
            exists child' cr',
              child' ∈ child :: rest /\
              (Type_ child' = "ComputeResource" \/
               Type_ child' = "ClusterComputeResource") /\
              RetrieveComputeResource child' = Ok cr' /\
              CrName cr' = name /\ ref = Self cr').
  { intros cr Ht Hr Hn Heq. apply String.eqb_eq in Hn. simplify_eq.
    exists child, cr. split; [apply elem_of_cons; left; reflexivity|].
    repeat split; assumption. }
  assert (Hcompute :
    (if String.eqb (Type_ child) "ComputeResource" then
       match RetrieveComputeResource child with
       | Err err => Some (MobFailed err)
       | Ok cr =>
           if String.eqb (CrName cr) name then Some (MobFound (Self cr))
           else
             if String.eqb (Type_ child) "ClusterComputeResource" then
               match RetrieveComputeResource child with
               | Err err => Some (MobFailed err)
               | Ok cr =>
                   if String.eqb (CrName cr) name then Some (MobFound (Self cr))
                   else mobLoop findMob' name rest
               end
             else mobLoop findMob' name rest
       end
     else
       if String.eqb (Type_ child) "ClusterComputeResource" then
         match RetrieveComputeResource child with
         | Err err => Some (MobFailed err)
         | Ok cr =>
             if String.eqb (CrName cr) name then Some (MobFound (Self cr))
             else mobLoop findMob' name rest
         end
       else mobLoop findMob' name rest) = Some (MobFound ref) ->
    exists child' cr,
      child' ∈ child :: rest /\
      (Type_ child' = "ComputeResource" \/
       Type_ child' = "ClusterComputeResource") /\
      RetrieveComputeResource child' = Ok cr /\
      CrName cr = name /\ ref = Self cr).
  { destruct (String.eqb (Type_ child) "ComputeResource") eqn:Ecr;
      destruct (String.eqb (Type_ child) "ClusterComputeResource") eqn:Eccr;
      try apply String.eqb_eq in Ecr; try apply String.eqb_eq in Eccr;
      destruct (RetrieveComputeResource child) as [cr|err] eqn:Er;
      try discriminate; try exact Hnext;
      destruct (String.eqb (CrName cr) name) eqn:En; try exact Hnext;
      intros Heq; eapply Hhere; eauto. }
  destruct (String.eqb (Type_ child) "Folder"); [|exact (Hcompute H)].
  destruct (findMob' child name) as [[r| |err]|]; try discriminate;
    [exact (Hcompute H)|exact (Hnext H)].
Qed.

(** X7. [findMob] only ever returns a direct child of the folder it is
    given: a compute resource or cluster among the folder's children whose
    name is the one looked for.  What the search of a child folder finds
    is not returned. *)
Theorem findMob_direct_child (fuel : nat) (mor : ManagedObjectReference)
    (name : string) (ref : ManagedObjectReference) :
  findMob fuel mor name = Some (MobFound ref) ->
  exists children child cr,
    RetrieveChildEntity mor = Ok children /\
    child ∈ children /\
    (Type_ child = "ComputeResource" \/ Type_ child = "ClusterComputeResource") /\
    RetrieveComputeResource child = Ok cr /\
    CrName cr = name /\ ref = Self cr.
Proof.
  destruct fuel as [|fuel]; [discriminate|]. cbn [findMob].
  destruct (RetrieveChildEntity mor) as [children|err]; [|discriminate].
  destruct (List.length children =? 0)%nat; [discriminate|].
  intros H. apply mobLoop_Found in H as (child & cr & Hin & Hrest).
  exists children, child, cr. split; [reflexivity|]. split; assumption.
Qed.

End Mob.

(** The host folder holds an empty folder, a folder with the cluster
    "cluster-a" in it, and the cluster "cluster-b". *)
Definition sampleHostFolder (order : list ManagedObjectReference)
    (folder : ManagedObjectReference) : result (list ManagedObjectReference) :=
  if String.eqb (Value folder) "group-h1" then Ok order
  else if String.eqb (Value folder) "group-h2" then Ok []
  else if String.eqb (Value folder) "group-h3" then
    Ok [ {| Type_ := "ClusterComputeResource"; Value := "domain-c1" |} ]
  else Err (Fault "ManagedObjectNotFound").

Definition sampleComputeResource (ref : ManagedObjectReference)
  : result ComputeResource :=
  if String.eqb (Value ref) "domain-c1" then
    Ok {| Self := ref; CrName := "cluster-a" |}
  else if String.eqb (Value ref) "domain-c2" then
    Ok {| Self := ref; CrName := "cluster-b" |}
  else Err (Fault "ManagedObjectNotFound").

(** After the empty folder the direct child "cluster-b" is found, and it
    is what the theorem says. *)
Lemma findMob_direct_child_witness :
  exists children child cr,
    sampleHostFolder
      [ folderRef "group-h2";
        {| Type_ := "ClusterComputeResource"; Value := "domain-c2" |} ]
      (folderRef "group-h1") = Ok children /\
    child ∈ children /\
    (Type_ child = "ComputeResource" \/ Type_ child = "ClusterComputeResource") /\
    sampleComputeResource child = Ok cr /\
    CrName cr = "cluster-b" /\
    {| Type_ := "ClusterComputeResource"; Value := "domain-c2" |} = Self cr.
Proof.
  apply (findMob_direct_child
           (sampleHostFolder
              [ folderRef "group-h2";
                {| Type_ := "ClusterComputeResource"; Value := "domain-c2" |} ])
           sampleComputeResource 2 (folderRef "group-h1") "cluster-b").
  vm_compute. reflexivity.
Defined.

End Walk.

(** ** More of the placement selector *)

Module Select.
Import Placement.

(** [mo.HostSystem] and [mo.Datastore] as [findHostSystem] and
    [findDatastore] retrieve them: the reference and the name. *)
Record Named : Type := {
  NamedSelf : ManagedObjectReference;
  NamedName : string;
}.

(** The errors of the placement functions: an [error] as before, or one
    of the package's typed errors, declared outside util.go. *)
Inductive Error : Type :=
| Plain (e : error)
| NewErrorPropertyRetrieval (mor : ManagedObjectReference) (ps : list string)
    (err : error)
| NewErrorInvalidHost (name ds : string) (networks : list Network)
| errNoHostsInCluster
| ErrorDestinationNotSupported.

Inductive outcome (A : Type) : Type :=
| Done (a : A)
| Failed (err : Error).
Arguments Done {A} a.
Arguments Failed {A} err.

Section Collector.

Variable RetrieveHostSystem : ManagedObjectReference -> result HostSystem.
Variable RetrieveName : ManagedObjectReference -> result string.
(** The collector's [RetrieveOne] of the ["name"] of a host or a
    datastore, into a managed object. *)
Variable RetrieveNamed : ManagedObjectReference -> result Named.

Local Abbreviation validateHost :=
  (Placement.validateHost RetrieveHostSystem RetrieveName).
Local Abbreviation filterHosts :=
  (Placement.filterHosts RetrieveHostSystem RetrieveName).
Local Abbreviation getNetworkName := (Placement.getNetworkName RetrieveName).

(** The loop shared by [findDatastore], lines 298-309, and
    [findHostSystem], lines 315-325. *)
Fixpoint findNamed (mors : list ManagedObjectReference) (name : string)
    (notFound : string) : outcome Named :=
  match mors with
  | [] => Failed (Plain (NewErrorObjectNotFound (errorsNew notFound) name))
  | mor :: rest =>
      match RetrieveNamed mor with
      | Err err => Failed (NewErrorPropertyRetrieval mor ["name"] err)
      | Ok namedMo =>
          if String.eqb (NamedName namedMo) name then Done namedMo
          else findNamed rest name notFound
      end
  end.

(** [findDatastore], lines 297-311, over [dc.Datastore]. *)
Definition findDatastore (vm : VM) (dcDatastore : list ManagedObjectReference)
    (name : string) : outcome Named :=
  findNamed dcDatastore name "datastore not found".

(** [findHostSystem], lines 314-327. *)
Definition findHostSystem (vm : VM) (hsMors : list ManagedObjectReference)
    (name : string) : outcome Named :=
  findNamed hsMors name "host system not found".

(** *** Properties *)

Lemma findNamed_Done (mors : list ManagedObjectReference) (name notFound : string)
    (namedMo : Named) :
  findNamed mors name notFound = Done namedMo <->
  exists before mor after,
    mors = (before ++ mor :: after)%list /\
    RetrieveNamed mor = Ok namedMo /\ NamedName namedMo = name /\
    Forall (fun m => exists other, RetrieveNamed m = Ok other /\
                                   NamedName other <> name) before.
Proof.
  induction mors as [|mor rest IH]; cbn [findNamed].
  - split; [discriminate|]. intros (b & m & a & H & _). destruct b; discriminate.
  - split.
    + intros H. destruct (RetrieveNamed mor) as [mo|err] eqn:Er; [|discriminate].
      destruct (String.eqb (NamedName mo) name) eqn:En.
      * apply String.eqb_eq in En. exists [], mor, rest.
        repeat split; [congruence|congruence|constructor].
      * apply String.eqb_neq in En.
        apply IH in H as (b & m & a & -> & Hr & Hn & Hb).
        exists (mor :: b), m, a. repeat split; auto.
        apply Forall_cons. split; [|exact Hb]. exists mo. split; auto.
    + intros (b & m & a & H & Hr & Hn & Hb).
      destruct b as [|b0 b]; cbn [app] in H; injection H as -> ->.
      * rewrite Hr. apply String.eqb_eq in Hn. rewrite Hn. reflexivity.
      * apply Forall_cons in Hb as [(o & Ho & Hne) Hb]. rewrite Ho.
        apply String.eqb_neq in Hne. rewrite Hne. apply IH.
        exists b, m, a. repeat split; auto.
Qed.

Lemma findNamed_retrieval_fails (before : list ManagedObjectReference)
    (mor : ManagedObjectReference) (after : list ManagedObjectReference)
    (name notFound : string) (err : error) :
  Forall (fun m => exists other, RetrieveNamed m = Ok other /\
                                 NamedName other <> name) before ->
  RetrieveNamed mor = Err err ->
  findNamed (before ++ mor :: after) name notFound
    = Failed (NewErrorPropertyRetrieval mor ["name"] err).
Proof.
  intros Hb Hr. induction Hb as [|b before (o & Ho & Hne) Hb IH]; cbn [app findNamed].
  - rewrite Hr. reflexivity.
  - rewrite Ho. apply String.eqb_neq in Hne. rewrite Hne. exact IH.
Qed.

(** X8. [findDatastore] and [findHostSystem] return the first object of
    the list whose name is the one asked for, and only when every object
    before it could be retrieved; a retrieval that fails before a match
    ends the search with a property-retrieval error, whatever follows. *)
Theorem findDatastore_first_match (vm : VM)
    (mors : list ManagedObjectReference) (name : string) :
  (forall dsMo,
     findDatastore vm mors name = Done dsMo <->
     exists before mor after,
       mors = (before ++ mor :: after)%list /\
       RetrieveNamed mor = Ok dsMo /\ NamedName dsMo = name /\
       Forall (fun m => exists other, RetrieveNamed m = Ok other /\
                                      NamedName other <> name) before) /\
  (forall hsMo,
     findHostSystem vm mors name = Done hsMo <->
     exists before mor after,
       mors = (before ++ mor :: after)%list /\
       RetrieveNamed mor = Ok hsMo /\ NamedName hsMo = name /\
       Forall (fun m => exists other, RetrieveNamed m = Ok other /\
                                      NamedName other <> name) before) /\
  (forall before mor after err,
     mors = (before ++ mor :: after)%list ->
     Forall (fun m => exists other, RetrieveNamed m = Ok other /\
                                    NamedName other <> name) before ->
     RetrieveNamed mor = Err err ->
     findDatastore vm mors name
       = Failed (NewErrorPropertyRetrieval mor ["name"] err) /\
     findHostSystem vm mors name
       = Failed (NewErrorPropertyRetrieval mor ["name"] err)).
Proof.
  split; [|split].
  - intros dsMo. apply findNamed_Done.
  - intros hsMo. apply findNamed_Done.
  - intros before mor after err -> Hb Hr.
    split; apply findNamed_retrieval_fails; assumption.
Qed.

(** The verdict of [validateHost] as a boolean. *)
Definition accepted (vm : VM) (host : ManagedObjectReference) : bool :=
  match validateHost vm host with
  | Ok true => true
  | _ => false
  end.

Lemma filterHostsLoop_all_Ok (vm : VM) (hosts acc : list ManagedObjectReference) :
  Forall (fun h => exists valid, validateHost vm h = Ok valid) hosts ->
  Placement.filterHostsLoop RetrieveHostSystem RetrieveName vm hosts acc
    = Ok (acc ++ filter (fun h => accepted vm h = true) hosts)%list.
Proof.
  intros H. revert acc.
  induction H as [|h hosts (valid & Hv) H IH]; intros acc;
    cbn [Placement.filterHostsLoop].
  - rewrite filter_nil, app_nil_r. reflexivity.
  - rewrite Hv. destruct valid.
    + rewrite IH, filter_cons_True by (unfold accepted; rewrite Hv; reflexivity).
      rewrite <- app_assoc. reflexivity.
    + rewrite IH, filter_cons_False; [reflexivity|].
      unfold accepted. rewrite Hv. discriminate.
Qed.

Lemma filterHostsLoop_Err (vm : VM) (before : list ManagedObjectReference)
    (host : ManagedObjectReference) (after acc : list ManagedObjectReference)
    (err : error) :
  Forall (fun h => exists valid, validateHost vm h = Ok valid) before ->
  validateHost vm host = Err err ->
  Placement.filterHostsLoop RetrieveHostSystem RetrieveName vm
    (before ++ host :: after) acc = Err err.
Proof.
  intros Hb He. revert acc.
  induction Hb as [|h before (valid & Hv) Hb IH]; intros acc;
    cbn [app Placement.filterHostsLoop].
  - rewrite He. reflexivity.
  - rewrite Hv. destruct valid; apply IH.
Qed.

(** X9. When every host of the list can be validated, [filterHosts]
    returns exactly the hosts [validateHost] accepts, in the order of the
    list; when the validation of one host fails, [filterHosts] returns
    that error and no host at all. *)
Theorem filterHosts_exact (vm : VM) (hosts : list ManagedObjectReference) :
  (Forall (fun h => exists valid, validateHost vm h = Ok valid) hosts ->
   filterHosts vm hosts = Ok (filter (fun h => accepted vm h = true) hosts)) /\
  (forall before host after err,
     hosts = (before ++ host :: after)%list ->
     Forall (fun h => exists valid, validateHost vm h = Ok valid) before ->
     validateHost vm host = Err err ->
     filterHosts vm hosts = Err err).
Proof.
  split.
  - intros H. unfold Placement.filterHosts.
    rewrite filterHostsLoop_all_Ok by exact H. reflexivity.
  - intros before host after err -> Hb He. unfold Placement.filterHosts.
    apply filterHostsLoop_Err; assumption.
Qed.

Lemma hostNetworksLoop_complete (vm : VM) (networks : list ManagedObjectReference)
    (acc : gset string) :
  Forall (fun nw => exists name, getNetworkName vm nw = Ok name /\
                                 name <> EmptyString) networks ->
  exists hostNetworks,
    Placement.hostNetworksLoop RetrieveName vm networks acc = Ok hostNetworks /\
    forall name,
      name ∈ hostNetworks <->
      name ∈ acc \/ exists nw, nw ∈ networks /\ getNetworkName vm nw = Ok name.
Proof.
  intros H. revert acc.
  induction H as [|nw networks (n & Hn & Hne) H IH]; intros acc;
    cbn [Placement.hostNetworksLoop].
  - exists acc. split; [reflexivity|]. intros name. split; [auto|].
    intros [Ha|(nw & Hin & _)]; [exact Ha|]. apply elem_of_nil in Hin. contradiction.
  - rewrite Hn. apply String.eqb_neq in Hne. rewrite Hne.
    destruct (IH ({[n]} ∪ acc)) as (hn & Hl & Hiff). exists hn.
    split; [exact Hl|]. intros name. rewrite Hiff, elem_of_union, elem_of_singleton.
    split.
    + intros [[->|Ha]|(nw' & Hin & Hg)].
      * right. exists nw. split; [apply elem_of_cons; auto|exact Hn].
      * left. exact Ha.
      * right. exists nw'. split; [apply elem_of_cons; auto|exact Hg].
    + intros [Ha|(nw' & Hin & Hg)]; [auto|].
      apply elem_of_cons in Hin as [->|Hin].
      * left. left. congruence.
      * right. exists nw'. split; assumption.
Qed.

Lemma datastoreLoop_complete (vm : VM) (before : list ManagedObjectReference)
    (ds : ManagedObjectReference) (after : list ManagedObjectReference) :
  Forall (fun d => exists name, RetrieveName d = Ok name) before ->
  RetrieveName ds = Ok (datastore vm) ->
  Placement.datastoreLoop RetrieveName vm (before ++ ds :: after) = Ok true.
Proof.
  intros Hb Hds. induction Hb as [|d before (n & Hn) Hb IH];
    cbn [app Placement.datastoreLoop].
  - rewrite Hds, String.eqb_refl. reflexivity.
  - rewrite Hn. destruct (String.eqb n (datastore vm)); [reflexivity|exact IH].
Qed.

(** X10. [validateHost] accepts a host whose networks all have
    retrievable, non-empty names, among them every requested name, and,
    when a datastore is chosen, one of whose datastores has that name,
    the datastores listed before it being retrievable. *)
Theorem validateHost_complete (vm : VM) (hsMor : ManagedObjectReference)
    (hsMo : HostSystem) :
  RetrieveHostSystem hsMor = Ok hsMo ->
  Forall (fun nw => exists name, getNetworkName vm nw = Ok name /\
                                 name <> EmptyString) (HostNetwork hsMo) ->
  (forall v, v ∈ Networks vm ->
     exists nw, nw ∈ HostNetwork hsMo /\
                getNetworkName vm nw = Ok (NetworkName v)) ->
  (datastore vm = EmptyString \/
   exists before ds after,
     HostDatastore hsMo = (before ++ ds :: after)%list /\
     Forall (fun d => exists name, RetrieveName d = Ok name) before /\
     RetrieveName ds = Ok (datastore vm)) ->
  validateHost vm hsMor = Ok true.
Proof.
  intros Hh Hnames Hreq Hds. unfold Placement.validateHost. rewrite Hh.
  destruct (hostNetworksLoop_complete vm _ ∅ Hnames) as (hn & -> & Hiff).
  assert (Hnw : Placement.networksLoop (Networks vm) hn = true).
  { apply Placement.networksLoop_true. intros v Hv. apply Hiff. right.
    apply Hreq, Hv. }
  rewrite Hnw. cbv zeta.
  destruct Hds as [->|(before & ds & after & -> & Hb & Hd)]; [reflexivity|].
  destruct (String.eqb (datastore vm) ""); [reflexivity|].
  rewrite datastoreLoop_complete by assumption. reflexivity.
Qed.

(** *** The network mapping *)

(** [types.OvfNetworkMapping]. *)
Record OvfNetworkMapping : Type := {
  MappingName : string;
  MappingNetwork : ManagedObjectReference;
}.

(** Lines 336-345 of [createNetworkMapping]: the map from network names
    to references; a later network of the same name replaces an earlier
    one. *)
Fixpoint nwMapLoop (vm : VM) (networkMors : list ManagedObjectReference)
    (nwMap : gmap string ManagedObjectReference)
  : result (gmap string ManagedObjectReference) :=
  match networkMors with
  | [] => Ok nwMap
  | network :: rest =>
      match getNetworkName vm network with
      | Err err => Err err
      | Ok name =>
          if String.eqb name "" then
            Err (Errorf "Network name empty for: %s" [ArgString (Value network)])
          else nwMapLoop vm rest (<[ name := network ]> nwMap)
      end
  end.

(** Lines 348-355: one mapping for each requested network, or the name
    of the first one that the map lacks. *)
Fixpoint mappingsLoop (networks : list Network)
    (nwMap : gmap string ManagedObjectReference)
    (mappings : list OvfNetworkMapping) : list OvfNetworkMapping + string :=
  match networks with
  | [] => inl mappings
  | mapping :: rest =>
      let nwName := NetworkName mapping in
      match nwMap !! nwName with
      | None => inr nwName
      | Some mor =>
          mappingsLoop rest nwMap
            (mappings ++ [ {| MappingName := nwName; MappingNetwork := mor |} ])
      end
  end.

(** [createNetworkMapping], lines 331-357: the three values it returns,
    a nil slice as [[]] and a nil map as the empty map. *)
Definition createNetworkMapping (vm : VM) (networks : list Network)
    (networkMors : list ManagedObjectReference)
  : list OvfNetworkMapping * gmap string ManagedObjectReference * option error :=
  match nwMapLoop vm networkMors ∅ with
  | Err err => ([], ∅, Some err)
  | Ok nwMap =>
      match mappingsLoop networks nwMap [] with
      | inr nwName =>
          ([], nwMap,
           Some (NewErrorObjectNotFound
                   (errorsNew "Could not find the network mapping") nwName))
      | inl mappings => (mappings, nwMap, None)
      end
  end.

Lemma nwMapLoop_sync (vm : VM) (networkMors : list ManagedObjectReference)
    (nwMap : gmap string ManagedObjectReference) (names : gset string) :
  dom nwMap = names ->
  match Placement.hostNetworksLoop RetrieveName vm networkMors names,
        nwMapLoop vm networkMors nwMap with
  | Ok names', Ok nwMap' => dom nwMap' = names'
  | Err e, Err e' => e = e'
  | _, _ => False
  end.
Proof.
  revert nwMap names.
  induction networkMors as [|nw rest IH]; intros nwMap names Hd;
    cbn [Placement.hostNetworksLoop nwMapLoop]; [exact Hd|].
  destruct (getNetworkName vm nw) as [name|err]; [|reflexivity].
  destruct (String.eqb name ""); [reflexivity|].
  apply IH. rewrite dom_insert_L, Hd. reflexivity.
Qed.

Lemma nwMapLoop_values (vm : VM) (networkMors : list ManagedObjectReference)
    (nwMap nwMap' : gmap string ManagedObjectReference) :
  nwMapLoop vm networkMors nwMap = Ok nwMap' ->
  forall name mor, nwMap' !! name = Some mor ->
    nwMap !! name = Some mor \/
    (mor ∈ networkMors /\ getNetworkName vm mor = Ok name).
Proof.
  revert nwMap.
  induction networkMors as [|nw rest IH]; intros nwMap H name mor Hl;
    cbn [nwMapLoop] in H.
  - simplify_eq. left. exact Hl.
  - destruct (getNetworkName vm nw) as [n|err] eqn:En; [|discriminate].
    destruct (String.eqb n ""); [discriminate|].
    destruct (IH _ H name mor Hl) as [Hi|[Hin Hg]].
    + destruct (decide (n = name)) as [->|Hne].
      * rewrite lookup_insert_eq in Hi. simplify_eq. right.
        split; [apply elem_of_cons; left; reflexivity|exact En].
      * rewrite lookup_insert_ne in Hi by exact Hne. left. exact Hi.
    + right. split; [apply elem_of_cons; right; exact Hin|exact Hg].
Qed.

Lemma mappingsLoop_inl (networks : list Network)
    (nwMap : gmap string ManagedObjectReference)
    (acc mappings : list OvfNetworkMapping) :
  mappingsLoop networks nwMap acc = inl mappings ->
  exists new,
    mappings = (acc ++ new)%list /\
    MappingName <$> new = NetworkName <$> networks /\
    forall m, m ∈ new -> nwMap !! MappingName m = Some (MappingNetwork m).
Proof.
  revert acc. induction networks as [|nw rest IH]; intros acc H;
    cbn [mappingsLoop] in H.
  - simplify_eq. exists []. rewrite app_nil_r. repeat split.
    intros m Hm. apply elem_of_nil in Hm. contradiction.
  - cbv zeta in H. destruct (nwMap !! NetworkName nw) as [mor|] eqn:El;
      [|discriminate].
    apply IH in H as (new & -> & Hnames & Hval).
    eexists (_ :: new). rewrite <- app_assoc. split; [reflexivity|].
    split; [cbn; f_equal; exact Hnames|].
    intros m Hm. apply elem_of_cons in Hm as [->|Hm]; [exact El|apply Hval, Hm].
Qed.

Lemma mappingsLoop_complete (networks : list Network)
    (nwMap : gmap string ManagedObjectReference) (acc : list OvfNetworkMapping) :
  (forall v, v ∈ networks -> NetworkName v ∈ dom nwMap) ->
  exists mappings, mappingsLoop networks nwMap acc = inl mappings.
Proof.
  revert acc. induction networks as [|nw rest IH]; intros acc H;
    cbn [mappingsLoop]; [eauto|]. cbv zeta.
  assert (Hnw : NetworkName nw ∈ dom nwMap)
    by (apply H, elem_of_cons; left; reflexivity).
  apply elem_of_dom in Hnw as [mor ->]. apply IH.
  intros v Hv. apply H, elem_of_cons. right. exact Hv.
Qed.

(** X11. When [createNetworkMapping] returns no error, the mappings are
    one for each requested network, in the order of the request and under
    the requested names, and each refers to a network of the list that
    bears that name.  It returns no error for the networks of a host that
    [validateHost] accepts. *)
Theorem createNetworkMapping_mappings (vm : VM) (networks : list Network)
    (networkMors : list ManagedObjectReference) :
  (forall mappings nwMap,
     createNetworkMapping vm networks networkMors = (mappings, nwMap, None) ->
     MappingName <$> mappings = NetworkName <$> networks /\
     forall m, m ∈ mappings ->
       MappingNetwork m ∈ networkMors /\
       getNetworkName vm (MappingNetwork m) = Ok (MappingName m)) /\
  (forall hsMor hsMo,
     validateHost vm hsMor = Ok true ->
     RetrieveHostSystem hsMor = Ok hsMo ->
     exists mappings nwMap,
       createNetworkMapping vm (Networks vm) (HostNetwork hsMo)
         = (mappings, nwMap, None)).
Proof.
  split.
  - intros mappings nwMap H. unfold createNetworkMapping in H.
    destruct (nwMapLoop vm networkMors ∅) as [m|err] eqn:Em; [|discriminate].
    destruct (mappingsLoop networks m []) as [ms|missing] eqn:El; [|discriminate].
    simplify_eq. apply mappingsLoop_inl in El as (new & -> & Hnames & Hval).
    rewrite app_nil_l. split; [exact Hnames|].
    intros mp Hmp.
    destruct (nwMapLoop_values _ _ _ _ Em _ _ (Hval mp Hmp)) as [He|H];
      [rewrite lookup_empty in He; discriminate|exact H].
  - intros hsMor hsMo Hv Hh. unfold Placement.validateHost in Hv.
    rewrite Hh in Hv. unfold createNetworkMapping.
    pose proof (nwMapLoop_sync vm (HostNetwork hsMo) ∅ ∅ dom_empty_L) as Hs.
    destruct (Placement.hostNetworksLoop RetrieveName vm (HostNetwork hsMo) ∅)
      as [names|e]; [|discriminate].
    destruct (nwMapLoop vm (HostNetwork hsMo) ∅) as [m|e']; [|contradiction].
    assert (Hnw : Placement.networksLoop (Networks vm) names = true).
    { cbv zeta in Hv. destruct (String.eqb (datastore vm) ""); [congruence|].
      destruct (Placement.datastoreLoop _ _ _) as [d|]; [|discriminate].
      injection Hv as Hv. apply andb_true_iff in Hv as [Hv _]. exact Hv. }
    rewrite Placement.networksLoop_true in Hnw.
    destruct (mappingsLoop_complete (Networks vm) m []) as [ms ->].
    { intros v Hv'. rewrite Hs. apply Hnw, Hv'. }
    eauto.
Qed.

(** *** Resource pools *)

(** [mo.ResourcePool] with the properties asked for below. *)
Record ResourcePoolMo : Type := {
  RpSelf : ManagedObjectReference;
  RpOwner : ManagedObjectReference;
}.

Definition RESOURCE_POOL_DEPTH : nat := 8.

(** The finder's [ResourcePoolList] at a path, as the references of the
    pools it lists, and the collector's [Retrieve] of their properties. *)
Variable ResourcePoolList : string -> result (list ManagedObjectReference).
Variable RetrieveResourcePools :
  list ManagedObjectReference -> list string -> result (list ResourcePoolMo).

(** [findResourcePoolListAtPath], lines 849-873. *)
Definition findResourcePoolListAtPath (vm : VM) (path : string)
    (properties : list string) : result (list ResourcePoolMo) :=
  match ResourcePoolList path with
  | Err err => Err err
  | Ok rpMor =>
      if (List.length rpMor =? 0)%nat then Ok []
      else RetrieveResourcePools rpMor properties
  end.

(** The loop of [findResourcePoolByMOID], lines 878-887, with [depth]
    rounds left: the error of a listing is dropped, its list is then nil. *)
Fixpoint poolsLoop (vm : VM) (moid : string) (depth : nat) (rpListPath : string)
  : result ResourcePoolMo :=
  match depth with
  | O =>
      Err (NewErrorObjectNotFound
             (errorsNew "could not find the resourcepool with moref id") moid)
  | S depth' =>
      let rpListPath := rpListPath +:+ "/*" in
      let prop := ["name"; "owner"] in
      let rpList :=
        match findResourcePoolListAtPath vm rpListPath prop with
        | Ok rpList => rpList
        | Err _ => []
        end in
      match List.find (fun rp => String.eqb moid (Value (RpSelf rp))) rpList with
      | Some rp => Ok rp
      | None => poolsLoop vm moid depth' rpListPath
      end
  end.

(** [findResourcePoolByMOID], lines 875-890. *)
Definition findResourcePoolByMOID (vm : VM) (moid : string)
  : result ResourcePoolMo :=
  poolsLoop vm moid RESOURCE_POOL_DEPTH "*/Resources".

(** The path the loop lists in its [k]-th round, and the pools it sees
    there. *)
Fixpoint stars (k : nat) : string :=
  match k with
  | O => ""
  | S k' => stars k' +:+ "/*"
  end.

Definition poolsAt (vm : VM) (k : nat) : list ResourcePoolMo :=
  match findResourcePoolListAtPath vm ("*/Resources" +:+ stars k)
          ["name"; "owner"] with
  | Ok rpList => rpList
  | Err _ => []
  end.

Definition hasMoid (moid : string) (rp : ResourcePoolMo) : Prop :=
  Value (RpSelf rp) = moid.

Lemma find_moid_Some (moid : string) (rpList : list ResourcePoolMo)
    (rp : ResourcePoolMo) :
  List.find (fun rp => String.eqb moid (Value (RpSelf rp))) rpList = Some rp ->
  rp ∈ rpList /\ hasMoid moid rp.
Proof.
  intros H. apply find_some in H as [Hin He]. apply String.eqb_eq in He.
  split; [apply list_elem_of_In, Hin|symmetry; exact He].
Qed.

Lemma find_moid_None (moid : string) (rpList : list ResourcePoolMo) :
  List.find (fun rp => String.eqb moid (Value (RpSelf rp))) rpList = None <->
  Forall (fun rp => ~ hasMoid moid rp) rpList.
Proof.
  rewrite Forall_forall. split.
  - intros H rp Hin Hm. apply list_elem_of_In in Hin.
    pose proof (find_none _ _ H rp Hin) as Hn. cbv beta in Hn.
    apply String.eqb_neq in Hn. apply Hn. symmetry. exact Hm.
  - intros H. destruct (List.find _ rpList) as [rp|] eqn:Ef; [|reflexivity].
    apply find_moid_Some in Ef as [Hin Hm]. destruct (H rp Hin Hm).
Qed.

Lemma poolsLoop_rounds (vm : VM) (moid : string) (depth done : nat) :
  match poolsLoop vm moid depth ("*/Resources" +:+ stars done) with
  | Ok rp =>
      exists k, (done < k <= done + depth)%nat /\
        rp ∈ poolsAt vm k /\ hasMoid moid rp /\
        forall j, (done < j < k)%nat ->
          Forall (fun p => ~ hasMoid moid p) (poolsAt vm j)
  | Err err =>
      err = NewErrorObjectNotFound
              (errorsNew "could not find the resourcepool with moref id") moid /\
      forall j, (done < j <= done + depth)%nat ->
        Forall (fun p => ~ hasMoid moid p) (poolsAt vm j)
  end.
Proof.
  revert done. induction depth as [|depth IH]; intros done; cbn [poolsLoop].
  - split; [reflexivity|]. intros j Hj. lia.
  - cbv zeta. rewrite Inventory.append_assoc. change (stars done +:+ "/*")
      with (stars (S done)). fold (poolsAt vm (S done)).
    destruct (List.find _ (poolsAt vm (S done))) as [rp|] eqn:Ef.
    + apply find_moid_Some in Ef as [Hin Hm]. exists (S done).
      repeat split; [lia|lia|exact Hin|exact Hm|]. intros j Hj. lia.
    + apply find_moid_None in Ef. specialize (IH (S done)).
      destruct (poolsLoop vm moid depth _) as [rp|err].
      * destruct IH as (k & Hk & Hin & Hm & Hbefore). exists k.
        repeat split; [lia|lia|exact Hin|exact Hm|].
        intros j Hj. destruct (decide (j = S done)) as [->|Hne]; [exact Ef|].
        apply Hbefore. lia.
      * destruct IH as [-> Hall]. split; [reflexivity|].
        intros j Hj. destruct (decide (j = S done)) as [->|Hne]; [exact Ef|].
        apply Hall. lia.
Qed.

(** X12. [findResourcePoolByMOID] looks at the paths [*/Resources/*],
    [*/Resources/*/*], ... down to eight levels, in this order: the pool
    it returns bears the id asked for and is listed at the first level
    that lists such a pool; its only error is "not found", returned
    exactly when no level from one to eight lists a pool of this id, a
    level whose listing failed counting as empty. *)
Theorem findResourcePoolByMOID_levels (vm : VM) (moid : string) :
  (forall rp,
     findResourcePoolByMOID vm moid = Ok rp ->
     exists k, (1 <= k <= 8)%nat /\
       rp ∈ poolsAt vm k /\ Value (RpSelf rp) = moid /\
       forall j, (1 <= j < k)%nat ->
         Forall (fun p => Value (RpSelf p) <> moid) (poolsAt vm j)) /\
  (forall err,
     findResourcePoolByMOID vm moid = Err err <->
     err = NewErrorObjectNotFound
             (errorsNew "could not find the resourcepool with moref id") moid /\
     forall j, (1 <= j <= 8)%nat ->
       Forall (fun p => Value (RpSelf p) <> moid) (poolsAt vm j)).
Proof.
  pose proof (poolsLoop_rounds vm moid RESOURCE_POOL_DEPTH 0) as H.
  change ("*/Resources" +:+ stars 0) with "*/Resources" in H.
  fold (findResourcePoolByMOID vm moid) in H.
  unfold RESOURCE_POOL_DEPTH in H. split.
  - intros rp E. rewrite E in H. destruct H as (k & Hk & Hin & Hm & Hb).
    exists k. repeat split; [lia|lia|exact Hin|exact Hm|].
    intros j Hj. apply Hb. lia.
  - intros err. split.
    + intros E. rewrite E in H. destruct H as [-> Hall].
      split; [reflexivity|]. intros j Hj. apply Hall. lia.
    + intros [-> Hall].
      destruct (findResourcePoolByMOID vm moid) as [rp|err].
      * destruct H as (k & Hk & Hin & Hm & _).
        assert (Hk' : (1 <= k <= 8)%nat) by lia.
        pose proof (Hall k Hk') as Hf. rewrite Forall_forall in Hf.
        destruct (Hf rp Hin Hm).
      * destruct H as [-> _]. reflexivity.
Qed.

(** *** The location of a new VM *)

(** [vm.Destination]: its type is one of three constants of the package,
    or another string. *)
Inductive destinationType : Type :=
| DestinationTypeHost
| DestinationTypeCluster
| DestinationTypeResourcePool
| DestinationTypeOther (name : string).

Record Destination : Type := {
  DestinationType : destinationType;
  DestinationName : string;
  (** the field [HostSystem] *)
  DestinationHostSystem : string;
  MOID : string;
}.

(** The struct [location]: fields [Host], [ResourcePool], [Networks]. *)
Record location : Type := {
  LocHost : ManagedObjectReference;
  LocResourcePool : ManagedObjectReference;
  LocNetworks : list ManagedObjectReference;
}.

Definition zeroReference : ManagedObjectReference :=
  {| Type_ := ""; Value := "" |}.

(** [mo.ComputeResource] and [mo.ClusterComputeResource] as
    [getVMLocation] reads them. *)
Record ComputeResourceMo : Type := {
  CrHost : list ManagedObjectReference;
  CrNetwork : list ManagedObjectReference;
  CrResourcePool : option ManagedObjectReference;
}.

Record Datacenter : Type := {
  DcSelf : ManagedObjectReference;
  HostFolder : ManagedObjectReference;
}.

(** The package's function variables [findComputeResource] and
    [findClusterComputeResource], the collector's [RetrieveOne] of the
    ["network"] of a pool's owner, and [util.Random]. *)
Variable findComputeResource : VM -> Datacenter -> string -> result ComputeResourceMo.
Variable findClusterComputeResource :
  VM -> Datacenter -> string -> result ComputeResourceMo.
Variable RetrieveOwnerNetwork :
  ManagedObjectReference -> result (list ManagedObjectReference).
Variable Random : Z -> Z -> Z.

(** [filteredHosts[n]]: [None] is the run-time panic of an index out of
    range. *)
Definition hostAt (hosts : list ManagedObjectReference) (n : Z)
  : option ManagedObjectReference :=
  if n <? 0 then None else hosts !! Z.to_nat n.

(** Lines 1465-1469 and 1511-1516: the resource pool check that ends the
    host and the cluster case, [l] holding what has been set before. *)
Definition noResourcePool : Error :=
  Plain (Errorf "No valid resource pool found on the host" []).

(** [getVMLocation], lines 1446-1539: the named results [(l, err)], or
    [None] when the function panics.  [vm.Destination] is passed beside
    the VM. *)
Definition getVMLocation (vm : VM) (dest : Destination) (dcMo : Datacenter)
  : option (location * option Error) :=
  let l := {| LocHost := zeroReference; LocResourcePool := zeroReference;
              LocNetworks := [] |} in
  match DestinationType dest with
  | DestinationTypeHost =>
      match findComputeResource vm dcMo (DestinationName dest) with
      | Err err => Some (l, Some (Plain err))
      | Ok crMo =>
          match CrHost crMo !! 0%nat with
          | None => None
          | Some host0 =>
              match validateHost vm host0 with
              | Err err => Some (l, Some (Plain err))
              | Ok false =>
                  Some (l, Some (NewErrorInvalidHost (DestinationName dest)
                                   (datastore vm) (Networks vm)))
              | Ok true =>
                  let l := {| LocHost := host0;
                              LocResourcePool := LocResourcePool l;
                              LocNetworks := CrNetwork crMo |} in
                  match CrResourcePool crMo with
                  | None => Some (l, Some noResourcePool)
                  | Some rp =>
                      Some ({| LocHost := LocHost l; LocResourcePool := rp;
                               LocNetworks := LocNetworks l |}, None)
                  end
              end
          end
      end
  | DestinationTypeCluster =>
      match findClusterComputeResource vm dcMo (DestinationName dest) with
      | Err err => Some (l, Some (Plain err))
      | Ok crMo =>
          let finish (l : location) :=
            match CrResourcePool crMo with
            | None => Some (l, Some noResourcePool)
            | Some rp =>
                Some ({| LocHost := LocHost l; LocResourcePool := rp;
                         LocNetworks := CrNetwork crMo |}, None)
            end in
          if (List.length (CrHost crMo) <=? 0)%nat then
            Some (l, Some errNoHostsInCluster)
          else if negb (String.eqb (DestinationHostSystem dest) "") then
            match findHostSystem vm (CrHost crMo) (DestinationHostSystem dest) with
            | Failed err => Some (l, Some err)
            | Done hsMo =>
                match validateHost vm (NamedSelf hsMo) with
                | Err err => Some (l, Some (Plain err))
                | Ok false =>
                    Some (l, Some (NewErrorInvalidHost (DestinationHostSystem dest)
                                     (datastore vm) (Networks vm)))
                | Ok true =>
                    finish {| LocHost := NamedSelf hsMo;
                              LocResourcePool := LocResourcePool l;
                              LocNetworks := LocNetworks l |}
                end
            end
          else
            match filterHosts vm (CrHost crMo) with
            | Err err => Some (l, Some (Plain err))
            | Ok filteredHosts =>
                if (List.length filteredHosts <=? 0)%nat then
                  Some (l, Some (Plain (Errorf "No suitable hosts found in the cluster" [])))
                else
                  let n := Random 0 (Z.of_nat (List.length filteredHosts) - 1) in
                  match hostAt filteredHosts n with
                  | None => None
                  | Some host =>
                      finish {| LocHost := host;
                                LocResourcePool := LocResourcePool l;
                                LocNetworks := LocNetworks l |}
                  end
            end
      end
  | DestinationTypeResourcePool =>
      match findResourcePoolByMOID vm (MOID dest) with
      | Err err => Some (l, Some (Plain err))
      | Ok rp =>
          match RetrieveOwnerNetwork (RpOwner rp) with
          | Err err => Some (l, Some (Plain err))
          | Ok network =>
              Some ({| LocHost := LocHost l; LocResourcePool := RpSelf rp;
                       LocNetworks := network |}, None)
          end
      end
  | DestinationTypeOther _ => Some (l, Some ErrorDestinationNotSupported)
  end.

Lemma hostAt_Some (hosts : list ManagedObjectReference) (n : Z)
    (host : ManagedObjectReference) :
  hostAt hosts n = Some host -> host ∈ hosts.
Proof.
  unfold hostAt. destruct (n <? 0); [discriminate|].
  apply list_elem_of_lookup_2.
Qed.

Lemma hostAt_in_range (hosts : list ManagedObjectReference) (n : Z) :
  0 <= n <= Z.of_nat (List.length hosts) - 1 ->
  exists host, hostAt hosts n = Some host.
Proof.
  intros H. unfold hostAt. destruct (Z.ltb_spec n 0) as [Hlt|_]; [lia|].
  apply lookup_lt_is_Some_2. lia.
Qed.

(** X13. A host that [getVMLocation] returns without error was accepted
    by [validateHost]: for a host destination it is the first host of the
    compute resource; for a cluster destination without host name it is a
    host of the cluster, and with a host name it is the reference of the
    object retrieved for the first host of the cluster that bears this
    name, hence a host of the cluster when the collector reports an object
    under the reference it was asked for; the returned networks are those
    of the compute resource.  For a resource-pool destination no host is
    set and the pool is the one of the requested id.  When [util.Random]
    stays between its bounds, the function panics in one case only: a host
    destination whose compute resource lists no host. *)
Theorem getVMLocation_validated (vm : VM) (dest : Destination) (dcMo : Datacenter) :
  (forall l,
     getVMLocation vm dest dcMo = Some (l, None) ->
     match DestinationType dest with
     | DestinationTypeHost =>
         exists crMo,
           findComputeResource vm dcMo (DestinationName dest) = Ok crMo /\
           CrHost crMo !! 0%nat = Some (LocHost l) /\
           validateHost vm (LocHost l) = Ok true /\
           LocNetworks l = CrNetwork crMo
     | DestinationTypeCluster =>
         exists crMo,
           findClusterComputeResource vm dcMo (DestinationName dest) = Ok crMo /\
           (DestinationHostSystem dest = "" -> LocHost l ∈ CrHost crMo) /\
           (DestinationHostSystem dest <> "" ->
            exists before mor after hsMo,
              CrHost crMo = (before ++ mor :: after)%list /\
              RetrieveNamed mor = Ok hsMo /\
              NamedName hsMo = DestinationHostSystem dest /\
              Forall (fun m => exists other,
                        RetrieveNamed m = Ok other /\
                        NamedName other <> DestinationHostSystem dest) before /\
              LocHost l = NamedSelf hsMo) /\
           ((forall mor mo, RetrieveNamed mor = Ok mo -> NamedSelf mo = mor) ->
            LocHost l ∈ CrHost crMo) /\
           validateHost vm (LocHost l) = Ok true /\
           LocNetworks l = CrNetwork crMo
     | DestinationTypeResourcePool =>
         LocHost l = zeroReference /\
         Value (LocResourcePool l) = MOID dest
     | DestinationTypeOther _ => False
     end) /\
  ((forall lo hi, lo <= hi -> lo <= Random lo hi <= hi) ->
   (getVMLocation vm dest dcMo = None <->
    DestinationType dest = DestinationTypeHost /\
    exists crMo,
      findComputeResource vm dcMo (DestinationName dest) = Ok crMo /\
      CrHost crMo = [])).
Proof.
  split.
  - intros l H. unfold getVMLocation in H. cbv zeta in H.
    destruct (DestinationType dest) as [| | |other].
    + destruct (findComputeResource vm dcMo _) as [crMo|err]; [|discriminate].
      destruct (CrHost crMo !! 0%nat) as [host0|] eqn:E0; [|discriminate].
      destruct (validateHost vm host0) as [[|]|err] eqn:Ev; [|discriminate..].
      destruct (CrResourcePool crMo) as [rp|]; [|discriminate].
      simplify_eq. exists crMo. cbn. auto.
    + destruct (findClusterComputeResource vm dcMo _) as [crMo|err];
        [|discriminate].
      destruct (List.length (CrHost crMo) <=? 0)%nat; [discriminate|].
      exists crMo. split; [reflexivity|].
      destruct (String.eqb (DestinationHostSystem dest) "") eqn:Eh;
        cbn [negb] in H.
      * apply String.eqb_eq in Eh.
        destruct (filterHosts vm (CrHost crMo)) as [filtered|err] eqn:Ef;
          [|discriminate].
        destruct (List.length filtered <=? 0)%nat; [discriminate|].
        destruct (hostAt filtered _) as [host|] eqn:Ea; [|discriminate].
        destruct (CrResourcePool crMo) as [rp|]; [|discriminate].
        simplify_eq. cbn. apply hostAt_Some in Ea.
        destruct (Placement.filterHostsLoop_Ok _ _ _ _ _ _ Ef host Ea)
          as [Hn|[Hin Hv]]; [apply elem_of_nil in Hn; contradiction|].
        split; [auto|]. split; [intros Hne; contradiction|]. auto.
      * apply String.eqb_neq in Eh.
        destruct (findHostSystem vm (CrHost crMo) _) as [hsMo|err] eqn:Efh;
          [|discriminate].
        destruct (validateHost vm (NamedSelf hsMo)) as [[|]|err] eqn:Ev;
          [|discriminate..].
        destruct (CrResourcePool crMo) as [rp|]; [|discriminate].
        simplify_eq. cbn.
        apply findNamed_Done in Efh as (before & mor & after & Hc & Hr & Hn & Hb).
        split; [intros Hc'; contradiction|]. split.
        { intros _. exists before, mor, after, hsMo. auto. }
        split; [|auto].
        intros Hself. rewrite (Hself mor hsMo Hr), Hc.
        apply elem_of_app. right. apply elem_of_cons. left. reflexivity.
    + destruct (findResourcePoolByMOID vm (MOID dest)) as [rp|err] eqn:Ep;
        [|discriminate].
      destruct (RetrieveOwnerNetwork (RpOwner rp)) as [network|err];
        [|discriminate].
      simplify_eq. cbn. split; [reflexivity|].
      pose proof (poolsLoop_rounds vm (MOID dest) RESOURCE_POOL_DEPTH 0) as Hr.
      change ("*/Resources" +:+ stars 0) with "*/Resources" in Hr.
      fold (findResourcePoolByMOID vm (MOID dest)) in Hr. rewrite Ep in Hr.
      destruct Hr as (k & _ & _ & Hm & _). exact Hm.
    + discriminate.
  - intros Hrandom. unfold getVMLocation. cbv zeta.
    destruct (DestinationType dest) as [| | |other].
    + destruct (findComputeResource vm dcMo _) as [crMo|err].
      * destruct (CrHost crMo) as [|host0 hosts] eqn:Eh; cbn [lookup list_lookup].
        -- split; [intros _; split; [reflexivity|exists crMo; auto]|reflexivity].
        -- split.
           ++ destruct (validateHost vm host0) as [[|]|err]; [|discriminate..].
              destruct (CrResourcePool crMo); discriminate.
           ++ intros (_ & cr & Hcr & He). congruence.
      * split; [discriminate|]. intros (_ & cr & Hcr & _). discriminate.
    + split; [|intros [Hd _]; discriminate].
      destruct (findClusterComputeResource vm dcMo _) as [crMo|err];
        [|discriminate].
      destruct (List.length (CrHost crMo) <=? 0)%nat; [discriminate|].
      destruct (negb (String.eqb (DestinationHostSystem dest) "")).
      * destruct (findHostSystem vm (CrHost crMo) _) as [hsMo|err];
          [|discriminate].
        destruct (validateHost vm (NamedSelf hsMo)) as [[|]|err]; [|discriminate..].
        destruct (CrResourcePool crMo); discriminate.
      * destruct (filterHosts vm (CrHost crMo)) as [filtered|err];
          [|discriminate].
        destruct (Nat.leb_spec (List.length filtered) 0) as [|Hlen];
          [discriminate|].
        destruct (hostAt_in_range filtered
                    (Random 0 (Z.of_nat (List.length filtered) - 1)))
          as [host ->]; [apply Hrandom; lia|].
        destruct (CrResourcePool crMo); discriminate.
    + split; [|intros [Hd _]; discriminate].
      destruct (findResourcePoolByMOID vm (MOID dest)) as [rp|err];
        [|discriminate].
      destruct (RetrieveOwnerNetwork (RpOwner rp)); discriminate.
    + split; [discriminate|intros [Hd _]; discriminate].
Qed.

(** *** The network cards of a clone *)

(** The backing of a network card: to a network, as lines 673-678 build
    it, or to a distributed port, as the portgroup object reports it. *)
Inductive BaseVirtualDeviceBackingInfo : Type :=
| VirtualEthernetCardNetworkBackingInfo (DeviceName : string)
    (Network : ManagedObjectReference)
| VirtualEthernetCardDistributedVirtualPortBackingInfo
    (PortgroupKey SwitchUuid : string).

Record VirtualDeviceConnectInfo : Type := {
  StartConnected : bool;
  AllowGuestControl : bool;
}.

(** The dynamic type of a device, as far as the type switch at line 749
    tells. *)
Inductive deviceType : Type :=
| VirtualE1000
| VirtualE1000e
| VirtualVmxnet3
| OtherDeviceType.

Record VirtualDevice : Type := {
  DeviceType : deviceType;
  DeviceKey : Z;
  Backing : option BaseVirtualDeviceBackingInfo;
  Connectable : option VirtualDeviceConnectInfo;
}.

Record VirtualDeviceConfigSpec : Type := {
  Operation : Disks.VirtualDeviceConfigSpecOperation;
  Device : VirtualDevice;
}.

(** The function variable [GetDatacenter], the device list of a VM, the
    portgroup's [EthernetCardBackingInfo] and govmomi's
    [CreateEthernetCard]. *)
Variable GetDatacenter : VM -> result Datacenter.
Variable DeviceList : ManagedObjectReference -> result (list VirtualDevice).
Variable EthernetCardBackingInfo :
  ManagedObjectReference -> result BaseVirtualDeviceBackingInfo.
Variable CreateEthernetCard :
  string -> option BaseVirtualDeviceBackingInfo -> result VirtualDevice.

(** [getEthernetBacking], lines 665-691: for a reference of another type
    the backing stays nil, without error. *)
Definition getEthernetBacking (vm : VM) (nwMor : ManagedObjectReference)
    (name : string) : result (option BaseVirtualDeviceBackingInfo) :=
  if String.eqb (Type_ nwMor) "Network" then
    Ok (Some (VirtualEthernetCardNetworkBackingInfo name nwMor))
  else if String.eqb (Type_ nwMor) "DistributedVirtualPortgroup" then
    match EthernetCardBackingInfo nwMor with
    | Err err =>
        Err (Errorf "error fetching ethernet card backing info: %v"
               [ArgError (Some err)])
    | Ok backing => Ok (Some backing)
    end
  else Ok None.

(** [addNetworkDeviceSpec], lines 694-717. *)
Definition addNetworkDeviceSpec (vm : VM) (nwMor : ManagedObjectReference)
    (name : string) : result VirtualDeviceConfigSpec :=
  match getEthernetBacking vm nwMor name with
  | Err err => Err err
  | Ok backing =>
      match CreateEthernetCard "vmxnet3" backing with
      | Err err => Err err
      | Ok device =>
          let device := {|
            DeviceType := DeviceType device;
            DeviceKey := DeviceKey device;
            Backing := Backing device;
            Connectable := Some {| StartConnected := true;
                                   AllowGuestControl := true |} |} in
          Ok {| Operation := Disks.VirtualDeviceConfigSpecOperationAdd;
                Device := device |}
      end
  end.

(** The cases of the type switch at line 750. *)
Definition isEthernetCard (device : VirtualDevice) : bool :=
  match DeviceType device with
  | VirtualE1000 | VirtualE1000e | VirtualVmxnet3 => true
  | OtherDeviceType => false
  end.

Definition removeSpec (device : VirtualDevice) : VirtualDeviceConfigSpec :=
  {| Operation := Disks.VirtualDeviceConfigSpecOperationRemove;
     Device := device |}.

Definition editSpec (device : VirtualDevice)
    (backing : option BaseVirtualDeviceBackingInfo) : VirtualDeviceConfigSpec :=
  {| Operation := Disks.VirtualDeviceConfigSpecOperationEdit;
     Device := {| DeviceType := DeviceType device;
                  DeviceKey := DeviceKey device;
                  Backing := backing;
                  Connectable := Connectable device |} |}.

(** The loop at lines 763-779 over the mappings that remain: the spec of
    the first mapping of the network's name, if there is one. *)
Fixpoint editLoop (vm : VM) (device : VirtualDevice) (nw : Network)
    (networkMapping : list OvfNetworkMapping)
  : result (option VirtualDeviceConfigSpec) :=
  match networkMapping with
  | [] => Ok None
  | nwMappingObj :: rest =>
      if negb (String.eqb (MappingName nwMappingObj) (NetworkName nw)) then
        editLoop vm device nw rest
      else
        match getEthernetBacking vm (MappingNetwork nwMappingObj)
                (MappingName nwMappingObj) with
        | Err err => Err err
        | Ok backing => Ok (Some (editSpec device backing))
        end
  end.

(** The loop at lines 748-782 over the devices that remain: the specs
    and the value of [idx] at its end.  The test [idx >= len(vm.Networks)]
    and the index [vm.Networks[idx]] are one lookup. *)
Fixpoint devicesLoop (vm : VM) (networkMapping : list OvfNetworkMapping)
    (devices : list VirtualDevice) (idx : nat)
    (deviceSpecs : list VirtualDeviceConfigSpec)
  : result (list VirtualDeviceConfigSpec * nat) :=
  match devices with
  | [] => Ok (deviceSpecs, idx)
  | device :: rest =>
      if isEthernetCard device then
        match Networks vm !! idx with
        | None =>
            devicesLoop vm networkMapping rest idx
              (deviceSpecs ++ [removeSpec device])
        | Some nw =>
            match editLoop vm device nw networkMapping with
            | Err err => Err err
            | Ok None => devicesLoop vm networkMapping rest (S idx) deviceSpecs
            | Ok (Some spec) =>
                devicesLoop vm networkMapping rest (S idx) (deviceSpecs ++ [spec])
            end
        end
      else devicesLoop vm networkMapping rest idx deviceSpecs
  end.

(** The loop at lines 786-796 for one network. *)
Fixpoint addOne (vm : VM) (nw : Network)
    (networkMapping : list OvfNetworkMapping)
  : result (option VirtualDeviceConfigSpec) :=
  match networkMapping with
  | [] => Ok None
  | mapping :: rest =>
      if String.eqb (MappingName mapping) (NetworkName nw) then
        match addNetworkDeviceSpec vm (MappingNetwork mapping)
                (MappingName mapping) with
        | Err err => Err err
        | Ok spec => Ok (Some spec)
        end
      else addOne vm nw rest
  end.

(** The loop at lines 785-797 over [vm.Networks[idx:]]. *)
Fixpoint addLoop (vm : VM) (networks : list Network)
    (networkMapping : list OvfNetworkMapping)
    (deviceSpecs : list VirtualDeviceConfigSpec)
  : result (list VirtualDeviceConfigSpec) :=
  match networks with
  | [] => Ok deviceSpecs
  | nw :: rest =>
      match addOne vm nw networkMapping with
      | Err err => Err err
      | Ok None => addLoop vm rest networkMapping deviceSpecs
      | Ok (Some spec) => addLoop vm rest networkMapping (deviceSpecs ++ [spec])
      end
  end.

(** [reconfigureNetworks], lines 721-799; [None] when [getVMLocation]
    panics. *)
Definition reconfigureNetworks (vm : VM) (dest : Destination)
    (vmObj : ManagedObjectReference)
  : option (outcome (list VirtualDeviceConfigSpec)) :=
  match GetDatacenter vm with
  | Err err => Some (Failed (Plain err))
  | Ok dcMo =>
      match getVMLocation vm dest dcMo with
      | None => None
      | Some (_, Some err) => Some (Failed err)
      | Some (l, None) =>
          match createNetworkMapping vm (Networks vm) (LocNetworks l) with
          | (_, _, Some err) => Some (Failed (Plain err))
          | (networkMapping, _, None) =>
              match DeviceList vmObj with
              | Err err => Some (Failed (Plain err))
              | Ok devices =>
                  match devicesLoop vm networkMapping devices 0 [] with
                  | Err err => Some (Failed (Plain err))
                  | Ok (deviceSpecs, idx) =>
                      match addLoop vm (drop idx (Networks vm)) networkMapping
                              deviceSpecs with
                      | Err err => Some (Failed (Plain err))
                      | Ok deviceSpecs => Some (Done deviceSpecs)
                      end
                  end
              end
          end
      end
  end.

(** The network cards of a device list, in order. *)
Definition ethernetCards (devices : list VirtualDevice) : list VirtualDevice :=
  filter (fun device => isEthernetCard device = true) devices.

(** The backing is the one of a network of the list that bears the name
    of the requested network. *)
Definition backed (vm : VM) (mors : list ManagedObjectReference) (nw : Network)
    (backing : option BaseVirtualDeviceBackingInfo) : Prop :=
  exists mor,
    mor ∈ mors /\ getNetworkName vm mor = Ok (NetworkName nw) /\
    getEthernetBacking vm mor (NetworkName nw) = Ok backing.

(** The spec edits the card to the backing of the network. *)
Definition edits (vm : VM) (mors : list ManagedObjectReference)
    (spec : VirtualDeviceConfigSpec) (pair : VirtualDevice * Network) : Prop :=
  exists backing, backed vm mors pair.2 backing /\ spec = editSpec pair.1 backing.

(** The spec adds a new card for the network. *)
Definition adds (vm : VM) (mors : list ManagedObjectReference)
    (spec : VirtualDeviceConfigSpec) (nw : Network) : Prop :=
  Operation spec = Disks.VirtualDeviceConfigSpecOperationAdd /\
  exists mor,
    mor ∈ mors /\ getNetworkName vm mor = Ok (NetworkName nw) /\
    addNetworkDeviceSpec vm mor (NetworkName nw) = Ok spec.

(** Every mapping refers to a network of the list, under its name. *)
Definition mapsInto (vm : VM) (mors : list ManagedObjectReference)
    (networkMapping : list OvfNetworkMapping) : Prop :=
  forall m, m ∈ networkMapping ->
    MappingNetwork m ∈ mors /\
    getNetworkName vm (MappingNetwork m) = Ok (MappingName m).

Definition mapped (networkMapping : list OvfNetworkMapping) (nw : Network)
  : Prop :=
  exists m, m ∈ networkMapping /\ MappingName m = NetworkName nw.

Lemma addNetworkDeviceSpec_Add (vm : VM) (nwMor : ManagedObjectReference)
    (name : string) (spec : VirtualDeviceConfigSpec) :
  addNetworkDeviceSpec vm nwMor name = Ok spec ->
  Operation spec = Disks.VirtualDeviceConfigSpecOperationAdd.
Proof.
  unfold addNetworkDeviceSpec. intros H.
  destruct (getEthernetBacking vm nwMor name) as [backing|err]; [|discriminate].
  destruct (CreateEthernetCard "vmxnet3" backing) as [device|err];
    [|discriminate].
  cbv zeta in H. injection H as <-. reflexivity.
Qed.

Lemma editLoop_Ok (vm : VM) (mors : list ManagedObjectReference)
    (device : VirtualDevice) (nw : Network)
    (networkMapping : list OvfNetworkMapping)
    (r : option VirtualDeviceConfigSpec) :
  mapsInto vm mors networkMapping ->
  mapped networkMapping nw ->
  editLoop vm device nw networkMapping = Ok r ->
  exists backing, backed vm mors nw backing /\ r = Some (editSpec device backing).
Proof.
  induction networkMapping as [|m rest IH]; intros Hinto (m' & Hin & Hname) H.
  - apply elem_of_nil in Hin. contradiction.
  - cbn [editLoop] in H.
    destruct (String.eqb_spec (MappingName m) (NetworkName nw)) as [Heq|Hne];
      cbn [negb] in H.
    + destruct (Hinto m) as [Hmor Hget]; [apply elem_of_cons; left; reflexivity|].
      destruct (getEthernetBacking vm (MappingNetwork m) (MappingName m))
        as [backing|err] eqn:Eb; [|discriminate].
      injection H as <-. exists backing. split; [|reflexivity].
      exists (MappingNetwork m). rewrite <- Heq. auto.
    + apply IH; [| |exact H].
      * intros x Hx. apply Hinto, elem_of_cons. right. exact Hx.
      * apply elem_of_cons in Hin as [->|Hin]; [contradiction|].
        exists m'. auto.
Qed.

Lemma addOne_Ok (vm : VM) (mors : list ManagedObjectReference) (nw : Network)
    (networkMapping : list OvfNetworkMapping)
    (r : option VirtualDeviceConfigSpec) :
  mapsInto vm mors networkMapping ->
  mapped networkMapping nw ->
  addOne vm nw networkMapping = Ok r ->
  exists spec, r = Some spec /\ adds vm mors spec nw.
Proof.
  induction networkMapping as [|m rest IH]; intros Hinto (m' & Hin & Hname) H.
  - apply elem_of_nil in Hin. contradiction.
  - cbn [addOne] in H.
    destruct (String.eqb_spec (MappingName m) (NetworkName nw)) as [Heq|Hne].
    + destruct (Hinto m) as [Hmor Hget]; [apply elem_of_cons; left; reflexivity|].
      destruct (addNetworkDeviceSpec vm (MappingNetwork m) (MappingName m))
        as [spec|err] eqn:Ea; [|discriminate].
      injection H as <-. exists spec. split; [reflexivity|].
      split; [exact (addNetworkDeviceSpec_Add _ _ _ _ Ea)|].
      exists (MappingNetwork m). rewrite <- Heq. auto.
    + apply IH; [| |exact H].
      * intros x Hx. apply Hinto, elem_of_cons. right. exact Hx.
      * apply elem_of_cons in Hin as [->|Hin]; [contradiction|].
        exists m'. auto.
Qed.

Lemma devicesLoop_Ok (vm : VM) (mors : list ManagedObjectReference)
    (networkMapping : list OvfNetworkMapping) (devices : list VirtualDevice)
    (idx : nat) (deviceSpecs specs : list VirtualDeviceConfigSpec) (idx' : nat) :
  mapsInto vm mors networkMapping ->
  (forall nw, nw ∈ Networks vm -> mapped networkMapping nw) ->
  devicesLoop vm networkMapping devices idx deviceSpecs = Ok (specs, idx') ->
  exists edited,
    specs = (deviceSpecs ++ edited ++
             (removeSpec <$> drop (List.length (Networks vm) - idx)
                               (ethernetCards devices)))%list /\
    Forall2 (edits vm mors) edited
      (zip (ethernetCards devices) (drop idx (Networks vm))) /\
    idx' = (idx + List.length edited)%nat.
Proof.
  intros Hinto Hmapped. revert idx deviceSpecs.
  induction devices as [|device rest IH]; intros idx deviceSpecs H;
    cbn [devicesLoop] in H.
  - simplify_eq. exists []. unfold ethernetCards. cbn.
    rewrite drop_nil. cbn. rewrite app_nil_r.
    split; [reflexivity|]. split; [constructor|lia].
  - unfold ethernetCards. rewrite filter_cons. fold (ethernetCards rest).
    destruct (isEthernetCard device) eqn:Ecard.
    2:{ rewrite decide_False by discriminate. apply IH, H. }
    rewrite decide_True by reflexivity.
    destruct (Networks vm !! idx) as [nw|] eqn:El.
    + pose proof (lookup_lt_Some _ _ _ El) as Hlt.
      destruct (editLoop vm device nw networkMapping) as [r|err] eqn:Ee;
        [|discriminate].
      destruct (editLoop_Ok vm mors device nw networkMapping r Hinto)
        as (backing & Hb & ->); [|exact Ee|].
      { apply Hmapped. eapply list_elem_of_lookup_2, El. }
      apply IH in H as (edited & -> & Hall & ->).
      exists (editSpec device backing :: edited).
      replace (List.length (Networks vm) - idx)%nat
        with (S (List.length (Networks vm) - S idx)) by lia.
      cbn [drop]. rewrite (drop_S _ _ _ El). cbn [zip zip_with].
      split; [rewrite <- !app_assoc; reflexivity|].
      split; [|cbn [List.length]; lia].
      constructor; [|exact Hall]. exists backing. split; [exact Hb|reflexivity].
    + pose proof (lookup_ge_None_1 _ _ El) as Hge.
      apply IH in H as (edited & -> & Hall & ->).
      rewrite (drop_ge (Networks vm) idx Hge) in *.
      replace (List.length (Networks vm) - idx)%nat with 0%nat in * by lia.
      rewrite drop_0 in *.
      assert (edited = []) as ->.
      { destruct (ethernetCards rest); cbn in Hall; inversion Hall; reflexivity. }
      exists []. cbn [zip zip_with app fmap list_fmap].
      split; [rewrite <- app_assoc; reflexivity|].
      split; [destruct (ethernetCards rest); constructor|reflexivity].
Qed.

Lemma addLoop_Ok (vm : VM) (mors : list ManagedObjectReference)
    (networks : list Network) (networkMapping : list OvfNetworkMapping)
    (deviceSpecs specs : list VirtualDeviceConfigSpec) :
  mapsInto vm mors networkMapping ->
  (forall nw, nw ∈ networks -> mapped networkMapping nw) ->
  addLoop vm networks networkMapping deviceSpecs = Ok specs ->
  exists added,
    specs = (deviceSpecs ++ added)%list /\
    Forall2 (adds vm mors) added networks.
Proof.
  intros Hinto. revert deviceSpecs.
  induction networks as [|nw rest IH]; intros deviceSpecs Hmapped H;
    cbn [addLoop] in H.
  - simplify_eq. exists []. rewrite app_nil_r. split; [reflexivity|constructor].
  - destruct (addOne vm nw networkMapping) as [r|err] eqn:Ea; [|discriminate].
    destruct (addOne_Ok vm mors nw networkMapping r Hinto) as (spec & -> & Hs);
      [apply Hmapped, elem_of_cons; left; reflexivity|exact Ea|].
    apply IH in H as (added & -> & Hall).
    2:{ intros x Hx. apply Hmapped, elem_of_cons. right. exact Hx. }
    exists (spec :: added). split; [rewrite <- app_assoc; reflexivity|].
    constructor; assumption.
Qed.

(** X19. The specs that [reconfigureNetworks] returns pair the network
    cards of the VM with the requested networks, in order: first an edit
    of each card that has a network, to the backing of a network of the
    location that bears the requested name; then the removal of each card
    beyond the requested networks; last a new card for each requested
    network beyond the cards.  There are as many specs as the larger of
    the two numbers. *)
Theorem reconfigureNetworks_specs (vm : VM) (dest : Destination)
    (vmObj : ManagedObjectReference) (specs : list VirtualDeviceConfigSpec) :
  reconfigureNetworks vm dest vmObj = Some (Done specs) ->
  exists dcMo l devices,
    GetDatacenter vm = Ok dcMo /\
    getVMLocation vm dest dcMo = Some (l, None) /\
    DeviceList vmObj = Ok devices /\
    exists edited added,
      specs = (edited ++
               (removeSpec <$> drop (List.length (Networks vm))
                                 (ethernetCards devices)) ++
               added)%list /\
      Forall2 (edits vm (LocNetworks l)) edited
        (zip (ethernetCards devices) (Networks vm)) /\
      Forall2 (adds vm (LocNetworks l)) added
        (drop (List.length (ethernetCards devices)) (Networks vm)) /\
      List.length specs
        = Nat.max (List.length (ethernetCards devices))
            (List.length (Networks vm)).
Proof.
  unfold reconfigureNetworks. intros H.
  destruct (GetDatacenter vm) as [dcMo|err]; [|discriminate].
  destruct (getVMLocation vm dest dcMo) as [[l [err|]]|] eqn:El;
    [discriminate| |discriminate].
  unfold createNetworkMapping in H.
  destruct (nwMapLoop vm (LocNetworks l) ∅) as [nwMap|err] eqn:Em;
    [|discriminate].
  destruct (mappingsLoop (Networks vm) nwMap []) as [networkMapping|missing]
    eqn:Emap; [|discriminate].
  apply mappingsLoop_inl in Emap as (new & -> & Hnames & Hval).
  rewrite app_nil_l in H.
  assert (Hinto : mapsInto vm (LocNetworks l) new).
  { intros m Hm.
    destruct (nwMapLoop_values _ _ _ _ Em _ _ (Hval m Hm)) as [He|Hok];
      [rewrite lookup_empty in He; discriminate|exact Hok]. }
  assert (Hmapped : forall nw, nw ∈ Networks vm -> mapped new nw).
  { intros nw Hnw.
    assert (Hn : NetworkName nw ∈ MappingName <$> new)
      by (rewrite Hnames; apply list_elem_of_fmap; eauto).
    apply list_elem_of_fmap in Hn as (m & Hm & Hin). exists m. auto. }
  destruct (DeviceList vmObj) as [devices|err]; [|discriminate].
  destruct (devicesLoop vm new devices 0 []) as [[deviceSpecs idx]|err] eqn:Ed;
    [|discriminate].
  destruct (devicesLoop_Ok vm (LocNetworks l) new devices 0 [] deviceSpecs idx
              Hinto Hmapped Ed) as (edited & -> & Hedited & ->).
  rewrite Nat.sub_0_r, drop_0 in *. cbn [Nat.add app] in *.
  destruct (addLoop _ _ _ _) as [final|err] eqn:Ea; [|discriminate].
  injection H as <-.
  apply (addLoop_Ok vm (LocNetworks l)) in Ea as (added & -> & Hadded);
    [|exact Hinto|].
  2:{ intros nw Hnw. apply Hmapped. eapply subseteq_drop, Hnw. }
  exists dcMo, l, devices. split; [reflexivity|]. split; [exact El|].
  split; [reflexivity|]. exists edited, added.
  pose proof (Forall2_length _ _ _ Hedited) as Hle.
  pose proof (Forall2_length _ _ _ Hadded) as Hla.
  rewrite length_zip in Hle. rewrite length_drop in Hla.
  assert (Hdrop : drop (List.length edited) (Networks vm)
                  = drop (List.length (ethernetCards devices)) (Networks vm)).
  { destruct (Nat.le_gt_cases (List.length (ethernetCards devices))
                (List.length (Networks vm))) as [Hc|Hc].
    - f_equal. lia.
    - rewrite !drop_ge by lia. reflexivity. }
  split; [rewrite <- app_assoc; reflexivity|].
  split; [exact Hedited|]. split; [rewrite <- Hdrop; exact Hadded|].
  rewrite !length_app, length_fmap, length_drop. lia.
Qed.

(** *** Network device changes of a running VM *)

(** An element of [vm.Networks] with the fields [Operation] and
    [DeviceKey] (a pointer, [None] when nil), which the functions above do
    not read. *)
Record NetworkChange : Type := {
  ChangedNetwork : Network;
  NwOperation : string;
  NwDeviceKey : option Z;
}.

(** [mo.VirtualMachine] as [networkDeviceChangeSpec] reads it. *)
Record VirtualMachineMo : Type := {
  RuntimeHost : option ManagedObjectReference;
  HardwareDevice : list VirtualDevice;
}.

(** govmomi's [SelectByBackingInfo] on a device list, and the decimal
    text that [fmt] prints for an integer. *)
Variable SelectByBackingInfo :
  list VirtualDevice -> option BaseVirtualDeviceBackingInfo -> list VirtualDevice.
Variable Sprint : Z -> string.

(** govmomi's [FindByKey]: the first device of the list with the key. *)
Definition FindByKey (devices : list VirtualDevice) (key : Z)
  : option VirtualDevice :=
  List.find (fun device => DeviceKey device =? key) devices.

(** [removeNetworkDeviceSpec], lines 2294-2316. *)
Definition removeNetworkDeviceSpec (vm : VM) (nwMor : ManagedObjectReference)
    (name : string) (deviceKey : Z) (devices : list VirtualDevice)
  : result VirtualDeviceConfigSpec :=
  match getEthernetBacking vm nwMor name with
  | Err err => Err err
  | Ok backing =>
      let nwDevices := SelectByBackingInfo devices backing in
      if (List.length nwDevices =? 0)%nat then
        Err (NewErrorObjectNotFound
               (Errorf "device with network:%v not found" [ArgString name]) name)
      else
        match FindByKey nwDevices deviceKey with
        | None =>
            Err (Errorf "Network: %v device with key: %v not found"
                   [ArgString name; ArgString (Sprint deviceKey)])
        | Some device => Ok (removeSpec device)
        end
  end.

Definition isAdd (nw : NetworkChange) : bool :=
  String.eqb (NwOperation nw) "" || String.eqb (NwOperation nw) "add".

Definition isRemove (nw : NetworkChange) : bool :=
  String.eqb (NwOperation nw) "remove".

(** [nwMap[nw.Name]]: the zero reference for a name the map lacks. *)
Definition mapIndex (nwMap : gmap string ManagedObjectReference) (name : string)
  : ManagedObjectReference :=
  match nwMap !! name with
  | Some mor => mor
  | None => zeroReference
  end.

(** The loop of [networkDeviceChangeSpec], lines 2260-2287, over the
    networks that remain. *)
Fixpoint changeLoop (vm : VM) (networks : list NetworkChange)
    (nwMap : gmap string ManagedObjectReference) (devices : list VirtualDevice)
    (addDeviceSpecs removeDeviceSpecs : list VirtualDeviceConfigSpec)
  : result (list VirtualDeviceConfigSpec * list VirtualDeviceConfigSpec) :=
  match networks with
  | [] => Ok (addDeviceSpecs, removeDeviceSpecs)
  | nw :: rest =>
      let name := NetworkName (ChangedNetwork nw) in
      let wrap (err : error) : error :=
        Errorf "error creating spec for network:%v, error: %v"
          [ArgString name; ArgError (Some err)] in
      if isAdd nw then
        match addNetworkDeviceSpec vm (mapIndex nwMap name) name with
        | Err err => Err (wrap err)
        | Ok spec =>
            changeLoop vm rest nwMap devices (addDeviceSpecs ++ [spec])
              removeDeviceSpecs
        end
      else if isRemove nw then
        match NwDeviceKey nw with
        | None =>
            Err (Errorf "Device key not specified for network: %v"
                   [ArgString name])
        | Some deviceKey =>
            match removeNetworkDeviceSpec vm (mapIndex nwMap name) name
                    deviceKey devices with
            | Err err => Err (wrap err)
            | Ok spec =>
                changeLoop vm rest nwMap devices addDeviceSpecs
                  (removeDeviceSpecs ++ [spec])
            end
        end
      else
        Err (Errorf "invalid network device operation: %v for network: %v"
               [ArgString (NwOperation nw); ArgString name])
  end.

(** [networkDeviceChangeSpec], lines 2236-2291, with [vm.Networks] as
    [networks].  The error of [createNetworkMapping] is never looked at:
    line 2264 or 2273 overwrites it, and with no network it is dropped. *)
Definition networkDeviceChangeSpec (vm : VM) (networks : list NetworkChange)
    (vmMo : VirtualMachineMo) : result (list VirtualDeviceConfigSpec) :=
  match RuntimeHost vmMo with
  | None => Err (errorsNew "host associated with vm not found")
  | Some host =>
      match RetrieveHostSystem host with
      | Err err =>
          Err (Errorf "error while fetching host info: %v" [ArgError (Some err)])
      | Ok hsMo =>
          let '(_, nwMap, _) :=
            createNetworkMapping vm (ChangedNetwork <$> networks)
              (HostNetwork hsMo) in
          let devices := HardwareDevice vmMo in
          match changeLoop vm networks nwMap devices [] [] with
          | Err err => Err err
          | Ok (addDeviceSpecs, removeDeviceSpecs) =>
              Ok (addDeviceSpecs ++ removeDeviceSpecs)%list
          end
      end
  end.

(** The spec adds a card for the network: one of the host's network of
    that name, or, when the host has none, a card without backing. *)
Definition addsFor (vm : VM) (nwMap : gmap string ManagedObjectReference)
    (spec : VirtualDeviceConfigSpec) (nw : NetworkChange) : Prop :=
  Operation spec = Disks.VirtualDeviceConfigSpecOperationAdd /\
  match nwMap !! NetworkName (ChangedNetwork nw) with
  | Some mor =>
      addNetworkDeviceSpec vm mor (NetworkName (ChangedNetwork nw)) = Ok spec
  | None =>
      exists device,
        CreateEthernetCard "vmxnet3" None = Ok device /\
        Backing (Device spec) = Backing device
  end.

(** The spec removes the device of the requested key. *)
Definition removesFor (spec : VirtualDeviceConfigSpec) (nw : NetworkChange)
  : Prop :=
  Operation spec = Disks.VirtualDeviceConfigSpecOperationRemove /\
  NwDeviceKey nw = Some (DeviceKey (Device spec)).

Lemma addNetworkDeviceSpec_zero (vm : VM) (name : string)
    (spec : VirtualDeviceConfigSpec) :
  addNetworkDeviceSpec vm zeroReference name = Ok spec ->
  exists device,
    CreateEthernetCard "vmxnet3" None = Ok device /\
    Backing (Device spec) = Backing device.
Proof.
  unfold addNetworkDeviceSpec, getEthernetBacking. cbn [zeroReference Type_].
  change (String.eqb "" "Network") with false.
  change (String.eqb "" "DistributedVirtualPortgroup") with false.
  cbv iota. destruct (CreateEthernetCard "vmxnet3" None) as [device|err];
    [|discriminate].
  cbv zeta. intros H. injection H as <-. exists device. auto.
Qed.

Lemma removeNetworkDeviceSpec_key (vm : VM) (nwMor : ManagedObjectReference)
    (name : string) (deviceKey : Z) (devices : list VirtualDevice)
    (spec : VirtualDeviceConfigSpec) :
  removeNetworkDeviceSpec vm nwMor name deviceKey devices = Ok spec ->
  Operation spec = Disks.VirtualDeviceConfigSpecOperationRemove /\
  DeviceKey (Device spec) = deviceKey.
Proof.
  unfold removeNetworkDeviceSpec. intros H.
  destruct (getEthernetBacking vm nwMor name) as [backing|err]; [|discriminate].
  cbv zeta in H. destruct (_ =? 0)%nat; [discriminate|].
  destruct (FindByKey _ deviceKey) as [device|] eqn:Ef; [|discriminate].
  injection H as <-. split; [reflexivity|].
  apply find_some in Ef as [_ Hk]. apply Z.eqb_eq in Hk. exact Hk.
Qed.

Lemma changeLoop_Ok (vm : VM) (networks : list NetworkChange)
    (nwMap : gmap string ManagedObjectReference) (devices : list VirtualDevice)
    (addDeviceSpecs removeDeviceSpecs added removed : list VirtualDeviceConfigSpec) :
  changeLoop vm networks nwMap devices addDeviceSpecs removeDeviceSpecs
    = Ok (added, removed) ->
  exists newAdded newRemoved,
    added = (addDeviceSpecs ++ newAdded)%list /\
    removed = (removeDeviceSpecs ++ newRemoved)%list /\
    Forall2 (addsFor vm nwMap) newAdded
      (filter (fun nw => isAdd nw = true) networks) /\
    Forall2 removesFor newRemoved
      (filter (fun nw => isAdd nw = false /\ isRemove nw = true) networks) /\
    Forall (fun nw => isAdd nw = true \/ isRemove nw = true) networks.
Proof.
  revert addDeviceSpecs removeDeviceSpecs.
  induction networks as [|nw rest IH]; intros addDeviceSpecs removeDeviceSpecs H;
    cbn [changeLoop] in H.
  - simplify_eq. exists [], []. rewrite !app_nil_r.
    split; [reflexivity|]. split; [reflexivity|]. repeat constructor.
  - cbv zeta in H. rewrite !filter_cons. destruct (isAdd nw) eqn:Eadd.
    + destruct (addNetworkDeviceSpec vm _ _) as [spec|err] eqn:Ea;
        [|discriminate].
      apply IH in H as (na & nr & -> & -> & Ha & Hr & Hall).
      rewrite decide_True by reflexivity.
      rewrite decide_False by (intros [Hf _]; discriminate).
      exists (spec :: na), nr. rewrite <- app_assoc.
      split; [reflexivity|]. split; [reflexivity|].
      split; [|split; [exact Hr|constructor; [left; exact Eadd|exact Hall]]].
      constructor; [|exact Ha].
      split; [exact (addNetworkDeviceSpec_Add _ _ _ _ Ea)|].
      unfold mapIndex in Ea.
      destruct (nwMap !! NetworkName (ChangedNetwork nw)) as [mor|];
        [exact Ea|exact (addNetworkDeviceSpec_zero _ _ _ Ea)].
    + destruct (isRemove nw) eqn:Erem; [|discriminate].
      destruct (NwDeviceKey nw) as [deviceKey|] eqn:Ek; [|discriminate].
      destruct (removeNetworkDeviceSpec vm _ _ deviceKey devices)
        as [spec|err] eqn:Er; [|discriminate].
      apply IH in H as (na & nr & -> & -> & Ha & Hr & Hall).
      rewrite decide_False by discriminate.
      rewrite decide_True by (split; reflexivity).
      exists na, (spec :: nr). rewrite <- app_assoc.
      split; [reflexivity|]. split; [reflexivity|].
      split; [exact Ha|].
      split; [|constructor; [right; exact Erem|exact Hall]].
      constructor; [|exact Hr].
      destruct (removeNetworkDeviceSpec_key _ _ _ _ _ _ Er) as [Hop Hkey].
      split; [exact Hop|]. rewrite Ek, Hkey. reflexivity.
Qed.

(** The spec that [addNetworkDeviceSpec] makes of a new card. *)
Definition addSpec (device : VirtualDevice) : VirtualDeviceConfigSpec :=
  {| Operation := Disks.VirtualDeviceConfigSpecOperationAdd;
     Device := {| DeviceType := DeviceType device;
                  DeviceKey := DeviceKey device;
                  Backing := Backing device;
                  Connectable := Some {| StartConnected := true;
                                         AllowGuestControl := true |} |} |}.

(** The error that the loop returns at one request. *)
Definition specError (vm : VM) (nwMap : gmap string ManagedObjectReference)
    (devices : list VirtualDevice) (nw : NetworkChange) (err : error) : Prop :=
  let name := NetworkName (ChangedNetwork nw) in
  (isAdd nw = true /\
   exists e,
     addNetworkDeviceSpec vm (mapIndex nwMap name) name = Err e /\
     err = Errorf "error creating spec for network:%v, error: %v"
             [ArgString name; ArgError (Some e)]) \/
  (isAdd nw = false /\ isRemove nw = true /\ NwDeviceKey nw = None /\
   err = Errorf "Device key not specified for network: %v" [ArgString name]) \/
  (isAdd nw = false /\ isRemove nw = true /\
   exists deviceKey e,
     NwDeviceKey nw = Some deviceKey /\
     removeNetworkDeviceSpec vm (mapIndex nwMap name) name deviceKey devices
       = Err e /\
     err = Errorf "error creating spec for network:%v, error: %v"
             [ArgString name; ArgError (Some e)]) \/
  (isAdd nw = false /\ isRemove nw = false /\
   err = Errorf "invalid network device operation: %v for network: %v"
           [ArgString (NwOperation nw); ArgString name]).

Lemma addNetworkDeviceSpec_unmapped (vm : VM) (name : string)
    (device : VirtualDevice) :
  CreateEthernetCard "vmxnet3" None = Ok device ->
  addNetworkDeviceSpec vm zeroReference name = Ok (addSpec device).
Proof.
  intros Hc. unfold addNetworkDeviceSpec, getEthernetBacking.
  cbn [zeroReference Type_].
  change (String.eqb "" "Network") with false.
  change (String.eqb "" "DistributedVirtualPortgroup") with false.
  cbv iota. rewrite Hc. reflexivity.
Qed.

Lemma changeLoop_unmapped (vm : VM) (networks : list NetworkChange)
    (nwMap : gmap string ManagedObjectReference) (devices : list VirtualDevice)
    (addDeviceSpecs removeDeviceSpecs : list VirtualDeviceConfigSpec)
    (device : VirtualDevice) :
  Forall (fun nw => isAdd nw = true /\
                    nwMap !! NetworkName (ChangedNetwork nw) = None) networks ->
  CreateEthernetCard "vmxnet3" None = Ok device ->
  changeLoop vm networks nwMap devices addDeviceSpecs removeDeviceSpecs
    = Ok ((addDeviceSpecs ++ ((fun _ => addSpec device) <$> networks))%list,
          removeDeviceSpecs).
Proof.
  intros Hall Hc. revert addDeviceSpecs.
  induction Hall as [|nw networks [Hadd Hnone] Hall IH]; intros addDeviceSpecs;
    cbn [changeLoop].
  - cbn. rewrite app_nil_r. reflexivity.
  - cbv zeta. rewrite Hadd. unfold mapIndex. rewrite Hnone.
    rewrite (addNetworkDeviceSpec_unmapped _ _ _ Hc), IH, fmap_cons.
    rewrite <- app_assoc. reflexivity.
Qed.

Lemma changeLoop_Err (vm : VM) (networks : list NetworkChange)
    (nwMap : gmap string ManagedObjectReference) (devices : list VirtualDevice)
    (addDeviceSpecs removeDeviceSpecs : list VirtualDeviceConfigSpec)
    (err : error) :
  changeLoop vm networks nwMap devices addDeviceSpecs removeDeviceSpecs
    = Err err ->
  exists nw, nw ∈ networks /\ specError vm nwMap devices nw err.
Proof.
  revert addDeviceSpecs removeDeviceSpecs.
  induction networks as [|nw rest IH]; intros addDeviceSpecs removeDeviceSpecs H;
    cbn [changeLoop] in H; [discriminate|].
  cbv zeta in H.
  assert (Hrest : forall a r,
            changeLoop vm rest nwMap devices a r = Err err ->
            exists nw', nw' ∈ nw :: rest /\ specError vm nwMap devices nw' err).
  { intros a r Hl. destruct (IH _ _ Hl) as (nw' & Hin & He).
    exists nw'. split; [apply elem_of_cons; right; exact Hin|exact He]. }
  assert (Hhere : specError vm nwMap devices nw err ->
            exists nw', nw' ∈ nw :: rest /\ specError vm nwMap devices nw' err).
  { intros He. exists nw. split; [apply elem_of_cons; left; reflexivity|exact He]. }
  destruct (isAdd nw) eqn:Eadd.
  - destruct (addNetworkDeviceSpec vm _ _) as [spec|e] eqn:Ea;
      [exact (Hrest _ _ H)|].
    injection H as <-. apply Hhere. left. split; [exact Eadd|].
    exists e. split; [exact Ea|reflexivity].
  - destruct (isRemove nw) eqn:Erem.
    + destruct (NwDeviceKey nw) as [deviceKey|] eqn:Ek.
      * destruct (removeNetworkDeviceSpec vm _ _ deviceKey devices)
          as [spec|e] eqn:Er; [exact (Hrest _ _ H)|].
        injection H as <-. apply Hhere. right. right. left.
        split; [exact Eadd|]. split; [exact Erem|].
        exists deviceKey, e. split; [exact Ek|]. split; [exact Er|reflexivity].
      * injection H as <-. apply Hhere. right. left.
        split; [exact Eadd|]. split; [exact Erem|]. split; [exact Ek|reflexivity].
    + injection H as <-. apply Hhere. right. right. right.
      split; [exact Eadd|]. split; [exact Erem|reflexivity].
Qed.

Lemma createNetworkMapping_unmapped (vm : VM) (nw : Network)
    (networks : list Network) (networkMors : list ManagedObjectReference) :
  (createNetworkMapping vm (nw :: networks) networkMors).1.2 !! NetworkName nw
    = None ->
  exists err, (createNetworkMapping vm (nw :: networks) networkMors).2 = Some err.
Proof.
  unfold createNetworkMapping.
  destruct (nwMapLoop vm networkMors ∅) as [nwMap|err]; [|eauto].
  cbn [mappingsLoop]. cbv zeta.
  destruct (nwMap !! NetworkName nw) as [mor|] eqn:El.
  - destruct (mappingsLoop networks nwMap _) as [mappings|missing];
      cbn [fst snd]; intros Hn; congruence.
  - eauto.
Qed.

(** X20. (1) The change list of [networkDeviceChangeSpec] holds the
    additions before the removals, whatever the order of the requests:
    first a new card for each network whose operation is empty or ["add"],
    in the order of the requests, then the removal of the device of the
    requested key for each network whose operation is ["remove"]; it
    returns a list only when every operation is one of the three.  (2) The
    error of [createNetworkMapping] is never reported.  When the VM's host
    can be retrieved and every request adds a network whose name the map
    of the host's networks lacks, [createNetworkMapping] has returned an
    error, and yet the call returns the list of a card without backing for
    each request.  (3) Every error the call returns is one of its own: no
    host, the host's retrieval, or, at one of the requests, a missing
    device key, an operation that is none of the three, or the wrapped
    error of building that request's spec. *)
Theorem networkDeviceChangeSpec_adds_first (vm : VM)
    (networks : list NetworkChange) (vmMo : VirtualMachineMo) :
  (forall specs,
     networkDeviceChangeSpec vm networks vmMo = Ok specs ->
     exists host hsMo nwMap added removed,
       RuntimeHost vmMo = Some host /\
       RetrieveHostSystem host = Ok hsMo /\
       nwMap = (createNetworkMapping vm (ChangedNetwork <$> networks)
                  (HostNetwork hsMo)).1.2 /\
       specs = (added ++ removed)%list /\
       Forall2 (addsFor vm nwMap) added
         (filter (fun nw => isAdd nw = true) networks) /\
       Forall2 removesFor removed
         (filter (fun nw => isAdd nw = false /\ isRemove nw = true) networks) /\
       Forall (fun nw => isAdd nw = true \/ isRemove nw = true) networks) /\
  (forall host hsMo device,
     RuntimeHost vmMo = Some host ->
     RetrieveHostSystem host = Ok hsMo ->
     networks <> [] ->
     Forall (fun nw =>
               isAdd nw = true /\
               (createNetworkMapping vm (ChangedNetwork <$> networks)
                  (HostNetwork hsMo)).1.2 !! NetworkName (ChangedNetwork nw)
                 = None) networks ->
     CreateEthernetCard "vmxnet3" None = Ok device ->
     (exists err,
        (createNetworkMapping vm (ChangedNetwork <$> networks)
           (HostNetwork hsMo)).2 = Some err) /\
     networkDeviceChangeSpec vm networks vmMo
       = Ok ((fun _ => addSpec device) <$> networks)) /\
  (forall err,
     networkDeviceChangeSpec vm networks vmMo = Err err ->
     (RuntimeHost vmMo = None /\
      err = errorsNew "host associated with vm not found") \/
     (exists host e,
        RuntimeHost vmMo = Some host /\ RetrieveHostSystem host = Err e /\
        err = Errorf "error while fetching host info: %v" [ArgError (Some e)]) \/
     (exists host hsMo nw,
        RuntimeHost vmMo = Some host /\ RetrieveHostSystem host = Ok hsMo /\
        nw ∈ networks /\
        specError vm
          (createNetworkMapping vm (ChangedNetwork <$> networks)
             (HostNetwork hsMo)).1.2
          (HardwareDevice vmMo) nw err)).
Proof.
  split; [|split].
  - unfold networkDeviceChangeSpec. intros specs H.
    destruct (RuntimeHost vmMo) as [host|]; [|discriminate].
    destruct (RetrieveHostSystem host) as [hsMo|err] eqn:Eh; [|discriminate].
    destruct (createNetworkMapping vm (ChangedNetwork <$> networks)
                (HostNetwork hsMo)) as [[mappings nwMap] err] eqn:Em.
    cbv zeta in H.
    destruct (changeLoop vm networks nwMap (HardwareDevice vmMo) [] [])
      as [[added removed]|e] eqn:Ec; [|discriminate].
    injection H as <-.
    apply changeLoop_Ok in Ec as (na & nr & -> & -> & Ha & Hr & Hall).
    exists host, hsMo, nwMap, na, nr. rewrite !app_nil_l. cbn [fst snd].
    split; [reflexivity|]. split; [exact Eh|].
    split; [rewrite Em; reflexivity|].
    split; [reflexivity|]. split; [exact Ha|]. split; [exact Hr|exact Hall].
  - intros host hsMo device Hh Hr Hne Hall Hc. split.
    + destruct networks as [|nw rest]; [contradiction|].
      apply Forall_cons in Hall as [[_ Hnone] _].
      rewrite fmap_cons in Hnone |- *.
      exact (createNetworkMapping_unmapped _ _ _ _ Hnone).
    + unfold networkDeviceChangeSpec. rewrite Hh, Hr.
      destruct (createNetworkMapping vm (ChangedNetwork <$> networks)
                  (HostNetwork hsMo)) as [[mappings nwMap] mapErr].
      cbn [fst snd] in Hall. cbv zeta.
      rewrite (changeLoop_unmapped _ _ _ _ _ _ device Hall Hc).
      rewrite app_nil_l, app_nil_r. reflexivity.
  - unfold networkDeviceChangeSpec. intros err H.
    destruct (RuntimeHost vmMo) as [host|].
    2:{ injection H as <-. left. split; reflexivity. }
    destruct (RetrieveHostSystem host) as [hsMo|e] eqn:Eh.
    2:{ injection H as <-. right. left. exists host, e.
        split; [reflexivity|]. split; [exact Eh|reflexivity]. }
    right. right.
    destruct (createNetworkMapping vm (ChangedNetwork <$> networks)
                (HostNetwork hsMo)) as [[mappings nwMap] mapErr] eqn:Em.
    cbv zeta in H.
    destruct (changeLoop vm networks nwMap (HardwareDevice vmMo) [] [])
      as [[added removed]|e] eqn:Ec; [discriminate|].
    injection H as <-.
    apply changeLoop_Err in Ec as (nw & Hin & He).
    exists host, hsMo, nw.
    split; [reflexivity|]. split; [exact Eh|]. split; [exact Hin|].
    rewrite Em. exact He.
Qed.

End Collector.

(** *** A cluster, a resource pool and a VM with three cards *)

Definition sampleRetrieveNamed (ref : ManagedObjectReference) : result Named :=
  if String.eqb (Value ref) "host-1" then
    Ok {| NamedSelf := ref; NamedName := "esx-1" |}
  else if String.eqb (Value ref) "host-2" then
    Ok {| NamedSelf := ref; NamedName := "esx-2" |}
  else if String.eqb (Value ref) "datastore-1" then
    Ok {| NamedSelf := ref; NamedName := "ds1" |}
  else Err (Fault "ManagedObjectNotFound").

(** Host-2 is found although the host after it cannot be retrieved. *)
Lemma findDatastore_first_match_witness :
  findHostSystem sampleRetrieveNamed sampleVM
    [hostRef "host-1"; hostRef "host-2"; hostRef "host-3"] "esx-2"
    = Done {| NamedSelf := hostRef "host-2"; NamedName := "esx-2" |} /\
  findDatastore sampleRetrieveNamed sampleVM
    [hostRef "host-1"; hostRef "host-3"; datastoreRef "datastore-1"] "ds1"
    = Failed (NewErrorPropertyRetrieval (hostRef "host-3") ["name"]
                (Fault "ManagedObjectNotFound")).
Proof.
  destruct (findDatastore_first_match sampleRetrieveNamed sampleVM
              [hostRef "host-1"; hostRef "host-2"; hostRef "host-3"] "esx-2")
    as (_ & Hhost & _).
  destruct (findDatastore_first_match sampleRetrieveNamed sampleVM
              [hostRef "host-1"; hostRef "host-3"; datastoreRef "datastore-1"]
              "ds1") as (_ & _ & Hfail).
  split.
  - apply Hhost. exists [hostRef "host-1"], (hostRef "host-2"), [hostRef "host-3"].
    split; [reflexivity|]. split; [reflexivity|]. split; [reflexivity|].
    repeat constructor. eexists. split; [reflexivity|]. cbn. discriminate.
  - apply (Hfail [hostRef "host-1"] (hostRef "host-3")
             [datastoreRef "datastore-1"]); [reflexivity| |reflexivity].
    repeat constructor. eexists. split; [reflexivity|]. cbn. discriminate.
Defined.

(** Of the three hosts of the sample cluster, exactly host-1 is kept. *)
Lemma filterHosts_exact_witness :
  Placement.filterHosts sampleRetrieveHostSystem sampleRetrieveName sampleVM
    [hostRef "host-2"; hostRef "host-1"; hostRef "host-3"]
    = Ok [hostRef "host-1"].
Proof.
  destruct (filterHosts_exact sampleRetrieveHostSystem sampleRetrieveName
              sampleVM [hostRef "host-2"; hostRef "host-1"; hostRef "host-3"])
    as [Hall _].
  rewrite Hall; [vm_compute; reflexivity|].
  repeat constructor; eexists; vm_compute; reflexivity.
Defined.

(** Host-1 has both requested networks, and the datastore ds1 after a
    datastore of another name. *)
Lemma validateHost_complete_witness :
  Placement.validateHost sampleRetrieveHostSystem sampleRetrieveName sampleVM
    (hostRef "host-1") = Ok true.
Proof.
  apply (validateHost_complete sampleRetrieveHostSystem sampleRetrieveName
           sampleVM (hostRef "host-1")
           {| HostNetwork := [networkRef "network-1"; networkRef "network-2"];
              HostDatastore := [datastoreRef "datastore-2";
                                datastoreRef "datastore-1"] |}).
  - reflexivity.
  - repeat constructor; eexists; (split; [reflexivity|discriminate]).
  - intros v Hv. apply elem_of_cons in Hv as [->|Hv].
    + exists (networkRef "network-1"). split; [repeat constructor|reflexivity].
    + apply list_elem_of_singleton in Hv as ->.
      exists (networkRef "network-2"). split; [repeat constructor|reflexivity].
  - right. exists [datastoreRef "datastore-2"], (datastoreRef "datastore-1"), [].
    split; [reflexivity|]. split; [|reflexivity].
    repeat constructor. eexists. reflexivity.
Defined.

Definition poolRef (n : string) : ManagedObjectReference :=
  {| Type_ := "ResourcePool"; Value := n |}.

Definition sampleCluster : ComputeResourceMo :=
  {| CrHost := [hostRef "host-2"; hostRef "host-1"; hostRef "host-3"];
     CrNetwork := [networkRef "network-1"; networkRef "network-2"];
     CrResourcePool := Some (poolRef "resgroup-8") |}.

Definition sampleFindCluster (vm : VM) (dcMo : Datacenter) (name : string)
  : result ComputeResourceMo :=
  if String.eqb name "cluster-1" then Ok sampleCluster
  else Err (NewErrorObjectNotFound (errorsNew "Could not find the mob") name).

Definition sampleDatacenter : Datacenter :=
  {| DcSelf := {| Type_ := "Datacenter"; Value := "datacenter-2" |};
     HostFolder := {| Type_ := "Folder"; Value := "group-h4" |} |}.

Definition sampleDestination : Destination :=
  {| DestinationType := DestinationTypeCluster;
     DestinationName := "cluster-1";
     DestinationHostSystem := "";
     MOID := "" |}.

(** Pools are listed two levels below [Resources] only. *)
Definition sampleResourcePoolList (path : string)
  : result (list ManagedObjectReference) :=
  if String.eqb path "*/Resources/*/*" then Ok [poolRef "resgroup-8"]
  else if String.eqb path "*/Resources/*" then Err (Fault "NotFound")
  else Ok [].

Definition sampleRetrieveResourcePools (refs : list ManagedObjectReference)
    (properties : list string) : result (list ResourcePoolMo) :=
  Ok ((fun ref => {| RpSelf := ref;
                     RpOwner := {| Type_ := "ClusterComputeResource";
                                   Value := "domain-c7" |} |}) <$> refs).

(** The pool is found at the second level, although the listing of the
    first level fails. *)
Lemma findResourcePoolByMOID_levels_witness :
  findResourcePoolByMOID sampleResourcePoolList sampleRetrieveResourcePools
    sampleVM "resgroup-8"
    = Ok {| RpSelf := poolRef "resgroup-8";
            RpOwner := {| Type_ := "ClusterComputeResource";
                          Value := "domain-c7" |} |} /\
  exists err,
    findResourcePoolByMOID sampleResourcePoolList sampleRetrieveResourcePools
      sampleVM "resgroup-9" = Err err.
Proof.
  split; [vm_compute; reflexivity|].
  eexists.
  apply (findResourcePoolByMOID_levels sampleResourcePoolList
           sampleRetrieveResourcePools sampleVM "resgroup-9").
  split; [reflexivity|].
  intros j Hj.
  assert (Hcases : (j = 1 \/ j = 2 \/ j = 3 \/ j = 4 \/ j = 5 \/ j = 6 \/
                    j = 7 \/ j = 8)%nat) by lia.
  repeat (destruct Hcases as [Hc|Hcases];
          [subst j; vm_compute; repeat constructor; discriminate|]).
  subst j. vm_compute. repeat constructor; discriminate.
Defined.

Definition sampleRandom (lo hi : Z) : Z := lo.

Definition sampleNamedDestination : Destination :=
  {| DestinationType := DestinationTypeCluster;
     DestinationName := "cluster-1";
     DestinationHostSystem := "esx-1";
     MOID := "" |}.

Lemma sampleRetrieveNamed_self (mor : ManagedObjectReference) (mo : Named) :
  sampleRetrieveNamed mor = Ok mo -> NamedSelf mo = mor.
Proof.
  unfold sampleRetrieveNamed. intros H.
  repeat (destruct (String.eqb (Value mor) _);
          [injection H as <-; reflexivity|]).
  discriminate.
Qed.

(** The cluster destination is placed on host-1, the one host of the
    cluster that [validateHost] accepts; asked for by its name "esx-1",
    host-1 is the host chosen, a host of the cluster. *)
Lemma getVMLocation_validated_witness :
  getVMLocation sampleRetrieveHostSystem sampleRetrieveName sampleRetrieveNamed
    sampleResourcePoolList sampleRetrieveResourcePools
    sampleFindCluster sampleFindCluster (fun _ => Ok []) sampleRandom
    sampleVM sampleDestination sampleDatacenter
  = Some ({| LocHost := hostRef "host-1";
             LocResourcePool := poolRef "resgroup-8";
             LocNetworks := [networkRef "network-1"; networkRef "network-2"] |},
          None) /\
  Placement.validateHost sampleRetrieveHostSystem sampleRetrieveName sampleVM
    (hostRef "host-1") = Ok true /\
  getVMLocation sampleRetrieveHostSystem sampleRetrieveName sampleRetrieveNamed
    sampleResourcePoolList sampleRetrieveResourcePools
    sampleFindCluster sampleFindCluster (fun _ => Ok []) sampleRandom
    sampleVM sampleNamedDestination sampleDatacenter
  = Some ({| LocHost := hostRef "host-1";
             LocResourcePool := poolRef "resgroup-8";
             LocNetworks := [networkRef "network-1"; networkRef "network-2"] |},
          None) /\
  hostRef "host-1" ∈ CrHost sampleCluster.
Proof.
  assert (Hl : getVMLocation sampleRetrieveHostSystem sampleRetrieveName
                 sampleRetrieveNamed sampleResourcePoolList
                 sampleRetrieveResourcePools sampleFindCluster sampleFindCluster
                 (fun _ => Ok []) sampleRandom
                 sampleVM sampleDestination sampleDatacenter
               = Some ({| LocHost := hostRef "host-1";
                          LocResourcePool := poolRef "resgroup-8";
                          LocNetworks := [networkRef "network-1";
                                          networkRef "network-2"] |}, None))
    by (vm_compute; reflexivity).
  assert (Hn : getVMLocation sampleRetrieveHostSystem sampleRetrieveName
                 sampleRetrieveNamed sampleResourcePoolList
                 sampleRetrieveResourcePools sampleFindCluster sampleFindCluster
                 (fun _ => Ok []) sampleRandom
                 sampleVM sampleNamedDestination sampleDatacenter
               = Some ({| LocHost := hostRef "host-1";
                          LocResourcePool := poolRef "resgroup-8";
                          LocNetworks := [networkRef "network-1";
                                          networkRef "network-2"] |}, None))
    by (vm_compute; reflexivity).
  split; [exact Hl|]. split; [|split; [exact Hn|]].
  - destruct (getVMLocation_validated sampleRetrieveHostSystem sampleRetrieveName
                sampleRetrieveNamed sampleResourcePoolList
                sampleRetrieveResourcePools sampleFindCluster sampleFindCluster
                (fun _ => Ok []) sampleRandom
                sampleVM sampleDestination sampleDatacenter) as [Hok _].
    destruct (Hok _ Hl) as (crMo & _ & _ & _ & _ & Hv & _). exact Hv.
  - destruct (getVMLocation_validated sampleRetrieveHostSystem sampleRetrieveName
                sampleRetrieveNamed sampleResourcePoolList
                sampleRetrieveResourcePools sampleFindCluster sampleFindCluster
                (fun _ => Ok []) sampleRandom
                sampleVM sampleNamedDestination sampleDatacenter) as [Hok _].
    destruct (Hok _ Hn) as (crMo & Hc & _ & _ & Hself & _).
    injection Hc as <-. exact (Hself sampleRetrieveNamed_self).
Defined.

(** A VM with a disk controller and three network cards. *)
Definition sampleCard (t : deviceType) (key : Z) : VirtualDevice :=
  {| DeviceType := t; DeviceKey := key; Backing := None; Connectable := None |}.

Definition sampleDeviceList (vmObj : ManagedObjectReference)
  : result (list VirtualDevice) :=
  Ok [sampleCard OtherDeviceType 1000; sampleCard VirtualE1000 4000;
      sampleCard VirtualVmxnet3 4001; sampleCard VirtualVmxnet3 4002].

Definition sampleCreateEthernetCard (name : string)
    (backing : option BaseVirtualDeviceBackingInfo) : result VirtualDevice :=
  Ok {| DeviceType := VirtualVmxnet3; DeviceKey := -1; Backing := backing;
        Connectable := None |}.

Definition sampleBackingInfo (nwMor : ManagedObjectReference)
  : result BaseVirtualDeviceBackingInfo :=
  Err (Fault "NotSupported").

Definition vmRef (n : string) : ManagedObjectReference :=
  {| Type_ := "VirtualMachine"; Value := n |}.

Definition sampleSpecs : list VirtualDeviceConfigSpec :=
  [editSpec (sampleCard VirtualE1000 4000)
     (Some (VirtualEthernetCardNetworkBackingInfo "VM Network"
              (networkRef "network-1")));
   editSpec (sampleCard VirtualVmxnet3 4001)
     (Some (VirtualEthernetCardNetworkBackingInfo "storage"
              (networkRef "network-2")));
   removeSpec (sampleCard VirtualVmxnet3 4002)].

(** Two requested networks and three cards: two edits and a removal. *)
Lemma reconfigureNetworks_specs_witness :
  reconfigureNetworks sampleRetrieveHostSystem sampleRetrieveName
    sampleRetrieveNamed sampleResourcePoolList sampleRetrieveResourcePools
    sampleFindCluster sampleFindCluster (fun _ => Ok []) sampleRandom
    (fun _ => Ok sampleDatacenter) sampleDeviceList sampleBackingInfo
    sampleCreateEthernetCard sampleVM sampleDestination (vmRef "vm-12")
  = Some (Done sampleSpecs) /\
  List.length sampleSpecs = 3%nat.
Proof.
  assert (Hr : reconfigureNetworks sampleRetrieveHostSystem sampleRetrieveName
                 sampleRetrieveNamed sampleResourcePoolList
                 sampleRetrieveResourcePools sampleFindCluster sampleFindCluster
                 (fun _ => Ok []) sampleRandom
                 (fun _ => Ok sampleDatacenter) sampleDeviceList
                 sampleBackingInfo sampleCreateEthernetCard sampleVM
                 sampleDestination (vmRef "vm-12")
               = Some (Done sampleSpecs)) by (vm_compute; reflexivity).
  split; [exact Hr|].
  destruct (reconfigureNetworks_specs _ _ _ _ _ _ _ _ _ _ _ _ _ _ _ _ _ Hr)
    as (dcMo & l & devices & _ & _ & Hd & edited & added & _ & _ & _ & Hlen).
  injection Hd as <-. exact Hlen.
Defined.

(** One network to add, whose name the host lacks, before one to remove:
    the removal comes last. *)
Definition sampleChanges : list NetworkChange :=
  [ {| ChangedNetwork := {| NetworkName := "storage" |};
       NwOperation := "remove"; NwDeviceKey := Some 4001 |};
    {| ChangedNetwork := {| NetworkName := "backup" |};
       NwOperation := "add"; NwDeviceKey := None |} ].

Definition sampleRunning : VirtualMachineMo :=
  {| RuntimeHost := Some (hostRef "host-1");
     HardwareDevice := [sampleCard OtherDeviceType 1000;
                        sampleCard VirtualE1000 4000;
                        sampleCard VirtualVmxnet3 4001] |}.

Definition sampleSelectByBackingInfo (devices : list VirtualDevice)
    (backing : option BaseVirtualDeviceBackingInfo) : list VirtualDevice :=
  filter (fun device => isEthernetCard device = true) devices.

Definition sampleChangeSpecs : list VirtualDeviceConfigSpec :=
  [ {| Operation := Disks.VirtualDeviceConfigSpecOperationAdd;
       Device := {| DeviceType := VirtualVmxnet3; DeviceKey := -1;
                    Backing := None;
                    Connectable := Some {| StartConnected := true;
                                           AllowGuestControl := true |} |} |};
    removeSpec (sampleCard VirtualVmxnet3 4001) ].

(** Two networks that the host does not have: the mapping fails, and
    the call returns two cards without backing. *)
Definition sampleUnknown : list NetworkChange :=
  [ {| ChangedNetwork := {| NetworkName := "backup" |};
       NwOperation := "add"; NwDeviceKey := None |};
    {| ChangedNetwork := {| NetworkName := "dmz" |};
       NwOperation := ""; NwDeviceKey := None |} ].

Lemma networkDeviceChangeSpec_adds_first_witness :
  networkDeviceChangeSpec sampleRetrieveHostSystem sampleRetrieveName
    sampleBackingInfo sampleCreateEthernetCard sampleSelectByBackingInfo
    (fun _ => "4001") sampleVM sampleChanges sampleRunning
  = Ok sampleChangeSpecs /\
  (exists added removed,
     sampleChangeSpecs = (added ++ removed)%list /\
     List.length added = 1%nat /\ List.length removed = 1%nat) /\
  (exists err,
     (createNetworkMapping sampleRetrieveName sampleVM
        (ChangedNetwork <$> sampleUnknown)
        [networkRef "network-1"; networkRef "network-2"]).2 = Some err) /\
  exists device,
    networkDeviceChangeSpec sampleRetrieveHostSystem sampleRetrieveName
      sampleBackingInfo sampleCreateEthernetCard sampleSelectByBackingInfo
      (fun _ => "4001") sampleVM sampleUnknown sampleRunning
    = Ok [addSpec device; addSpec device] /\
    Backing device = None.
Proof.
  assert (Hr : networkDeviceChangeSpec sampleRetrieveHostSystem
                 sampleRetrieveName sampleBackingInfo sampleCreateEthernetCard
                 sampleSelectByBackingInfo (fun _ => "4001") sampleVM
                 sampleChanges sampleRunning
               = Ok sampleChangeSpecs) by (vm_compute; reflexivity).
  split; [exact Hr|]. split.
  - destruct (networkDeviceChangeSpec_adds_first sampleRetrieveHostSystem
                sampleRetrieveName sampleBackingInfo sampleCreateEthernetCard
                sampleSelectByBackingInfo (fun _ => "4001") sampleVM
                sampleChanges sampleRunning) as (Hok & _ & _).
    destruct (Hok _ Hr)
      as (host & hsMo & nwMap & added & removed & _ & _ & _ & Hs & Ha & Hrm & _).
    exists added, removed. split; [exact Hs|].
    apply Forall2_length in Ha, Hrm. split; [exact Ha|exact Hrm].
  - destruct (networkDeviceChangeSpec_adds_first sampleRetrieveHostSystem
                sampleRetrieveName sampleBackingInfo sampleCreateEthernetCard
                sampleSelectByBackingInfo (fun _ => "4001") sampleVM
                sampleUnknown sampleRunning) as (_ & Hunmapped & _).
    destruct (Hunmapped (hostRef "host-1")
                {| HostNetwork := [networkRef "network-1"; networkRef "network-2"];
                   HostDatastore := [datastoreRef "datastore-2";
                                     datastoreRef "datastore-1"] |}
                {| DeviceType := VirtualVmxnet3; DeviceKey := -1;
                   Backing := None; Connectable := None |})
      as [Herr Hcall];
      [reflexivity|reflexivity|discriminate| |reflexivity|].
    + repeat constructor; vm_compute; reflexivity.
    + split; [exact Herr|]. eexists. split; [exact Hcall|reflexivity].
Defined.

End Select.

(** * Datastores shared by the hosts of a cluster *)

Module Shared.
Import Placement.

#[global] Instance ManagedObjectReference_eq_dec :
  EqDecision ManagedObjectReference.
Proof. solve_decision. Defined.

#[global] Instance ManagedObjectReference_countable :
  Countable ManagedObjectReference.
Proof.
  apply (inj_countable' (fun r => (Type_ r, Value r))
           (fun p => {| Type_ := p.1; Value := p.2 |})).
  intros []; reflexivity.
Defined.

Section Cluster.

(** The collector's [Retrieve] of the hosts of a cluster, and one [range]
    over the counting map: every entry once, in some order. *)
Variable RetrieveHostSystems :
  list ManagedObjectReference -> result (list HostSystem).
Variable range :
  gmap ManagedObjectReference nat -> list (ManagedObjectReference * nat).
Hypothesis range_visits : forall m, range m ≡ₚ map_to_list m.

(** Lines 2177-2182. *)
Definition countDatastore (dsList : gmap ManagedObjectReference nat)
    (ds : ManagedObjectReference) : gmap ManagedObjectReference nat :=
  match dsList !! ds with
  | Some n => <[ ds := S n ]> dsList
  | None => <[ ds := 1%nat ]> dsList
  end.

(** Lines 2175-2184. *)
Definition countHosts (hsMos : list HostSystem)
    (dsList : gmap ManagedObjectReference nat)
  : gmap ManagedObjectReference nat :=
  foldl (fun dsList hsMo => foldl countDatastore dsList (HostDatastore hsMo))
    dsList hsMos.

(** Lines 2187-2191. *)
Fixpoint sharedLoop (entries : list (ManagedObjectReference * nat))
    (nHosts : nat) (dsMors : list ManagedObjectReference)
  : list ManagedObjectReference :=
  match entries with
  | [] => dsMors
  | (key, value) :: rest =>
      sharedLoop rest nHosts
        (if (value =? nHosts)%nat then dsMors ++ [key] else dsMors)
  end.

(** [getSharedDatastoreInCluster], lines 2158-2193, on [crMo.Host]. *)
Definition getSharedDatastoreInCluster (vm : VM)
    (crHost : list ManagedObjectReference)
  : result (list ManagedObjectReference) :=
  if (List.length crHost =? 0)%nat then Ok []
  else
    match RetrieveHostSystems crHost with
    | Err err => Err err
    | Ok hsMos =>
        let dsList := countHosts hsMos ∅ in
        let nHosts := List.length hsMos in
        Ok (sharedLoop (range dsList) nHosts [])
    end.

(** *** Properties *)

(** How often the hosts list a datastore. *)
Definition occurrences (ds : ManagedObjectReference)
    (l : list ManagedObjectReference) : nat :=
  List.length (filter (fun d => d = ds) l).

Fixpoint total (ds : ManagedObjectReference) (hsMos : list HostSystem) : nat :=
  match hsMos with
  | [] => 0
  | hsMo :: rest => occurrences ds (HostDatastore hsMo) + total ds rest
  end.

Definition counted (dsList : gmap ManagedObjectReference nat)
    (ds : ManagedObjectReference) : nat :=
  match dsList !! ds with
  | Some n => n
  | None => 0
  end.

Definition positive (dsList : gmap ManagedObjectReference nat) : Prop :=
  forall ds n, dsList !! ds = Some n -> (0 < n)%nat.

Lemma countDatastore_counted (dsList : gmap ManagedObjectReference nat)
    (ds d : ManagedObjectReference) :
  counted (countDatastore dsList d) ds
    = (counted dsList ds + if decide (d = ds) then 1 else 0)%nat.
Proof.
  unfold counted, countDatastore.
  destruct (decide (d = ds)) as [->|Hne].
  - destruct (dsList !! ds) as [n|]; rewrite lookup_insert_eq; lia.
  - destruct (dsList !! d) as [n|]; rewrite lookup_insert_ne by exact Hne;
      destruct (dsList !! ds); lia.
Qed.

Lemma countDatastore_positive (dsList : gmap ManagedObjectReference nat)
    (d : ManagedObjectReference) :
  positive dsList -> positive (countDatastore dsList d).
Proof.
  intros Hp ds n. unfold countDatastore.
  destruct (dsList !! d) as [k|] eqn:Ed;
    (destruct (decide (d = ds)) as [->|Hne];
     [rewrite lookup_insert_eq; intros; simplify_eq; lia
     |rewrite lookup_insert_ne by exact Hne; apply Hp]).
Qed.

Lemma foldl_countDatastore (l : list ManagedObjectReference)
    (dsList : gmap ManagedObjectReference nat) (ds : ManagedObjectReference) :
  positive dsList ->
  positive (foldl countDatastore dsList l) /\
  counted (foldl countDatastore dsList l) ds
    = (counted dsList ds + occurrences ds l)%nat.
Proof.
  revert dsList. induction l as [|d l IH]; intros dsList Hp; cbn [foldl].
  - split; [exact Hp|]. unfold occurrences. cbn. lia.
  - destruct (IH (countDatastore dsList d) (countDatastore_positive _ _ Hp))
      as [Hp' Hc].
    split; [exact Hp'|]. rewrite Hc, countDatastore_counted.
    unfold occurrences. rewrite filter_cons.
    destruct (decide (d = ds)); cbn [List.length]; lia.
Qed.

Lemma countHosts_counted (hsMos : list HostSystem)
    (dsList : gmap ManagedObjectReference nat) (ds : ManagedObjectReference) :
  positive dsList ->
  positive (countHosts hsMos dsList) /\
  counted (countHosts hsMos dsList) ds = (counted dsList ds + total ds hsMos)%nat.
Proof.
  revert dsList. induction hsMos as [|h rest IH]; intros dsList Hp;
    cbn [countHosts foldl total].
  - split; [exact Hp|]. lia.
  - destruct (foldl_countDatastore (HostDatastore h) dsList ds Hp) as [Hp' Hc].
    destruct (IH _ Hp') as [Hp'' Hc']. split; [exact Hp''|].
    unfold countHosts in Hc'. rewrite Hc', Hc. lia.
Qed.

Lemma occurrences_NoDup (ds : ManagedObjectReference)
    (l : list ManagedObjectReference) :
  NoDup l -> occurrences ds l = if decide (ds ∈ l) then 1%nat else 0%nat.
Proof.
  unfold occurrences. induction 1 as [|d l Hnin Hnd IH].
  - destruct (decide (ds ∈ [])) as [Hin|_]; [|reflexivity].
    apply elem_of_nil in Hin. contradiction.
  - rewrite filter_cons. destruct (decide (d = ds)) as [->|Hne].
    + cbn [List.length]. rewrite IH.
      destruct (decide (ds ∈ l)); [contradiction|].
      destruct (decide (ds ∈ ds :: l)) as [_|Hn]; [reflexivity|].
      destruct Hn. apply elem_of_cons. left. reflexivity.
    + rewrite IH. destruct (decide (ds ∈ l)) as [Hin|Hnin'].
      * destruct (decide (ds ∈ d :: l)) as [_|Hn]; [reflexivity|].
        destruct Hn. apply elem_of_cons. right. exact Hin.
      * destruct (decide (ds ∈ d :: l)) as [Hin|_]; [|reflexivity].
        apply elem_of_cons in Hin as [->|Hin]; contradiction.
Qed.

Lemma total_NoDup (ds : ManagedObjectReference) (hsMos : list HostSystem) :
  Forall (fun h => NoDup (HostDatastore h)) hsMos ->
  (total ds hsMos <= List.length hsMos)%nat /\
  (total ds hsMos = List.length hsMos <->
   forall h, h ∈ hsMos -> ds ∈ HostDatastore h).
Proof.
  induction 1 as [|h rest Hnd Hrest [IHle IHeq]]; cbn [total List.length].
  - split; [lia|]. split; [|reflexivity].
    intros _ h Hin. apply elem_of_nil in Hin. contradiction.
  - rewrite (occurrences_NoDup _ _ Hnd).
    destruct (decide (ds ∈ HostDatastore h)) as [Hin|Hnin].
    + split; [lia|]. split.
      * intros Ht h' Hh'. apply elem_of_cons in Hh' as [->|Hh']; [exact Hin|].
        apply IHeq; [lia|exact Hh'].
      * intros Hall. f_equal. apply IHeq. intros h' Hh'. apply Hall.
        apply elem_of_cons. right. exact Hh'.
    + split; [lia|]. split; [lia|].
      intros Hall. destruct Hnin. apply Hall, elem_of_cons. left. reflexivity.
Qed.

Lemma sharedLoop_filter (entries : list (ManagedObjectReference * nat))
    (nHosts : nat) (dsMors : list ManagedObjectReference) :
  sharedLoop entries nHosts dsMors
    = (dsMors ++ (fst <$> filter (fun e => e.2 = nHosts) entries))%list.
Proof.
  revert dsMors. induction entries as [|[key value] rest IH]; intros dsMors;
    cbn [sharedLoop].
  - rewrite app_nil_r. reflexivity.
  - rewrite IH, filter_cons. cbn [snd].
    destruct (Nat.eqb_spec value nHosts) as [->|Hne].
    + rewrite decide_True by reflexivity. rewrite <- app_assoc. reflexivity.
    + rewrite decide_False by exact Hne. reflexivity.
Qed.

(** X14. When the hosts of a non-empty cluster can be retrieved and no
    host lists a datastore twice, [getSharedDatastoreInCluster] returns,
    whatever order the range over its counting map takes, each datastore
    once, and a datastore is returned exactly when every retrieved host
    lists it (and there is a host). *)
Theorem getSharedDatastoreInCluster_shared (vm : VM)
    (crHost : list ManagedObjectReference) (hsMos : list HostSystem) :
  crHost <> [] ->
  RetrieveHostSystems crHost = Ok hsMos ->
  Forall (fun h => NoDup (HostDatastore h)) hsMos ->
  exists dsMors,
    getSharedDatastoreInCluster vm crHost = Ok dsMors /\
    NoDup dsMors /\
    forall ds,
      ds ∈ dsMors <->
      hsMos <> [] /\ forall h, h ∈ hsMos -> ds ∈ HostDatastore h.
Proof.
  intros Hne Hr Hnd. unfold getSharedDatastoreInCluster.
  destruct crHost as [|h0 crHost]; [contradiction|]. cbn [List.length Nat.eqb].
  rewrite Hr. cbv zeta. eexists. split; [reflexivity|].
  rewrite sharedLoop_filter, app_nil_l.
  set (m := countHosts hsMos ∅).
  assert (Hperm : filter (fun e : ManagedObjectReference * nat =>
                            e.2 = List.length hsMos) (range m)
                  ≡ₚ filter (fun e => e.2 = List.length hsMos) (map_to_list m))
    by (rewrite (range_visits m); reflexivity).
  split.
  - rewrite Hperm.
    apply (sublist_NoDup _ (fst <$> map_to_list m));
      [apply NoDup_fst_map_to_list|apply fmap_sublist, sublist_filter].
  - intros ds. rewrite Hperm, list_elem_of_fmap.
    assert (Hp0 : positive (∅ : gmap ManagedObjectReference nat))
      by (intros d n Hd; rewrite lookup_empty in Hd; discriminate).
    destruct (countHosts_counted hsMos ∅ ds Hp0) as [Hp Hc]. fold m in Hp, Hc.
    unfold counted in Hc. rewrite lookup_empty in Hc. cbn [Nat.add] in Hc.
    destruct (total_NoDup ds hsMos Hnd) as [Hle Heq].
    split.
    + intros ([d n] & -> & Hin). apply list_elem_of_filter in Hin as [Hn Hin].
      cbn [fst snd] in *. apply elem_of_map_to_list in Hin.
      rewrite Hin in Hc. pose proof (Hp _ _ Hin) as Hpos.
      split; [intros ->; cbn in Hn; lia|]. apply Heq. lia.
    + intros [Hnz Hall]. apply Heq in Hall.
      exists (ds, List.length hsMos). split; [reflexivity|].
      apply list_elem_of_filter. split; [reflexivity|].
      apply elem_of_map_to_list.
      destruct (m !! ds) as [n|]; [congruence|].
      destruct hsMos; [contradiction|]. cbn [List.length] in *. lia.
Qed.

End Cluster.

(** Two hosts: the first lists datastore-1 and datastore-2, the second
    datastore-2 and datastore-3. *)
Definition sampleRetrieveHostSystems (hosts : list ManagedObjectReference)
  : result (list HostSystem) :=
  Ok [ {| HostNetwork := [];
          HostDatastore := [datastoreRef "datastore-1";
                            datastoreRef "datastore-2"] |};
       {| HostNetwork := [];
          HostDatastore := [datastoreRef "datastore-2";
                            datastoreRef "datastore-3"] |} ].

Lemma getSharedDatastoreInCluster_shared_witness :
  getSharedDatastoreInCluster sampleRetrieveHostSystems map_to_list sampleVM
    [hostRef "host-1"; hostRef "host-2"] = Ok [datastoreRef "datastore-2"] /\
  exists dsMors,
    getSharedDatastoreInCluster sampleRetrieveHostSystems map_to_list sampleVM
      [hostRef "host-1"; hostRef "host-2"] = Ok dsMors /\
    NoDup dsMors.
Proof.
  split; [vm_compute; reflexivity|].
  destruct (getSharedDatastoreInCluster_shared sampleRetrieveHostSystems
              map_to_list (fun m => reflexivity (map_to_list m)) sampleVM
              [hostRef "host-1"; hostRef "host-2"]
              [ {| HostNetwork := [];
                   HostDatastore := [datastoreRef "datastore-1";
                                     datastoreRef "datastore-2"] |};
                {| HostNetwork := [];
                   HostDatastore := [datastoreRef "datastore-2";
                                     datastoreRef "datastore-3"] |} ])
    as (dsMors & Hds & Hnd & _).
  - discriminate.
  - reflexivity.
  - repeat constructor; cbn [HostDatastore];
      apply (bool_decide_unpack _); vm_compute; exact I.
  - exists dsMors. split; [exact Hds|exact Hnd].
Defined.

End Shared.

(** * More on disks and device lists *)

Module Volumes.
Import Disks.

(** What a non-nil entry of the result says of the template's disks: it
    is no addition, it is about one of them, under its key and backing,
    and its capacity is not below that disk's. *)
Definition reconciles (devices : list BaseVirtualDevice)
    (spec : VirtualDeviceConfigSpec) : Prop :=
  Operation spec <> VirtualDeviceConfigSpecOperationAdd /\
  exists editdisk,
    editdisk ∈ virtualDisks devices /\
    Key (Device spec) = Key editdisk /\
    Backing (Device spec) = Backing editdisk /\
    CapacityInKB editdisk <= CapacityInKB (Device spec).

(** The loop passes the disk: it has a file backing and does not
    shrink. *)
Definition passes (disks : list Disk) (editdisk : VirtualDisk) : Prop :=
  fileBacked editdisk /\ shrinks disks editdisk = false.

(** [editdisk] is the first virtual disk of the list that the loop does
    not pass. *)
Definition stopsAt (devices : list BaseVirtualDevice) (disks : list Disk)
    (editdisk : VirtualDisk) : Prop :=
  exists before after,
    virtualDisks devices = (before ++ editdisk :: after)%list /\
    Forall (passes disks) before /\ ~ passes disks editdisk.

Lemma reconciles_cons (device : BaseVirtualDevice)
    (devices : list BaseVirtualDevice) (spec : VirtualDeviceConfigSpec) :
  reconciles devices spec -> reconciles (device :: devices) spec.
Proof.
  intros [Hop (d & Hin & H)]. split; [exact Hop|]. exists d. split; [|exact H].
  destruct device as [d'|k]; [|exact Hin].
  rewrite virtualDisks_cons. apply elem_of_cons. right. exact Hin.
Qed.

Lemma stopsAt_cons (d : VirtualDisk) (rest : list BaseVirtualDevice)
    (disks : list Disk) (editdisk : VirtualDisk) :
  passes disks d -> stopsAt rest disks editdisk ->
  stopsAt (VirtualDiskDevice d :: rest) disks editdisk.
Proof.
  intros Hd (before & after & Hv & Hb & Hn).
  exists (d :: before), after. rewrite virtualDisks_cons, Hv.
  split; [reflexivity|]. split; [constructor; assumption|exact Hn].
Qed.

Lemma stopsAt_here (d : VirtualDisk) (rest : list BaseVirtualDevice)
    (disks : list Disk) :
  ~ passes disks d -> stopsAt (VirtualDiskDevice d :: rest) disks d.
Proof.
  intros Hn. exists [], (virtualDisks rest). rewrite virtualDisks_cons.
  split; [reflexivity|]. split; [constructor|exact Hn].
Qed.

(** The first disk that is not passed is unique. *)
Lemma stopsAt_unique (devices : list BaseVirtualDevice) (disks : list Disk)
    (d1 d2 : VirtualDisk) :
  stopsAt devices disks d1 -> stopsAt devices disks d2 -> d1 = d2.
Proof.
  intros (b1 & a1 & H1 & Hb1 & Hn1) (b2 & a2 & H2 & Hb2 & Hn2).
  rewrite H1 in H2. clear H1. revert b2 H2 Hb2.
  induction Hb1 as [|x b1 Hx Hb1 IH]; intros b2 H2 Hb2.
  - destruct b2 as [|y b2]; cbn [app] in H2; [congruence|].
    apply Forall_cons in Hb2 as [Hy _]. injection H2 as -> _. contradiction.
  - destruct b2 as [|y b2]; cbn [app] in H2.
    + injection H2 as -> _. contradiction.
    + apply Forall_cons in Hb2 as [_ Hb2]. injection H2 as _ H2.
      exact (IH b2 H2 Hb2).
Qed.

(** What each outcome of the loop says of the template's disks. *)
Lemma resizeLoop_cases (devices : list BaseVirtualDevice) (disks : list Disk)
    (deviceSpecs : list BaseVirtualDeviceConfigSpec) :
  match resizeLoop devices disks deviceSpecs with
  | None =>
      exists editdisk,
        stopsAt devices disks editdisk /\ fileBackingInfo editdisk = None
  | Some (Err err) =>
      err = shrinkError /\
      exists editdisk,
        stopsAt devices disks editdisk /\ shrinks disks editdisk = true
  | Some (Ok specs) =>
      Forall (passes disks) (virtualDisks devices) /\
      exists new,
        specs = (deviceSpecs ++ new)%list /\
        List.length new = List.length (virtualDisks devices) /\
        forall spec, Some spec ∈ new -> reconciles devices spec
  end.
Proof.
  revert deviceSpecs.
  induction devices as [|[d|k] rest IH]; intros deviceSpecs; cbn [resizeLoop].
  - split; [constructor|]. exists []. rewrite app_nil_r.
    split; [reflexivity|]. split; [reflexivity|].
    intros spec Hin. apply elem_of_nil in Hin. contradiction.
  - assert (Hd : d ∈ virtualDisks (VirtualDiskDevice d :: rest))
      by (apply elem_of_cons; left; reflexivity).
    assert (Hstep : forall entry : BaseVirtualDeviceConfigSpec,
              passes disks d ->
              (forall spec, entry = Some spec ->
                 reconciles (VirtualDiskDevice d :: rest) spec) ->
              match resizeLoop rest disks (deviceSpecs ++ [entry]) with
              | None =>
                  exists editdisk,
                    stopsAt (VirtualDiskDevice d :: rest) disks editdisk /\
                    fileBackingInfo editdisk = None
              | Some (Err err) =>
                  err = shrinkError /\
                  exists editdisk,
                    stopsAt (VirtualDiskDevice d :: rest) disks editdisk /\
                    shrinks disks editdisk = true
              | Some (Ok specs) =>
                  Forall (passes disks)
                    (virtualDisks (VirtualDiskDevice d :: rest)) /\
                  exists new,
                    specs = (deviceSpecs ++ new)%list /\
                    List.length new
                      = List.length (virtualDisks (VirtualDiskDevice d :: rest)) /\
                    forall spec, Some spec ∈ new ->
                      reconciles (VirtualDiskDevice d :: rest) spec
              end).
    { intros entry Hpass Hentry. specialize (IH (deviceSpecs ++ [entry])%list).
      destruct (resizeLoop rest disks (deviceSpecs ++ [entry]))
        as [[specs|err]|].
      - destruct IH as (Hall & new & -> & Hlen & Hnew).
        rewrite virtualDisks_cons. split; [constructor; assumption|].
        exists (entry :: new). rewrite <- app_assoc. split; [reflexivity|].
        split; [cbn [List.length]; rewrite Hlen; reflexivity|].
        intros spec Hin. apply elem_of_cons in Hin as [<-|Hin].
        + apply Hentry. reflexivity.
        + apply reconciles_cons, Hnew, Hin.
      - destruct IH as (-> & e & Hstop & Hs). split; [reflexivity|].
        exists e. split; [apply stopsAt_cons; assumption|exact Hs].
      - destruct IH as (e & Hstop & Hb).
        exists e. split; [apply stopsAt_cons; assumption|exact Hb]. }
    destruct (fileBackingInfo d) as [name|] eqn:Eb.
    2:{ exists d. split; [|exact Eb]. apply stopsAt_here.
        intros [[n Hn] _]. unfold fileBacked in Hn. congruence. }
    assert (Hfb : fileBacked d) by (exists name; exact Eb).
    destruct (findByVirtualDeviceFileName disks name) as [disk|] eqn:Ef.
    + cbv zeta. fold (requestedKB disk).
      destruct (CapacityInKB d >? requestedKB disk) eqn:Egt.
      * assert (Hs : shrinks disks d = true)
          by (unfold shrinks, entryFor; rewrite Eb, Ef; exact Egt).
        split; [reflexivity|]. exists d. split; [|exact Hs].
        apply stopsAt_here. intros [_ Hn]. congruence.
      * assert (Hpass : passes disks d).
        { split; [exact Hfb|]. unfold shrinks, entryFor.
          rewrite Eb, Ef. exact Egt. }
        destruct (Z.ltb_spec (CapacityInKB d) (requestedKB disk)) as [Hlt|Hge].
        -- apply (Hstep _ Hpass). intros spec Hspec. simplify_eq.
           split; [discriminate|]. exists d. cbn.
           split; [exact Hd|]. split; [reflexivity|]. split; [reflexivity|lia].
        -- apply (Hstep _ Hpass). discriminate.
    + assert (Hpass : passes disks d).
      { split; [exact Hfb|]. unfold shrinks, entryFor.
        rewrite Eb, Ef. reflexivity. }
      apply (Hstep _ Hpass). intros spec Hspec. simplify_eq.
      split; [discriminate|]. exists d. cbn.
      split; [exact Hd|]. split; [reflexivity|]. split; [reflexivity|lia].
  - specialize (IH deviceSpecs).
    destruct (resizeLoop rest disks deviceSpecs) as [[specs|err]|].
    + destruct IH as (Hall & new & -> & Hlen & Hnew). split; [exact Hall|].
      exists new. split; [reflexivity|]. split; [exact Hlen|].
      intros spec Hin. apply reconciles_cons, Hnew, Hin.
    + exact IH.
    + exact IH.
Qed.

Lemma stopsAt_not_all (devices : list BaseVirtualDevice) (disks : list Disk)
    (editdisk : VirtualDisk) :
  stopsAt devices disks editdisk ->
  Forall (passes disks) (virtualDisks devices) -> False.
Proof.
  intros (before & after & -> & _ & Hn) Hall.
  apply Forall_app in Hall as [_ Hall]. apply Forall_cons in Hall as [Hd _].
  contradiction.
Qed.

(** X15. [resizeAndDeleteVols] goes through the virtual disks of the
    template in device order and stops at the first one it does not pass:
    it panics exactly when that disk has no file backing (the assertion
    of line 818), and it returns an error, which is the shrink error,
    exactly when that disk is larger than the entry found for it.  When
    every disk is passed it returns a list with one entry for each
    virtual disk of the template, nil ones included, and a non-nil entry
    never adds a device: it is a removal or an edit of one of the
    template's disks, under its key and backing, with a capacity that is
    not below the disk's. *)
Theorem resizeAndDeleteVols_outcome (devices : list BaseVirtualDevice)
    (disks : list Disk) :
  (resizeAndDeleteVols devices disks = None <->
   exists editdisk,
     stopsAt devices disks editdisk /\ fileBackingInfo editdisk = None) /\
  (forall err,
     resizeAndDeleteVols devices disks = Some (Err err) <->
     err = shrinkError /\
     exists editdisk,
       stopsAt devices disks editdisk /\ shrinks disks editdisk = true) /\
  ((exists specs, resizeAndDeleteVols devices disks = Some (Ok specs)) <->
   Forall (passes disks) (virtualDisks devices)) /\
  (forall specs,
     resizeAndDeleteVols devices disks = Some (Ok specs) ->
     List.length specs = List.length (virtualDisks devices) /\
     forall spec, Some spec ∈ specs -> reconciles devices spec).
Proof.
  pose proof (resizeLoop_cases devices disks []) as H.
  fold (resizeAndDeleteVols devices disks) in H.
  assert (Hexcl : forall d1 d2,
            stopsAt devices disks d1 -> fileBackingInfo d1 = None ->
            stopsAt devices disks d2 -> shrinks disks d2 = true -> False).
  { intros d1 d2 H1 Hb H2 Hs.
    rewrite (stopsAt_unique _ _ _ _ H1 H2) in Hb.
    unfold shrinks, entryFor in Hs. rewrite Hb in Hs. discriminate. }
  destruct (resizeAndDeleteVols devices disks) as [[specs|err]|].
  - destruct H as (Hall & new & -> & Hlen & Hnew). rewrite app_nil_l.
    split; [|split; [|split]].
    + split; [discriminate|]. intros (d & Hstop & _).
      destruct (stopsAt_not_all _ _ _ Hstop Hall).
    + intros e. split; [discriminate|]. intros (_ & d & Hstop & _).
      destruct (stopsAt_not_all _ _ _ Hstop Hall).
    + split; [intros _; exact Hall|eauto].
    + intros specs Heq. simplify_eq. split; [exact Hlen|exact Hnew].
  - destruct H as (-> & d & Hstop & Hs). split; [|split; [|split]].
    + split; [discriminate|]. intros (d' & Hstop' & Hb).
      destruct (Hexcl _ _ Hstop' Hb Hstop Hs).
    + intros e. split.
      * intros Heq. simplify_eq. split; [reflexivity|]. eauto.
      * intros [-> _]. reflexivity.
    + split; [intros [specs Heq]; discriminate|].
      intros Hall. destruct (stopsAt_not_all _ _ _ Hstop Hall).
    + discriminate.
  - destruct H as (d & Hstop & Hb). split; [|split; [|split]].
    + split; [eauto|reflexivity].
    + intros e. split; [discriminate|]. intros (_ & d' & Hstop' & Hs).
      destruct (Hexcl _ _ Hstop Hb Hstop' Hs).
    + split; [intros [specs Heq]; discriminate|].
      intros Hall. destruct (stopsAt_not_all _ _ _ Hstop Hall).
    + discriminate.
Qed.

End Volumes.

Module DeviceList.

(** The backing of a device: a file backing, which has a file name, or a
    backing of another kind. *)
Inductive BaseVirtualDeviceBackingInfo : Type :=
| FileBackingInfo (FileName : string)
| OtherBackingInfo.

(** [types.VirtualDevice] with the fields read here; [Backing] is an
    interface value and [UnitNumber] a pointer, [None] when nil. *)
Record VirtualDevice : Type := {
  Key : Z;
  Backing : option BaseVirtualDeviceBackingInfo;
  UnitNumber : option Z;
}.

(** The loop at lines 1061-1063 of [diffDisks]. *)
Definition keysOf (devList1 : list VirtualDevice) : gmap Z Z :=
  foldl (fun m v => <[ Key v := 0 ]> m) ∅ devList1.

(** Line 1067: the type assertion panics on a backing that is nil or no
    file backing. *)
Definition fileNameOf (v : VirtualDevice) : option string :=
  match Backing v with
  | Some (FileBackingInfo vmdkFile) => Some vmdkFile
  | _ => None
  end.

(** The loop at lines 1065-1070; [None] is a run-time panic. *)
Fixpoint diffLoop (devList2 : list VirtualDevice) (m : gmap Z Z)
    (disks : list string) : option (list string) :=
  match devList2 with
  | [] => Some disks
  | v :: rest =>
      match m !! Key v with
      | Some _ => diffLoop rest m disks
      | None =>
          match fileNameOf v with
          | Some vmdkFile => diffLoop rest m (disks ++ [vmdkFile])
          | None => None
          end
      end
  end.

(** [diffDisks], lines 1058-1072. *)
Definition diffDisks (devList2 devList1 : list VirtualDevice)
  : option (list string) :=
  diffLoop devList2 (keysOf devList1) [].

(** [resetUnitNumbers], lines 359-367, on the device changes of the
    import spec: the devices after the call. *)
Definition resetUnitNumbers (deviceChange : list VirtualDevice)
  : list VirtualDevice :=
  (fun d =>
     match UnitNumber d with
     | Some n =>
         if n =? 0 then
           {| Key := Key d; Backing := Backing d; UnitNumber := Some (-1) |}
         else d
     | None => d
     end) <$> deviceChange.

(** *** Properties *)

Lemma keysOf_lookup (devList1 : list VirtualDevice) (m : gmap Z Z) (key : Z) :
  is_Some (foldl (fun m v => <[ Key v := 0 ]> m) m devList1 !! key) <->
  is_Some (m !! key) \/ key ∈ Key <$> devList1.
Proof.
  revert m. induction devList1 as [|v rest IH]; intros m; cbn [foldl fmap list_fmap].
  - split; [auto|]. intros [H|H]; [exact H|]. apply elem_of_nil in H. contradiction.
  - rewrite IH, elem_of_cons. destruct (decide (Key v = key)) as [->|Hne].
    + rewrite lookup_insert_eq. split; [auto|]. intros _. left. eauto.
    + rewrite lookup_insert_ne by exact Hne. split.
      * intros [H|H]; auto.
      * intros [H|[H|H]]; auto. congruence.
Qed.

(** The devices of the second list whose key the first list lacks. *)
Definition added (devList2 devList1 : list VirtualDevice) : list VirtualDevice :=
  filter (fun v => Key v ∉ Key <$> devList1) devList2.

Lemma diffLoop_added (devList2 devList1 : list VirtualDevice)
    (disks : list string) :
  diffLoop devList2 (keysOf devList1) disks
    = (fun names => (disks ++ names)%list)
        <$> mapM fileNameOf (added devList2 devList1).
Proof.
  revert disks. unfold added.
  induction devList2 as [|v rest IH]; intros disks; cbn [diffLoop].
  - cbn. rewrite app_nil_r. reflexivity.
  - rewrite filter_cons.
    pose proof (keysOf_lookup devList1 ∅ (Key v)) as Hk.
    fold (keysOf devList1) in Hk.
    destruct (keysOf devList1 !! Key v) as [z|] eqn:El.
    + rewrite decide_False; [apply IH|].
      intros Hn. apply Hn. destruct Hk as [Hk _].
      destruct Hk as [Hk|Hk]; [eauto| |exact Hk].
      rewrite lookup_empty in Hk. destruct Hk as [? Hk]. discriminate.
    + rewrite decide_True.
      2:{ intros Hin. destruct Hk as [_ Hk]. destruct Hk as [? Hk]; [auto|].
          discriminate. }
      cbn [mapM]. destruct (fileNameOf v) as [vmdkFile|]; [|reflexivity].
      rewrite IH. cbn. destruct (mapM fileNameOf _) as [names|]; [|reflexivity].
      cbn. rewrite <- app_assoc. reflexivity.
Qed.

(** X16. [diffDisks] returns the file names of the devices of its first
    list whose key does not occur in its second list, in the order of the
    first list, and panics exactly when one of these devices has no file
    backing; the backing of a device whose key occurs in the second list
    is never looked at.  So a list differs from itself by nothing, and a
    list extended by one device with a new key differs from the list
    before by that device's file name. *)
Theorem diffDisks_added (devList2 devList1 : list VirtualDevice) :
  diffDisks devList2 devList1 = mapM fileNameOf (added devList2 devList1) /\
  diffDisks devList1 devList1 = Some [] /\
  (forall v vmdkFile,
     Key v ∉ Key <$> devList1 ->
     Backing v = Some (FileBackingInfo vmdkFile) ->
     diffDisks (devList1 ++ [v]) devList1 = Some [vmdkFile]).
Proof.
  assert (Hself : forall l more, added l (l ++ more) = []).
  { intros l. unfold added. induction l as [|v rest IH] using rev_ind;
      intros more; [reflexivity|].
    rewrite filter_app, <- app_assoc, IH, filter_cons, decide_False;
      [reflexivity|].
    intros Hn. apply Hn. rewrite !fmap_app. cbn.
    apply elem_of_app. right. apply elem_of_cons. left. reflexivity. }
  assert (Hgen : forall l2 l1, diffDisks l2 l1 = mapM fileNameOf (added l2 l1)).
  { intros l2 l1. unfold diffDisks. rewrite diffLoop_added.
    destruct (mapM fileNameOf (added l2 l1)); reflexivity. }
  split; [apply Hgen|]. split.
  - rewrite Hgen. rewrite <- (app_nil_r devList1) at 2. rewrite Hself.
    reflexivity.
  - intros v vmdkFile Hnew Hb. rewrite Hgen. unfold added.
    rewrite filter_app. fold (added devList1 devList1).
    rewrite <- (app_nil_r devList1) at 2. rewrite Hself.
    rewrite filter_cons, decide_True by exact Hnew. cbn.
    unfold fileNameOf. rewrite Hb. reflexivity.
Qed.

(** X17. After [resetUnitNumbers] no device has the unit number 0: each
    device that had it has -1 instead, under the same key and backing,
    and every other device is left as it was; a second call changes
    nothing. *)
Theorem resetUnitNumbers_no_zero (deviceChange : list VirtualDevice) :
  Forall (fun d => UnitNumber d <> Some 0) (resetUnitNumbers deviceChange) /\
  Forall2 (fun d d' =>
             Key d' = Key d /\ Backing d' = Backing d /\
             UnitNumber d' = (if decide (UnitNumber d = Some 0) then Some (-1)
                              else UnitNumber d))
    deviceChange (resetUnitNumbers deviceChange) /\
  resetUnitNumbers (resetUnitNumbers deviceChange) = resetUnitNumbers deviceChange.
Proof.
  unfold resetUnitNumbers. split; [|split].
  - apply Forall_fmap, Forall_forall. intros d _. cbn.
    destruct (UnitNumber d) as [n|] eqn:En; [|congruence].
    destruct (Z.eqb_spec n 0) as [->|Hne]; cbn; [discriminate|].
    rewrite En. congruence.
  - apply Forall2_fmap_r, Forall_Forall2_diag, Forall_forall. intros d _.
    unfold compose. destruct (UnitNumber d) as [n|] eqn:En.
    + destruct (Z.eqb_spec n 0) as [->|Hne]; cbn.
      * rewrite decide_True by reflexivity. auto.
      * rewrite En, decide_False by congruence. auto.
    + rewrite decide_False by discriminate. auto.
  - rewrite <- list_fmap_compose. apply list_fmap_ext. intros i d _. cbn.
    destruct (UnitNumber d) as [n|] eqn:En; [|rewrite En; reflexivity].
    destruct (Z.eqb_spec n 0) as [->|Hne]; cbn; [reflexivity|].
    rewrite En. destruct (Z.eqb_spec n 0); [contradiction|reflexivity].
Qed.

End DeviceList.

(** * Guest shutdown *)

Module Power.
Import Lifecycle.

Definition RETRY_COUNT : nat := 20.

Section Clock.

(** [lvm.ErrVMInfoFailed], an error value of package virtualmachine. *)
Variable ErrVMInfoFailed : error.
(** What the [n]-th call of the function variable [findVM] returns,
    counted from 0: the state of a VM changes between the calls. *)
Variable findVMAt : nat -> VMSearchFilter -> result VirtualMachine.
Variable ShutdownGuest : ManagedObjectReference -> option error.

(** [getState], lines 1724-1732, as the [n]-th call of [findVM]. *)
Definition getState (n : nat) (vm : VM) : result string :=
  match findVMAt n (getVMSearchFilter (VMName vm)) with
  | Err _ => Err ErrVMInfoFailed
  | Ok vmMo => Ok (GuestState vmMo)
  end.

(** Line 1280, [state, _ = getState(vm)]: the state after one more poll;
    an error leaves the empty string, the first result of [getState]. *)
Definition poll (n : nat) (vm : VM) : string :=
  match getState n vm with
  | Ok state => state
  | Err _ => ""
  end.

(** The loop of [shutDown], lines 1279-1283, before the call [calls] of
    [findVM]: the value of [retry] when it ends, and the calls made. *)
Fixpoint shutDownLoop (vm : VM) (retry calls : nat) (state : string)
  : nat * nat :=
  match retry with
  | O => (O, calls)
  | S retry' =>
      if String.eqb state "notRunning" then (retry, calls)
      else shutDownLoop vm retry' (S calls) (poll calls vm)
  end.

(** [shutDown], lines 1263-1288: the number of calls of [findVM] and the
    error returned. *)
Definition shutDown (vm : VM) : nat * option error :=
  match findVMAt 0 (getVMSearchFilter (VMName vm)) with
  | Err err => (1%nat, Some err)
  | Ok vmMo =>
      match ShutdownGuest (Self vmMo) with
      | Some err =>
          (1%nat, Some (Errorf "error initiating shutDown on the vm: %v"
                          [ArgError (Some err)]))
      | None =>
          match getState 1 vm with
          | Err err =>
              (2%nat, Some (Errorf "Error getting state of vm : %v"
                              [ArgError (Some err)]))
          | Ok state =>
              let '(retry, calls) := shutDownLoop vm RETRY_COUNT 2 state in
              if (retry =? 0)%nat then
                (calls, Some (Errorf "Shutting down vm: %s timed out"
                                [ArgString (VMName vm)]))
              else (calls, None)
          end
      end
  end.

(** *** Properties *)

(** The state the loop holds after [k] polls, the first of them being the
    call [calls] of [findVM]. *)
Fixpoint observed (vm : VM) (calls : nat) (state : string) (k : nat) : string :=
  match k with
  | O => state
  | S k' => observed vm (S calls) (poll calls vm) k'
  end.

Lemma shutDownLoop_retry (vm : VM) (retry calls : nat) (state : string) :
  (fst (shutDownLoop vm retry calls state) <> 0%nat <->
   exists k, (k < retry)%nat /\ observed vm calls state k = "notRunning") /\
  (calls <= snd (shutDownLoop vm retry calls state) <= calls + retry)%nat /\
  ((forall k, (k < retry)%nat -> observed vm calls state k <> "notRunning") ->
   snd (shutDownLoop vm retry calls state) = (calls + retry)%nat).
Proof.
  revert calls state.
  induction retry as [|retry IH]; intros calls state; cbn [shutDownLoop].
  - cbn [fst snd]. split; [|split; [lia|intros _; lia]].
    split; [contradiction|]. intros (k & Hk & _). lia.
  - destruct (String.eqb_spec state "notRunning") as [->|Hne]; cbn [fst snd].
    + split; [|split; [lia|]].
      * split; [|discriminate]. intros _. exists 0%nat. split; [lia|reflexivity].
      * intros Hnone. destruct (Hnone 0%nat); [lia|reflexivity].
    + destruct (IH (S calls) (poll calls vm)) as (Hiff & Hle & Hall).
      split; [|split; [lia|]].
      * rewrite Hiff. split.
        -- intros (k & Hk & Ho). exists (S k). split; [lia|exact Ho].
        -- intros ([|k] & Hk & Ho); [contradiction|].
           exists k. split; [lia|exact Ho].
      * intros Hnone. rewrite Hall; [lia|].
        intros k Hk. apply (Hnone (S k)). lia.
Qed.

(** X18. Once the guest shutdown has been initiated and the state read,
    [shutDown] returns without error exactly when ["notRunning"] is the
    state read first or after one of the first 19 polls; a failed poll
    counts as the empty state.  It never calls [findVM] more than 22
    times; when none of these 20 states is ["notRunning"] it makes the
    20th poll and returns the time-out error whatever that poll says. *)
Theorem shutDown_retries (vm : VM) (vmMo : VirtualMachine) (state : string) :
  findVMAt 0 (getVMSearchFilter (VMName vm)) = Ok vmMo ->
  ShutdownGuest (Self vmMo) = None ->
  getState 1 vm = Ok state ->
  (snd (shutDown vm) = None <->
   exists k, (k < 20)%nat /\ observed vm 2 state k = "notRunning") /\
  (fst (shutDown vm) <= 22)%nat /\
  ((forall k, (k < 20)%nat -> observed vm 2 state k <> "notRunning") ->
   shutDown vm = (22%nat, Some (Errorf "Shutting down vm: %s timed out"
                                  [ArgString (VMName vm)]))).
Proof.
  intros Hf Hs Hg. unfold shutDown. rewrite Hf, Hs, Hg.
  destruct (shutDownLoop_retry vm RETRY_COUNT 2 state) as (Hiff & Hle & Hall).
  destruct (shutDownLoop vm RETRY_COUNT 2 state) as [retry calls].
  cbn [fst snd] in Hiff, Hle, Hall. unfold RETRY_COUNT in Hiff, Hle, Hall.
  split; [|split].
  - rewrite <- Hiff. destruct (Nat.eqb_spec retry 0) as [->|Hne]; cbn [snd].
    + split; [discriminate|]. intros H. destruct H. reflexivity.
    + split; [intros _; exact Hne|reflexivity].
  - destruct (retry =? 0)%nat; cbn [fst]; lia.
  - intros Hnone. rewrite (Hall Hnone).
    destruct (Nat.eqb_spec retry 0) as [->|Hne]; [reflexivity|].
    apply Hiff in Hne as (k & Hk & Ho). destruct (Hnone k Hk Ho).
Qed.

End Clock.

(** A guest that is seen running until the fifth call of [findVM]. *)
Definition sampleFindVMAt (n : nat) (searchFilter : VMSearchFilter)
  : result VirtualMachine :=
  Ok {| Self := {| Type_ := "VirtualMachine"; Value := "vm-12" |};
        GuestState := if (n <? 4)%nat then "running" else "notRunning";
        RecentTask := [] |}.

Definition sampleVM : VM := {| VMName := "web-1"; SkipIPWait := true |}.

Lemma shutDown_retries_witness :
  shutDown (errorsNew "failed to get VM information") sampleFindVMAt
    (fun _ => None) sampleVM = (5%nat, None) /\
  snd (shutDown (errorsNew "failed to get VM information") sampleFindVMAt
         (fun _ => None) sampleVM) = None.
Proof.
  split; [vm_compute; reflexivity|].
  destruct (shutDown_retries (errorsNew "failed to get VM information")
              sampleFindVMAt (fun _ => None) sampleVM
              {| Self := {| Type_ := "VirtualMachine"; Value := "vm-12" |};
                 GuestState := "running"; RecentTask := [] |}
              "running" eq_refl eq_refl eq_refl) as (Hiff & _ & _).
  apply Hiff. exists 3%nat. split; [lia|reflexivity].
Defined.

End Power.

(** * What the responder never does *)

Module Responses.
Import Question.

Section Responder.

Variable EqualFold : string -> string -> bool.
Variable TrimSpace : string -> string.
Variable MatchString : string -> string -> result bool.
Variable answerVSphereQuestion : list Answer -> string -> string -> option error.

Local Abbreviation answerLoop :=
  (Question.answerLoop EqualFold TrimSpace MatchString answerVSphereQuestion).
Local Abbreviation answerQuestion :=
  (Question.answerQuestion EqualFold TrimSpace MatchString answerVSphereQuestion).
Local Abbreviation ruleMatches := (Question.ruleMatches MatchString).
Local Abbreviation answerFor := (Question.answerFor EqualFold TrimSpace).

Lemma answerLoop_visited (q : VirtualMachineQuestionInfo)
    (order : list (string * string)) (submitted sent : list Answer)
    (err : option error) :
  answerLoop q order submitted = (sent, err) ->
  exists visited rest,
    order = (visited ++ rest)%list /\
    sent = (submitted ++ (answerFor q <$> filter (ruleMatches q) visited))%list /\
    (err = None -> rest = []).
Proof.
  revert submitted.
  induction order as [|[qre ans] rest IH]; intros submitted H;
    cbn [Question.answerLoop] in H.
  - simplify_eq. exists [], []. cbn. rewrite app_nil_r. auto.
  - destruct (MatchString qre (Text q)) as [[|]|e] eqn:Em.
    + destruct (resolveAnswerAndOptions EqualFold TrimSpace (ChoiceInfo q) ans)
        as [resolved validOptions] eqn:Er.
      assert (Hsent : {| QuestionID := Id q; AnswerText := resolved |}
                      = answerFor q (qre, ans))
        by (unfold Question.answerFor; cbn [snd]; rewrite Er; reflexivity).
      assert (Hm : ruleMatches q (qre, ans))
        by (unfold Question.ruleMatches; cbn [fst]; rewrite Em; exact I).
      cbv zeta in H.
      destruct (answerVSphereQuestion submitted (Id q) resolved) as [e|].
      * simplify_eq. exists [(qre, ans)], rest. split; [reflexivity|].
        rewrite filter_cons_True by exact Hm. rewrite Hsent.
        split; [reflexivity|discriminate].
      * apply IH in H as (visited & rest' & -> & -> & Hnone).
        exists ((qre, ans) :: visited), rest'. split; [reflexivity|].
        rewrite filter_cons_True by exact Hm. rewrite Hsent, <- app_assoc.
        split; [reflexivity|exact Hnone].
    + apply IH in H as (visited & rest' & -> & -> & Hnone).
      exists ((qre, ans) :: visited), rest'. split; [reflexivity|].
      rewrite filter_cons_False
        by (unfold Question.ruleMatches; cbn [fst]; rewrite Em; exact id).
      split; [reflexivity|exact Hnone].
    + simplify_eq. exists [], ((qre, ans) :: rest). rewrite app_nil_r.
      split; [reflexivity|]. split; [reflexivity|discriminate].
Qed.

(** X21. On every path, also the failing ones, [answerQuestion] submits
    nothing but the answers of rules whose regular expression matches the
    question: without a pending question it submits nothing and returns
    no error, whatever the table holds; with one, the answers submitted
    are those of the matching rules among the entries the range has
    visited, in its order, and it returns no error only after visiting
    every entry. *)
Theorem answerQuestion_only_matching (vm : VM) (vmMo : VirtualMachine)
    (order : list (string * string)) :
  (Question vmMo = None -> answerQuestion vm vmMo order = ([], None)) /\
  (forall q, Question vmMo = Some q ->
     exists visited rest,
       order = (visited ++ rest)%list /\
       fst (answerQuestion vm vmMo order)
         = answerFor q <$> filter (ruleMatches q) visited /\
       (snd (answerQuestion vm vmMo order) = None -> rest = [])).
Proof.
  unfold Question.answerQuestion. split.
  - intros ->. reflexivity.
  - intros q ->.
    destruct (answerLoop q order []) as [sent err] eqn:E.
    apply answerLoop_visited in E as (visited & rest & -> & -> & Hnone).
    exists visited, rest. rewrite app_nil_l. auto.
Qed.

End Responder.

End Responses.
